(** * TaskFlow [users] app: registration, login and profile management

    A shallow embedding of [users/models.py], [users/serializers.py] and
    [users/views.py].  The relational store is an explicit state (a table of
    rows, a primary-key sequence, a logical clock and a log of the queries
    issued); Python exceptions are an outcome of the computation; the
    collaborators configured outside the application (Django's e-mail
    format validator, the [AUTH_PASSWORD_VALIDATORS] chain, the password
    hasher, the JWT issuer and the authentication backends) are the fields
    of one record, [Env], that every operation takes.

    Python [str] values are modelled as [string]; an [ascii] stands for the
    code point of the same number (U+0000 .. U+00FF). *)

From Stdlib Require Import String Ascii List Bool Arith PeanoNat Lia.
Import ListNotations.
Local Open Scope string_scope.
Local Open Scope list_scope.
Local Open Scope nat_scope.

(** ** Python string operations *)

Module PyStr.

(** [str.isspace] on one code point below U+0100: TAB..CR, FS..US, space,
    NEL and the no-break space. *)
Definition isspace (c : ascii) : bool :=
  let n := nat_of_ascii c in
  ((9 <=? n) && (n <=? 13)) || ((28 <=? n) && (n <=? 32))
  || (n =? 133) || (n =? 160).

(** The class [[A-Z]] of [re]. *)
Definition is_upper_AZ (c : ascii) : bool :=
  let n := nat_of_ascii c in (65 <=? n) && (n <=? 90).

(** The class [[a-z]] of [re]. *)
Definition is_lower_az (c : ascii) : bool :=
  let n := nat_of_ascii c in (97 <=? n) && (n <=? 122).

(** The class [\d] of [re] on a [str] pattern: the decimal digits (category
    Nd); below U+0100 these are 0..9 only. *)
Definition is_digit (c : ascii) : bool :=
  let n := nat_of_ascii c in (48 <=? n) && (n <=? 57).

(** [str.lower] on one code point below U+0100: A..Z, and the Latin-1
    capitals U+00C0..U+00DE except the multiplication sign U+00D7. *)
Definition lower_char (c : ascii) : ascii :=
  let n := nat_of_ascii c in
  if ((65 <=? n) && (n <=? 90))
     || ((192 <=? n) && (n <=? 222) && negb (n =? 215))
  then ascii_of_nat (n + 32) else c.

Fixpoint lower (s : string) : string :=
  match s with
  | EmptyString => EmptyString
  | String c r => String (lower_char c) (lower r)
  end.

Fixpoint lstrip (s : string) : string :=
  match s with
  | EmptyString => EmptyString
  | String c r => if isspace c then lstrip r else s
  end.

Fixpoint rstrip (s : string) : string :=
  match s with
  | EmptyString => EmptyString
  | String c r =>
      match rstrip r with
      | EmptyString => if isspace c then EmptyString else String c EmptyString
      | r' => String c r'
      end
  end.

(** [s.strip()] *)
Definition strip (s : string) : string := rstrip (lstrip s).

(** [re.search(cls, s)] for a one-character class: some character of [s]
    is in the class. *)
Fixpoint search (cls : ascii -> bool) (s : string) : bool :=
  match s with
  | EmptyString => false
  | String c r => cls c || search cls r
  end.

(** [s[:n]] *)
Fixpoint slice_to (n : nat) (s : string) : string :=
  match n, s with
  | S n', String c r => String c (slice_to n' r)
  | _, _ => EmptyString
  end.

(** [s.rsplit(sep, 1)] for a one-character separator: [None] when [sep]
    does not occur (Python returns the one-element list), otherwise the
    text before and after the last occurrence. *)
Fixpoint rsplit1 (sep : ascii) (s : string) : option (string * string) :=
  match s with
  | EmptyString => None
  | String c r =>
      match rsplit1 sep r with
      | Some (a, b) => Some (String c a, b)
      | None => if Ascii.eqb c sep then Some (EmptyString, r) else None
      end
  end.

(** Truthiness of a [str]: non-empty. *)
Definition truthy (s : string) : bool :=
  match s with EmptyString => false | _ => true end.

(** [c * n] *)
Fixpoint repeat (c : ascii) (n : nat) : string :=
  match n with 0 => EmptyString | S k => String c (repeat c k) end.

End PyStr.

(** ** The persistent store

    One table, [users_customuser].  [save] on a fresh instance inserts a row
    under the next primary key; the only constraint the table enforces is
    [unique=True] on [email], compared exactly.  [created_at] is stamped on
    insertion ([auto_now_add]) and [updated_at] on every save ([auto_now]),
    both from the logical [clock].  [queries] records every statement sent
    to the table, most recent first. *)

Record User := mkUser {
  pk : nat;
  email : string;
  password : string;
  first_name : option string;
  last_name : option string;
  is_active : bool;
  is_staff : bool;
  is_superuser : bool;
  created_at : nat;
  updated_at : nat }.

Inductive Query :=
| Q_exists (value : string)
| Q_exists_excluding (value : string) (excluded : nat)
| Q_get (value : string)
| Q_insert (value : string)
| Q_update (row : nat).

Record DB := mkDB {
  rows : list User;
  next_pk : nat;
  clock : nat;
  queries : list Query }.

(** An empty database: the key sequence of an [AutoField] starts at 1. *)
Definition empty_db : DB := mkDB [] 1 0 [].

(** ** Exceptions and the store monad *)

(** [serializers.ValidationError(detail)]: a message, a list of messages
    (both kept as a list) or a dict of details keyed by field. *)
#[local] Unset Elimination Schemes.
Inductive Detail :=
| DList (msgs : list string)
| DDict (d : list (string * Detail)).
#[local] Set Elimination Schemes.

Inductive exn :=
| ValueError (msg : string)
| KeyError (key : string)
| TypeError (msg : string)
| IntegrityError (msg : string)
| ValidationError (detail : Detail).

Inductive outcome (A : Type) :=
| Returned (a : A)
| Raised (e : exn).
Arguments Returned {A} a.
Arguments Raised {A} e.

Definition M (A : Type) : Type := DB -> outcome A * DB.

Definition ret {A} (a : A) : M A := fun db => (Returned a, db).

Definition raise {A} (e : exn) : M A := fun db => (Raised e, db).

Definition bind {A B} (c : M A) (k : A -> M B) : M B :=
  fun db =>
    match c db with
    | (Returned a, db') => k a db'
    | (Raised e, db') => (Raised e, db')
    end.

Declare Scope py_scope.
Delimit Scope py_scope with py.
Notation "x <- c ;; k" := (bind c (fun x => k))
  (at level 61, c at next level, right associativity) : py_scope.
Notation "c ;;; k" := (bind c (fun _ => k))
  (at level 61, right associativity) : py_scope.
Local Open Scope py_scope.

(** [try: c  except ValidationError as exc: ...]: only validation errors are
    caught; every other exception propagates. *)
Definition try_validation {A} (c : M A) : M (Detail + A) :=
  fun db =>
    match c db with
    | (Returned a, db') => (Returned (inr a), db')
    | (Raised (ValidationError d), db') => (Returned (inl d), db')
    | (Raised e, db') => (Raised e, db')
    end.

Definition log (q : Query) : M unit :=
  fun db => (Returned tt,
             mkDB (rows db) (next_pk db) (clock db) (q :: queries db)).

(** ** QuerySet operations used by the application *)

(** [User.objects.filter(email=value).exists()] *)
Definition filter_email_exists (value : string) : M bool :=
  log (Q_exists value) ;;;
  fun db => (Returned (existsb (fun r => String.eqb (email r) value) (rows db)), db).

(** [User.objects.filter(email=value).exclude(pk=excluded).exists()] *)
Definition filter_email_exclude_exists (value : string) (excluded : nat) : M bool :=
  log (Q_exists_excluding value excluded) ;;;
  fun db => (Returned (existsb (fun r => String.eqb (email r) value && negb (pk r =? excluded))
                         (rows db)), db).

(** [User._default_manager.get_by_natural_key(username)], with [DoesNotExist]
    as [None]; [USERNAME_FIELD] is [email]. *)
Definition get_by_natural_key (username : string) : M (option User) :=
  log (Q_get username) ;;;
  fun db => (Returned (find (fun r => String.eqb (email r) username) (rows db)), db).

Definition UNIQUE_FAILED : string := "UNIQUE constraint failed: users_customuser.email".

(** [user.save()] on an instance that was never saved: INSERT. *)
Definition save_insert (u : User) : M User :=
  log (Q_insert (email u)) ;;;
  fun db =>
    if existsb (fun r => String.eqb (email r) (email u)) (rows db)
    then (Raised (IntegrityError UNIQUE_FAILED), db)
    else
      let saved := mkUser (next_pk db) (email u) (password u) (first_name u)
                     (last_name u) (is_active u) (is_staff u) (is_superuser u)
                     (clock db) (clock db) in
      (Returned saved,
       mkDB (rows db ++ [saved]) (S (next_pk db)) (S (clock db)) (queries db)).

Definition replace_row (u : User) (l : list User) : list User :=
  map (fun r => if pk r =? pk u then u else r) l.

(** [user.save()] on an instance that carries a primary key: UPDATE of its
    row, and INSERT under that key when no row has it. *)
Definition save_update (u : User) : M User :=
  log (Q_update (pk u)) ;;;
  fun db =>
    if existsb (fun r => String.eqb (email r) (email u) && negb (pk r =? pk u)) (rows db)
    then (Raised (IntegrityError UNIQUE_FAILED), db)
    else
      let saved := mkUser (pk u) (email u) (password u) (first_name u)
                     (last_name u) (is_active u) (is_staff u) (is_superuser u)
                     (created_at u) (clock db) in
      let rows' := if existsb (fun r => pk r =? pk u) (rows db)
                   then replace_row saved (rows db)
                   else rows db ++ [saved] in
      (Returned saved, mkDB rows' (next_pk db) (S (clock db)) (queries db)).

(** ** Request data, validated data and error details *)

(** A JSON value of a request body: a string or [null].  Every field of
    this application is a character field; numbers, booleans, arrays and
    objects are left out. *)
Inductive JVal := JNull | JStr (s : string).

(** [request.data]: the parsed JSON object. *)
Definition Data := list (string * JVal).

(** [validated_data] / [attrs]: field name to cleaned value, [None] for a
    null. *)
Definition Attrs := list (string * option string).

(** [serializer.errors]: field name to error detail, in field order. *)
Definition ErrorDict := list (string * Detail).

Fixpoint lookup {V} (key : string) (d : list (string * V)) : option V :=
  match d with
  | [] => None
  | (k, v) :: rest => if String.eqb k key then Some v else lookup key rest
  end.

(** [d.pop(key)] without the [KeyError]: the dict without [key]. *)
Fixpoint remove_key {V} (key : string) (d : list (string * V)) : list (string * V) :=
  match d with
  | [] => []
  | (k, v) :: rest =>
      if String.eqb k key then remove_key key rest else (k, v) :: remove_key key rest
  end.

(** Truthiness of a value that may be [None] or a [str]. *)
Definition truthy_opt (v : option string) : bool :=
  match v with Some s => PyStr.truthy s | None => false end.

(** ** users/models.py: the arguments and the instances of the manager *)

(** [**extra_fields] of the manager methods: a key is absent ([None]) or
    bound; a bound name may itself be the Python [None]. *)
Record ExtraFields := mkExtra {
  x_first_name : option (option string);
  x_last_name : option (option string);
  x_is_active : option bool;
  x_is_staff : option bool;
  x_is_superuser : option bool }.

Definition no_extra : ExtraFields := mkExtra None None None None None.

(** [dict.setdefault] on an optional binding. *)
Definition setdefault {V} (cur : option V) (default : V) : option V :=
  match cur with Some v => Some v | None => Some default end.

(** Django's [BaseUserManager.normalize_email]: lower-cases the domain part
    of a stripped address, and returns an address without [@] as it is. *)
Definition normalize_email (email : option string) : string :=
  let email := match email with Some e => e | None => "" end in
  match PyStr.rsplit1 "@" (PyStr.strip email) with
  | Some (email_name, domain_part) =>
      (email_name ++ "@" ++ PyStr.lower domain_part)%string
  | None => email
  end.

(** ['name' in extra_fields and extra_fields['name']] followed by the slice
    [[:30]]. *)
Definition truncate_name (v : option (option string)) : option (option string) :=
  match v with
  | Some (Some name) =>
      if PyStr.truthy name then Some (Some (PyStr.slice_to 30 name)) else v
  | _ => v
  end.

(** [self.model(email=email, **extra_fields)]: an unsaved instance (its key
    and its time stamps are assigned by [save_insert]); names default to
    [None], [is_active] to [True], the two privilege flags to [False]. *)
Definition model (email : string) (extra_fields : ExtraFields) : User :=
  mkUser 0 email ""
    (match x_first_name extra_fields with Some v => v | None => None end)
    (match x_last_name extra_fields with Some v => v | None => None end)
    (match x_is_active extra_fields with Some b => b | None => true end)
    (match x_is_staff extra_fields with Some b => b | None => false end)
    (match x_is_superuser extra_fields with Some b => b | None => false end)
    0 0.

Definition with_password (u : User) (encoded : string) : User :=
  mkUser (pk u) (email u) encoded (first_name u) (last_name u) (is_active u)
    (is_staff u) (is_superuser u) (created_at u) (updated_at u).

(** ** users/models.py: CustomUser *)

(** A name inside an f-string: [None] prints as the text "None". *)
Definition format_name (v : option string) : string :=
  match v with Some s => s | None => "None" end.

(** [CustomUser.__str__] *)
Definition __str__ (u : User) : string := email u.

(** [CustomUser.get_full_name] *)
Definition get_full_name (u : User) : string :=
  let full_name :=
    PyStr.strip (format_name (first_name u) ++ " " ++ format_name (last_name u))%string in
  if PyStr.truthy full_name then full_name else email u.

(** [CustomUser.get_short_name]: [self.first_name or self.email]. *)
Definition get_short_name (u : User) : string :=
  match first_name u with
  | Some name => if PyStr.truthy name then name else email u
  | None => email u
  end.

(** [user.password], the encoded hash (named apart from the [password]
    arguments of the functions below). *)
Definition encoded_password (u : User) : string := password u.

(** Authentication backends of [django.contrib.auth.backends]. *)
Inductive Backend := ModelBackend | AllowAllUsersModelBackend.

(** Django's default for the [AUTHENTICATION_BACKENDS] setting. *)
Definition DEFAULT_AUTHENTICATION_BACKENDS : list Backend := [ModelBackend].

(** [backend.user_can_authenticate(user)]: [ModelBackend] rejects users whose
    [is_active] is false. *)
Definition user_can_authenticate (b : Backend) (u : User) : bool :=
  match b with
  | ModelBackend => is_active u
  | AllowAllUsersModelBackend => true
  end.

(** ** rest_framework: fields and serializers *)

Definition MSG_REQUIRED : string := "This field is required.".
Definition MSG_NULL : string := "This field may not be null.".
Definition MSG_BLANK : string := "This field may not be blank.".
Definition MSG_NULL_CHARS : string := "Null characters are not allowed.".
Definition MSG_INVALID_EMAIL : string := "Enter a valid email address.".
Definition MSG_UNIQUE : string := "A user with that email already exists.".
Definition MSG_MAX_30 : string := "Ensure this field has no more than 30 characters.".
Definition MSG_MAX_254 : string := "Ensure this field has no more than 254 characters.".
Definition MSG_MIN_8 : string := "Ensure this field has at least 8 characters.".

(** The validators a field carries.  [UniqueValidator] looks the value up
    with an exact match and leaves out the row of the serializer's instance,
    if it has one. *)
Inductive Validator :=
| UniqueValidator (message : string) (instance : option User)
| MaxLengthValidator (limit : nat) (message : string)
| MinLengthValidator (limit : nat) (message : string)
| ProhibitNullCharactersValidator
| EmailValidator (message : string).

(** A [CharField] or [EmailField]; [trim_whitespace] keeps its default,
    [True], on every field of this application. *)
Record CharField := mkCharField {
  required : bool;
  allow_blank : bool;
  allow_null : bool;
  validators : list Validator }.

(** What [field.run_validation] gives: [SkipField], a cleaned value, or the
    detail of a [ValidationError]. *)
Inductive field_outcome :=
| SkipField
| Validated (v : option string)
| Invalid (detail : Detail).

(** What a request handler returns. *)
Record Profile := mkProfile {
  p_email : string;
  p_first_name : option string;
  p_last_name : option string;
  p_created_at : nat;
  p_updated_at : nat }.

Inductive Body :=
| B_tokens (access refresh : string) (user : Profile)
| B_profile (p : Profile)
| B_errors (errors : list (string * Detail)).

Record Response := mkResponse { status : nat; body : Body }.

Definition HTTP_200_OK : nat := 200.
Definition HTTP_201_CREATED : nat := 201.
Definition HTTP_400_BAD_REQUEST : nat := 400.

(** [UserProfileSerializer(user).data] *)
Definition to_representation (u : User) : Profile :=
  mkProfile (email u) (first_name u) (last_name u) (created_at u) (updated_at u).

(** [raise serializers.ValidationError(msg)] *)
Definition invalid {A} (msg : string) : M A := raise (ValidationError (DList [msg])).

(** ** The configured collaborators *)

Record Env := mkEnv {
  (** Django's [EmailValidator]: does the address have a valid format? *)
  email_ok : string -> bool;
  (** [django.contrib.auth.password_validation.validate_password(value)]
      under the configured [AUTH_PASSWORD_VALIDATORS]: the messages of the
      validators that reject [value], none when all accept it. *)
  password_validation : string -> list string;
  (** The password hasher: [make_password(raw)] and
      [check_password(raw, encoded)]. *)
  make_password : string -> string;
  check_password : string -> string -> bool;
  (** [RefreshToken.for_user(user)]: the refresh token and its access
      token. *)
  for_user : User -> string * string;
  (** The [AUTHENTICATION_BACKENDS] setting. *)
  AUTHENTICATION_BACKENDS : list Backend }.

(** ** Collaborators for the worked examples

    Stand-ins for the configured collaborators, used where a statement is
    run on concrete data: an address check that wants [local@domain] with
    non-empty parts and a dot inside the domain, an empty
    [AUTH_PASSWORD_VALIDATORS] chain, a hasher that tags the raw password,
    and a token issuer that names the row. *)

Definition sample_email_ok (value : string) : bool :=
  match PyStr.rsplit1 "@" value with
  | Some (String _ _, String _ d) =>
      match PyStr.rsplit1 "." d with
      | Some (_, String _ _) => negb (PyStr.search PyStr.isspace value)
      | _ => false
      end
  | _ => false
  end.

Definition sample_password_validation (value : string) : list string := [].

Definition sample_make_password (raw : string) : string := ("plain$" ++ raw)%string.

Definition sample_check_password (raw encoded : string) : bool :=
  String.eqb encoded (sample_make_password raw).

Definition sample_for_user (u : User) : string * string :=
  (("refresh:" ++ email u)%string, ("access:" ++ email u)%string).

(** The stand-ins above with Django's default backends. *)
Definition sample_env : Env :=
  mkEnv sample_email_ok sample_password_validation sample_make_password
    sample_check_password sample_for_user DEFAULT_AUTHENTICATION_BACKENDS.

Section App.

Variable env : Env.

(** ** users/models.py: CustomUserManager *)

(** [user.set_password(raw)] *)
Definition set_password (u : User) (raw : string) : User :=
  with_password u (make_password env raw).

(** [_create_user(email, password, **extra_fields)]; a missing argument is
    [None]. *)
Definition _create_user (email password : option string) (extra_fields : ExtraFields)
  : M User :=
  if negb (truthy_opt email) then raise (ValueError "The Email field must be set")
  else if negb (truthy_opt password) then raise (ValueError "The Password field must be set")
  else
    let email := PyStr.strip (PyStr.lower (normalize_email email)) in
    let extra_fields :=
      mkExtra (truncate_name (x_first_name extra_fields))
              (x_last_name extra_fields) (x_is_active extra_fields)
              (x_is_staff extra_fields) (x_is_superuser extra_fields) in
    let extra_fields :=
      mkExtra (x_first_name extra_fields)
              (truncate_name (x_last_name extra_fields))
              (x_is_active extra_fields)
              (x_is_staff extra_fields) (x_is_superuser extra_fields) in
    let user := model email extra_fields in
    let user := set_password user (match password with Some raw => raw | None => "" end) in
    save_insert user.

(** [create_user(email, password=None, **extra_fields)] *)
Definition create_user (email password : option string) (extra_fields : ExtraFields)
  : M User :=
  let extra_fields :=
    mkExtra (x_first_name extra_fields) (x_last_name extra_fields)
            (x_is_active extra_fields)
            (setdefault (x_is_staff extra_fields) false)
            (x_is_superuser extra_fields) in
  let extra_fields :=
    mkExtra (x_first_name extra_fields) (x_last_name extra_fields)
            (x_is_active extra_fields) (x_is_staff extra_fields)
            (setdefault (x_is_superuser extra_fields) false) in
  _create_user email password extra_fields.

(** [create_superuser(email, password=None, **extra_fields)] *)
Definition create_superuser (email password : option string) (extra_fields : ExtraFields)
  : M User :=
  let extra_fields :=
    mkExtra (x_first_name extra_fields) (x_last_name extra_fields)
            (setdefault (x_is_active extra_fields) true)
            (setdefault (x_is_staff extra_fields) true)
            (setdefault (x_is_superuser extra_fields) true) in
  match x_is_staff extra_fields with
  | Some true =>
      match x_is_superuser extra_fields with
      | Some true => _create_user email password extra_fields
      | _ => raise (ValueError "Superuser must have is_superuser=True.")
      end
  | _ => raise (ValueError "Superuser must have is_staff=True.")
  end.

(** ** django.contrib.auth.authenticate *)

(** [ModelBackend.authenticate(request, username, password)] *)
Definition backend_authenticate (b : Backend) (username password : option string)
  : M (option User) :=
  match username, password with
  | Some username, Some raw =>
      found <- get_by_natural_key username ;;
      match found with
      | None => ret None
      | Some user =>
          if check_password env raw (encoded_password user) && user_can_authenticate b user
          then ret (Some user) else ret None
      end
  | _, _ => ret None
  end.

(** [authenticate(username=..., password=...)]: the first backend that
    returns a user decides; [None] when none does. *)
Fixpoint authenticate_with (backends : list Backend) (username password : option string)
  : M (option User) :=
  match backends with
  | [] => ret None
  | b :: rest =>
      r <- backend_authenticate b username password ;;
      match r with
      | Some user => ret (Some user)
      | None => authenticate_with rest username password
      end
  end.

Definition authenticate (username password : option string) : M (option User) :=
  authenticate_with (AUTHENTICATION_BACKENDS env) username password.

(** ** Field validation *)

Definition has_null_char (value : string) : bool :=
  PyStr.search (fun c => Ascii.eqb c zero) value.

(** One validator on a cleaned string: the messages it raises. *)
Definition run_validator (v : Validator) (value : string) : M (list string) :=
  match v with
  | UniqueValidator message None =>
      taken <- filter_email_exists value ;;
      ret (if taken then [message] else [])
  | UniqueValidator message (Some instance) =>
      taken <- filter_email_exclude_exists value (pk instance) ;;
      ret (if taken then [message] else [])
  | MaxLengthValidator limit message =>
      ret (if limit <? String.length value then [message] else [])
  | MinLengthValidator limit message =>
      ret (if String.length value <? limit then [message] else [])
  | ProhibitNullCharactersValidator =>
      ret (if has_null_char value then [MSG_NULL_CHARS] else [])
  | EmailValidator message =>
      ret (if email_ok env value then [] else [message])
  end.

(** [Field.run_validators]: every validator runs and the messages add up. *)
Fixpoint run_validators (vs : list Validator) (value : string) : M (list string) :=
  match vs with
  | [] => ret []
  | v :: rest =>
      errors <- run_validator v value ;;
      more <- run_validators rest value ;;
      ret (errors ++ more)
  end.

(** [CharField.run_validation(data)]; [data] is [None] when the key is
    absent from the request. *)
Definition run_validation (f : CharField) (partial : bool) (data : option JVal)
  : M field_outcome :=
  match data with
  | None =>
      if partial then ret SkipField
      else if required f then ret (Invalid (DList [MSG_REQUIRED]))
      else ret SkipField
  | Some JNull =>
      if allow_null f then ret (Validated None) else ret (Invalid (DList [MSG_NULL]))
  | Some (JStr s) =>
      if negb (PyStr.truthy (PyStr.strip s)) then
        if allow_blank f then ret (Validated (Some EmptyString))
        else ret (Invalid (DList [MSG_BLANK]))
      else
        let value := PyStr.strip s in
        errors <- run_validators (validators f) value ;;
        match errors with
        | [] => ret (Validated (Some value))
        | _ => ret (Invalid (DList errors))
        end
  end.

(** A declared field with its [validate_<field_name>] method, if any. *)
Record Field := mkField {
  field_name : string;
  field : CharField;
  validate_method : option (string -> M string) }.

(** One turn of the loop of [Serializer.to_internal_value]: field validation,
    then the [validate_<field_name>] method on a value that passed (no field
    with such a method is nullable). *)
Definition run_field (f : Field) (partial : bool) (data : Data) : M field_outcome :=
  o <- run_validation (field f) partial (lookup (field_name f) data) ;;
  match o, validate_method f with
  | Validated (Some value), Some validate =>
      r <- try_validation (validate value) ;;
      match r with
      | inr value' => ret (Validated (Some value'))
      | inl detail => ret (Invalid detail)
      end
  | _, _ => ret o
  end.

(** [Serializer.to_internal_value]: the errors and the cleaned values of all
    fields, each in field order. *)
Fixpoint to_internal_value (fields : list Field) (partial : bool) (data : Data)
  : M (ErrorDict * Attrs) :=
  match fields with
  | [] => ret ([], [])
  | f :: rest =>
      o <- run_field f partial data ;;
      r <- to_internal_value rest partial data ;;
      match o with
      | SkipField => ret r
      | Validated v => ret (fst r, (field_name f, v) :: snd r)
      | Invalid detail => ret ((field_name f, detail) :: fst r, snd r)
      end
  end.

(** [as_serializer_error]: a dict detail is kept, anything else goes under
    [non_field_errors]. *)
Definition as_serializer_error (d : Detail) : ErrorDict :=
  match d with
  | DDict errors => errors
  | DList msgs => [("non_field_errors", DList msgs)]
  end.

(** [Serializer.run_validation]: the fields, then the object-level
    [validate], which runs only when no field failed. *)
Definition serializer_run_validation {R} (fields : list Field) (partial : bool)
  (validate : Attrs -> M R) (data : Data) : M R :=
  r <- to_internal_value fields partial data ;;
  match fst r with
  | [] =>
      v <- try_validation (validate (snd r)) ;;
      match v with
      | inr value => ret value
      | inl detail => raise (ValidationError (DDict (as_serializer_error detail)))
      end
  | errors => raise (ValidationError (DDict errors))
  end.

(** [serializer.is_valid()]: [inl errors] stands for [False] with
    [serializer.errors], [inr v] for [True] with [serializer.validated_data]. *)
Definition serializer_is_valid {R} (fields : list Field) (partial : bool)
  (validate : Attrs -> M R) (data : Data) : M (ErrorDict + R) :=
  r <- try_validation (serializer_run_validation fields partial validate data) ;;
  match r with
  | inr value => ret (inr value)
  | inl detail => ret (inl (as_serializer_error detail))
  end.

End App.

(** ** users/serializers.py: UserRegistrationSerializer *)

Module UserRegistrationSerializer.
Section WithEnv.

Variable env : Env.

Definition MSG_LENGTH : string := "Password must be at least 8 characters long.".
Definition MSG_UPPER : string := "Password must contain at least one uppercase letter.".
Definition MSG_LOWER : string := "Password must contain at least one lowercase letter.".
Definition MSG_NUMBER : string := "Password must contain at least one number.".
Definition MSG_MISMATCH : string := "Passwords do not match.".

Definition validate_email (value : string) : M string :=
  taken <- filter_email_exists value ;;
  if taken then invalid MSG_UNIQUE else ret value.

Definition validate_password (value : string) : M string :=
  if String.length value <? 8 then invalid MSG_LENGTH
  else if negb (PyStr.search PyStr.is_upper_AZ value) then invalid MSG_UPPER
  else if negb (PyStr.search PyStr.is_lower_az value) then invalid MSG_LOWER
  else if negb (PyStr.search PyStr.is_digit value) then invalid MSG_NUMBER
  else
    match password_validation env value with
    | [] => ret value
    | messages => raise (ValidationError (DList messages))
    end.

(** [attrs['password'] != attrs['password_confirm']] *)
Definition validate (attrs : Attrs) : M Attrs :=
  match lookup "password" attrs with
  | None => raise (KeyError "password")
  | Some p =>
      match lookup "password_confirm" attrs with
      | None => raise (KeyError "password_confirm")
      | Some c =>
          if match p, c with
             | Some a, Some b => String.eqb a b
             | None, None => true
             | _, _ => false
             end
          then ret attrs
          else raise (ValidationError
                        (DDict [("password_confirm", DList [MSG_MISMATCH])]))
      end
  end.

(** The fields [ModelSerializer] builds for [Meta.fields]: [email],
    [first_name] and [last_name] from the model fields ([unique=True],
    [max_length], [blank=True, null=True]), the two passwords as declared. *)
Definition email_field : Field :=
  mkField "email"
    (mkCharField true false false
       [UniqueValidator MSG_UNIQUE None; MaxLengthValidator 254 MSG_MAX_254;
        ProhibitNullCharactersValidator; EmailValidator MSG_INVALID_EMAIL])
    (Some validate_email).

Definition password_field : Field :=
  mkField "password"
    (mkCharField true false false
       [MinLengthValidator 8 MSG_MIN_8; ProhibitNullCharactersValidator])
    (Some validate_password).

Definition password_confirm_field : Field :=
  mkField "password_confirm"
    (mkCharField true false false [ProhibitNullCharactersValidator])
    None.

Definition first_name_field : Field :=
  mkField "first_name"
    (mkCharField false true true
       [MaxLengthValidator 30 MSG_MAX_30; ProhibitNullCharactersValidator])
    None.

Definition last_name_field : Field :=
  mkField "last_name"
    (mkCharField false true true
       [MaxLengthValidator 30 MSG_MAX_30; ProhibitNullCharactersValidator])
    None.

Definition fields : list Field :=
  [email_field; password_field; password_confirm_field; first_name_field;
   last_name_field].

(** [validated_data.pop('password_confirm')], then [create_user] with the
    remaining entries as keyword arguments. *)
Definition create (validated_data : Attrs) : M User :=
  match lookup "password_confirm" validated_data with
  | None => raise (KeyError "password_confirm")
  | Some _ =>
      let validated_data := remove_key "password_confirm" validated_data in
      match lookup "email" validated_data with
      | None => raise (TypeError "create_user() missing 1 required positional argument: 'email'")
      | Some email =>
          create_user env email
            (match lookup "password" validated_data with Some p => p | None => None end)
            (mkExtra (lookup "first_name" validated_data)
                     (lookup "last_name" validated_data) None None None)
      end
  end.

Definition is_valid (data : Data) : M (ErrorDict + Attrs) :=
  serializer_is_valid env fields false validate data.

End WithEnv.
End UserRegistrationSerializer.

(** ** users/serializers.py: UserLoginSerializer *)

Module UserLoginSerializer.
Section WithEnv.

Variable env : Env.

Definition MSG_INVALID : string := "Invalid email or password.".
Definition MSG_DISABLED : string := "User account is disabled.".
Definition MSG_MISSING : string := "Must provide email and password.".

Definition email_field : Field :=
  mkField "email"
    (mkCharField true false false
       [ProhibitNullCharactersValidator; EmailValidator MSG_INVALID_EMAIL])
    None.

Definition password_field : Field :=
  mkField "password"
    (mkCharField true false false [ProhibitNullCharactersValidator])
    None.

Definition fields : list Field := [email_field; password_field].

(** [attrs.get(key)] *)
Definition get (key : string) (attrs : Attrs) : option string :=
  match lookup key attrs with Some v => v | None => None end.

(** The validated attributes together with [attrs['user']]. *)
Definition validate (attrs : Attrs) : M (Attrs * User) :=
  let email := get "email" attrs in
  let password := get "password" attrs in
  if truthy_opt email && truthy_opt password then
    user <- authenticate env email password ;;
    match user with
    | None => invalid MSG_INVALID
    | Some user =>
        if negb (is_active user) then invalid MSG_DISABLED
        else ret (attrs, user)
    end
  else invalid MSG_MISSING.

Definition is_valid (data : Data) : M (ErrorDict + Attrs * User) :=
  serializer_is_valid env fields false validate data.

End WithEnv.
End UserLoginSerializer.

(** ** users/serializers.py: UserProfileSerializer *)

Module UserProfileSerializer.
Section WithEnv.

Variable env : Env.

(** [self.instance] *)
Variable instance : option User.

Definition validate_email (value : string) : M string :=
  match instance with
  | Some user =>
      taken <- filter_email_exclude_exists value (pk user) ;;
      if taken then invalid MSG_UNIQUE else ret value
  | None => ret value
  end.

(** The writable fields; [created_at] and [updated_at] are read-only. *)
Definition email_field : Field :=
  mkField "email"
    (mkCharField true false false
       [UniqueValidator MSG_UNIQUE instance; MaxLengthValidator 254 MSG_MAX_254;
        ProhibitNullCharactersValidator; EmailValidator MSG_INVALID_EMAIL])
    (Some validate_email).

Definition first_name_field : Field :=
  mkField "first_name"
    (mkCharField false true true
       [MaxLengthValidator 30 MSG_MAX_30; ProhibitNullCharactersValidator])
    None.

Definition last_name_field : Field :=
  mkField "last_name"
    (mkCharField false true true
       [MaxLengthValidator 30 MSG_MAX_30; ProhibitNullCharactersValidator])
    None.

Definition fields : list Field := [email_field; first_name_field; last_name_field].

(** The inherited [Serializer.validate]. *)
Definition validate (attrs : Attrs) : M Attrs := ret attrs.

Definition is_valid (partial : bool) (data : Data) : M (ErrorDict + Attrs) :=
  serializer_is_valid env fields partial validate data.

End WithEnv.

(** [setattr(instance, attr, value)] for a writable field; [None] when the
    e-mail column, which is not nullable, would be set to null. *)
Definition setattr (u : User) (attr : string) (value : option string) : option User :=
  if String.eqb attr "email" then
    match value with
    | Some e => Some (mkUser (pk u) e (password u) (first_name u) (last_name u)
                        (is_active u) (is_staff u) (is_superuser u)
                        (created_at u) (updated_at u))
    | None => None
    end
  else if String.eqb attr "first_name" then
    Some (mkUser (pk u) (email u) (password u) value (last_name u)
            (is_active u) (is_staff u) (is_superuser u) (created_at u) (updated_at u))
  else if String.eqb attr "last_name" then
    Some (mkUser (pk u) (email u) (password u) (first_name u) value
            (is_active u) (is_staff u) (is_superuser u) (created_at u) (updated_at u))
  else Some u.

Fixpoint set_attrs (u : User) (validated_data : Attrs) : option User :=
  match validated_data with
  | [] => Some u
  | (attr, value) :: rest =>
      match setattr u attr value with
      | Some u' => set_attrs u' rest
      | None => None
      end
  end.

(** [ModelSerializer.update(instance, validated_data)]: assign every
    validated attribute, then [instance.save()]. *)
Definition update (instance : User) (validated_data : Attrs) : M User :=
  match set_attrs instance validated_data with
  | Some u => save_update u
  | None => raise (IntegrityError "NOT NULL constraint failed: users_customuser.email")
  end.

End UserProfileSerializer.

(** ** users/views.py *)

Module UserRegistrationView.

Definition post (env : Env) (data : Data) : M Response :=
  r <- UserRegistrationSerializer.is_valid env data ;;
  match r with
  | inr validated_data =>
      user <- UserRegistrationSerializer.create env validated_data ;;
      let refresh := for_user env user in
      ret (mkResponse HTTP_201_CREATED
             (B_tokens (snd refresh) (fst refresh) (to_representation user)))
  | inl errors => ret (mkResponse HTTP_400_BAD_REQUEST (B_errors errors))
  end.

End UserRegistrationView.

Module UserLoginView.

Definition post (env : Env) (data : Data) : M Response :=
  r <- UserLoginSerializer.is_valid env data ;;
  match r with
  | inr validated_data =>
      let user := snd validated_data in
      let refresh := for_user env user in
      ret (mkResponse HTTP_200_OK
             (B_tokens (snd refresh) (fst refresh) (to_representation user)))
  | inl errors => ret (mkResponse HTTP_400_BAD_REQUEST (B_errors errors))
  end.

End UserLoginView.

(** [request.user] is the row the token authentication loaded for the
    caller. *)
Module UserProfileView.

Definition get (user : User) : M Response :=
  ret (mkResponse HTTP_200_OK (B_profile (to_representation user))).

Definition update_with (env : Env) (partial : bool) (user : User) (data : Data)
  : M Response :=
  r <- UserProfileSerializer.is_valid env (Some user) partial data ;;
  match r with
  | inr validated_data =>
      saved <- UserProfileSerializer.update user validated_data ;;
      ret (mkResponse HTTP_200_OK (B_profile (to_representation saved)))
  | inl errors => ret (mkResponse HTTP_400_BAD_REQUEST (B_errors errors))
  end.

Definition put (env : Env) (user : User) (data : Data) : M Response :=
  update_with env false user data.

Definition patch (env : Env) (user : User) (data : Data) : M Response :=
  update_with env true user data.

End UserProfileView.

(** ** Notions used in the statements *)

(** Two states of the store with the same table, key sequence and clock:
    they differ at most in the query log. *)
Definition same_table (a b : DB) : Prop :=
  rows a = rows b /\ next_pk a = next_pk b /\ clock a = clock b.

(** A computation that only reads the table: it leaves the table as it was,
    and its outcome does not depend on the query log. *)
Definition read_only {A} (c : M A) : Prop :=
  forall db,
    same_table db (snd (c db)) /\
    forall db', same_table db db' -> fst (c db) = fst (c db').

(** A computation that never raises. *)
Definition total {A} (c : M A) : Prop :=
  forall db, exists a, fst (c db) = Returned a.

(** A computation that returns or raises a [ValidationError], nothing
    else. *)
Definition validating {A} (c : M A) : Prop :=
  forall db,
    (exists a, fst (c db) = Returned a) \/
    (exists d, fst (c db) = Raised (ValidationError d)).

(** The body of a registration request. *)
Definition registration_data (email password password_confirm : string) : Data :=
  [("email", JStr email); ("password", JStr password);
   ("password_confirm", JStr password_confirm)].

(** The body of a login request. *)
Definition login_data (email password : string) : Data :=
  [("email", JStr email); ("password", JStr password)].

(** The stored record of a primary key. *)
Definition stored (key : nat) (db : DB) : option User :=
  find (fun r => pk r =? key) (rows db).

(** The strength rules of the specification that a password violates, all
    of them, in the order length, uppercase, lowercase, digit. *)
Definition spec_violated_rules (value : string) : list string :=
  (if String.length value <? 8 then [UserRegistrationSerializer.MSG_LENGTH] else [])
  ++ (if PyStr.search PyStr.is_upper_AZ value then []
      else [UserRegistrationSerializer.MSG_UPPER])
  ++ (if PyStr.search PyStr.is_lower_az value then []
      else [UserRegistrationSerializer.MSG_LOWER])
  ++ (if PyStr.search PyStr.is_digit value then []
      else [UserRegistrationSerializer.MSG_NUMBER]).

(** A cleaned login field that passes field validation: not blank and free
    of null characters. *)
Definition clean_ok (raw : string) : bool :=
  PyStr.truthy (PyStr.strip raw) && negb (has_null_char (PyStr.strip raw)).

(** A field whose [validate_<field_name>] method, if it has one, only reads
    the table and fails with a [ValidationError] only. *)
Definition well_behaved (f : Field) : Prop :=
  match validate_method f with
  | Some validate => forall value, read_only (validate value) /\ validating (validate value)
  | None => True
  end.

(** How the loop of [to_internal_value] files one field's outcome. *)
Definition file_outcome (name : string) (o : field_outcome) (r : ErrorDict * Attrs)
  : ErrorDict * Attrs :=
  match o with
  | SkipField => r
  | Validated v => (fst r, (name, v) :: snd r)
  | Invalid detail => ((name, detail) :: fst r, snd r)
  end.

(** A login request whose two fields pass field validation. *)
Definition login_fields_pass (env : Env) (email password : string) : bool :=
  clean_ok email && email_ok env (PyStr.strip email) && clean_ok password.

(** The one payload of a failed credential check. *)
Definition invalid_credentials : Response :=
  mkResponse HTTP_400_BAD_REQUEST
    (B_errors [("non_field_errors", DList [UserLoginSerializer.MSG_INVALID])]).

(** The payload the login serializer has for a disabled account. *)
Definition account_disabled : Response :=
  mkResponse HTTP_400_BAD_REQUEST
    (B_errors [("non_field_errors", DList [UserLoginSerializer.MSG_DISABLED])]).

(** A table with one active user, as the test suites set it up. *)
Definition sample_db : DB :=
  snd (create_user sample_env (Some "testuser@example.com") (Some "TestPass123!")
         (mkExtra (Some (Some "Test")) (Some (Some "User")) None None None) empty_db).

(** A table with one user whose account is deactivated. *)
Definition disabled_db : DB :=
  snd (create_user sample_env (Some "disabled@example.com") (Some "TestPass123!")
         (mkExtra None None (Some false) None None) empty_db).

(** The table after the registration of "test@example.com". *)
Definition registered_db : DB :=
  snd (UserRegistrationView.post sample_env
         (registration_data "test@example.com" "TestPass123!" "TestPass123!") empty_db).

(** The row of [sample_db], as [request.user]. *)
Definition sample_user : User :=
  mkUser 1 "testuser@example.com" "plain$TestPass123!" (Some "Test") (Some "User")
    true false false 0 0.

(** The unique constraint, as a property of the table: rows with the same
    address have the same key. *)
Definition unique_emails (db : DB) : Prop :=
  forall r1 r2, In r1 (rows db) -> In r2 (rows db) -> email r1 = email r2 -> pk r1 = pk r2.

(** Every stored address is trimmed. *)
Definition trimmed_emails (db : DB) : Prop :=
  forall r, In r (rows db) -> PyStr.strip (email r) = email r.

(** Every stored address is lower-case. *)
Definition lower_case_emails (db : DB) : Prop :=
  forall r, In r (rows db) -> PyStr.lower (email r) = email r.

(** The primary keys are distinct and below the next key of the sequence,
    which starts at 1. *)
Definition keys_ok (db : DB) : Prop :=
  NoDup (map pk (rows db)) /\
  1 <= next_pk db /\
  forall r, In r (rows db) -> 1 <= pk r < next_pk db.

(** Every row was created no later than it was last saved, and last saved
    before now. *)
Definition stamps_ok (db : DB) : Prop :=
  forall r, In r (rows db) -> created_at r <= updated_at r < clock db.

(** The tables the application can be in: the empty one, and what the
    manager and the request handlers make of a table they can be in;
    [request.user] of a profile request is a row of the table. *)
Inductive reachable (env : Env) : DB -> Prop :=
| reach_empty : reachable env empty_db
| reach_create_user email password extra db :
    reachable env db ->
    reachable env (snd (create_user env email password extra db))
| reach_create_superuser email password extra db :
    reachable env db ->
    reachable env (snd (create_superuser env email password extra db))
| reach_register data db :
    reachable env db ->
    reachable env (snd (UserRegistrationView.post env data db))
| reach_login data db :
    reachable env db ->
    reachable env (snd (UserLoginView.post env data db))
| reach_profile partial user data db :
    reachable env db ->
    In user (rows db) ->
    reachable env (snd (UserProfileView.update_with env partial user data db)).

(** The checks of the registration [email] field and of [validate_email] on
    a submitted address. *)
Definition email_accepted (env : Env) (db : DB) (e : string) : Prop :=
  PyStr.truthy (PyStr.strip e) = true /\
  existsb (fun r => String.eqb (email r) (PyStr.strip e)) (rows db) = false /\
  String.length (PyStr.strip e) <= 254 /\
  has_null_char (PyStr.strip e) = false /\
  email_ok env (PyStr.strip e) = true.

(** The checks of the registration [password] field and of
    [validate_password] on a submitted password. *)
Definition password_accepted (env : Env) (p : string) : Prop :=
  has_null_char (PyStr.strip p) = false /\
  8 <= String.length (PyStr.strip p) /\
  PyStr.search PyStr.is_upper_AZ (PyStr.strip p) = true /\
  PyStr.search PyStr.is_lower_az (PyStr.strip p) = true /\
  PyStr.search PyStr.is_digit (PyStr.strip p) = true /\
  password_validation env (PyStr.strip p) = [].

(** The checks of a name field on what the request carries for it. *)
Definition name_accepted (v : option JVal) : Prop :=
  match v with
  | Some (JStr n) =>
      String.length (PyStr.strip n) <= 30 /\ has_null_char (PyStr.strip n) = false
  | _ => True
  end.

(** What a name field that passes binds in the validated data: nothing for
    an absent key, [None] for a null, the trimmed string otherwise. *)
Definition cleaned_name (v : option JVal) : option (option string) :=
  match v with
  | None => None
  | Some JNull => Some None
  | Some (JStr n) => Some (Some (PyStr.strip n))
  end.

Definition name_entry (key : string) (v : option JVal) : Attrs :=
  match cleaned_name v with Some value => [(key, value)] | None => [] end.

(** A registration request that passes every check of the serializer, with
    its address [e] and password [p]. *)
Definition registration_accepted (env : Env) (db : DB) (data : Data) (e p : string)
  : Prop :=
  lookup "email" data = Some (JStr e) /\
  lookup "password" data = Some (JStr p) /\
  (exists c, lookup "password_confirm" data = Some (JStr c) /\
             PyStr.strip c = PyStr.strip p) /\
  email_accepted env db e /\
  password_accepted env p /\
  name_accepted (lookup "first_name" data) /\
  name_accepted (lookup "last_name" data).

(** The validated data of an accepted registration request. *)
Definition registration_attrs (data : Data) (e p : string) : Attrs :=
  [("email", Some (PyStr.strip e)); ("password", Some (PyStr.strip p));
   ("password_confirm", Some (PyStr.strip p))]
  ++ name_entry "first_name" (lookup "first_name" data)
  ++ name_entry "last_name" (lookup "last_name" data).

(** The row that a registration accepted with address [e] and password [p]
    inserts into [db]. *)
Definition registered_user (env : Env) (db : DB) (data : Data) (e p : string) : User :=
  mkUser (next_pk db) (PyStr.lower (PyStr.strip e)) (make_password env (PyStr.strip p))
    (match cleaned_name (lookup "first_name" data) with Some v => v | None => None end)
    (match cleaned_name (lookup "last_name" data) with Some v => v | None => None end)
    true false false (clock db) (clock db).

(** The registration request of the worked examples, with names. *)
Definition sample_registration : Data :=
  [("email", JStr "  NewUser@Example.com "); ("password", JStr "TestPass123!");
   ("password_confirm", JStr "TestPass123!"); ("first_name", JStr "Jane");
   ("last_name", JStr "Smith"); ("is_staff", JStr "true")].

(** A login request whose two keys hold strings that pass the fields. *)
Definition login_accepted (env : Env) (data : Data) (e p : string) : Prop :=
  lookup "email" data = Some (JStr e) /\
  lookup "password" data = Some (JStr p) /\
  login_fields_pass env e p = true.

(** The payload of a login that succeeds. *)
Definition logged_in (env : Env) (user : User) : Response :=
  mkResponse HTTP_200_OK
    (B_tokens (snd (for_user env user)) (fst (for_user env user))
       (to_representation user)).

(** The user that a list of backends lets in for an address and a raw
    password: the first row of the address, when it carries the password
    and one of the backends accepts it. *)
Definition authenticated (env : Env) (backends : list Backend) (db : DB)
  (username raw : string) : option User :=
  match find (fun r => String.eqb (email r) username) (rows db) with
  | Some u =>
      if check_password env raw (password u)
         && existsb (fun b => user_can_authenticate b u) backends
      then Some u else None
  | None => None
  end.

(** What the login serializer answers on an accepted request. *)
Definition login_verdict (env : Env) (db : DB) (e p : string)
  : outcome (ErrorDict + Attrs * User) :=
  match authenticated env (AUTHENTICATION_BACKENDS env) db (PyStr.strip e) (PyStr.strip p) with
  | None => Returned (inl [("non_field_errors", DList [UserLoginSerializer.MSG_INVALID])])
  | Some u =>
      if is_active u
      then Returned (inr ([("email", Some (PyStr.strip e));
                           ("password", Some (PyStr.strip p))], u))
      else Returned (inl [("non_field_errors", DList [UserLoginSerializer.MSG_DISABLED])])
  end.

(** The keys of the two login fields. *)
Definition login_key (entry : string * Detail) : Prop :=
  fst entry = "email" \/ fst entry = "password".

(** The checks of the profile [email] field and of its [validate_email] on
    what the request carries for it, for the instance [user]. *)
Definition profile_email_accepted (env : Env) (user : User) (partial : bool) (db : DB)
  (v : option JVal) : Prop :=
  match v with
  | None => partial = true
  | Some JNull => False
  | Some (JStr e) =>
      PyStr.truthy (PyStr.strip e) = true /\
      existsb (fun r => String.eqb (email r) (PyStr.strip e) && negb (pk r =? pk user))
        (rows db) = false /\
      String.length (PyStr.strip e) <= 254 /\
      has_null_char (PyStr.strip e) = false /\
      email_ok env (PyStr.strip e) = true
  end.

(** A profile update that passes every check of the serializer. *)
Definition profile_accepted (env : Env) (user : User) (partial : bool) (db : DB)
  (data : Data) : Prop :=
  profile_email_accepted env user partial db (lookup "email" data) /\
  name_accepted (lookup "first_name" data) /\
  name_accepted (lookup "last_name" data).

(** The validated data of an accepted profile update. *)
Definition profile_attrs (data : Data) : Attrs :=
  match lookup "email" data with
  | Some (JStr e) => [("email", Some (PyStr.strip e))]
  | _ => []
  end
  ++ name_entry "first_name" (lookup "first_name" data)
  ++ name_entry "last_name" (lookup "last_name" data).

(** The instance after the assignments of an accepted profile update, as
    [save] stores it at time [now]. *)
Definition updated_user (user : User) (data : Data) (now : nat) : User :=
  mkUser (pk user)
    (match lookup "email" data with Some (JStr e) => PyStr.strip e | _ => email user end)
    (password user)
    (match cleaned_name (lookup "first_name" data) with
     | Some v => v | None => first_name user end)
    (match cleaned_name (lookup "last_name" data) with
     | Some v => v | None => last_name user end)
    (is_active user) (is_staff user) (is_superuser user) (created_at user) now.

(** The keys of the three writable profile fields. *)
Definition profile_key (entry : string * Detail) : Prop :=
  fst entry = "email" \/ fst entry = "first_name" \/ fst entry = "last_name".

(** A second user of the sample table, and a profile update of the first. *)
Definition two_users_db : DB :=
  snd (create_user sample_env (Some "other@example.com") (Some "OtherPass123!")
         no_extra sample_db).

Definition sample_update : Data :=
  [("email", JStr " New.Address@Example.com "); ("first_name", JNull);
   ("password", JStr "hacked"); ("is_staff", JStr "true")].

(** A consistent table: addresses unique and trimmed, keys distinct and
    below the sequence, time stamps in order. *)
Definition consistent (db : DB) : Prop :=
  unique_emails db /\ trimmed_emails db /\ keys_ok db /\ stamps_ok db.

(** A string that does not begin with white space. *)
Definition no_leading_space (s : string) : Prop :=
  match s with
  | EmptyString => True
  | String c _ => PyStr.isspace c = false
  end.

(** Unfolds the store monad in the goal. *)
Ltac run_store :=
  unfold bind, ret, raise, invalid, try_validation, log; simpl.

(** ** Facts about the string operations *)

Lemma lower_char_idem c : PyStr.lower_char (PyStr.lower_char c) = PyStr.lower_char c.
Proof. destruct c as [[] [] [] [] [] [] [] []]; reflexivity. Qed.

Lemma isspace_lower_char c : PyStr.isspace (PyStr.lower_char c) = PyStr.isspace c.
Proof. destruct c as [[] [] [] [] [] [] [] []]; reflexivity. Qed.

Lemma lower_idem s : PyStr.lower (PyStr.lower s) = PyStr.lower s.
Proof.
  induction s as [|c r IH]; simpl; [reflexivity|].
  now rewrite lower_char_idem, IH.
Qed.

Lemma lower_lstrip s : PyStr.lower (PyStr.lstrip s) = PyStr.lstrip (PyStr.lower s).
Proof.
  induction s as [|c r IH]; simpl; [reflexivity|].
  rewrite isspace_lower_char. destruct (PyStr.isspace c); [exact IH | reflexivity].
Qed.

Lemma lower_rstrip s : PyStr.lower (PyStr.rstrip s) = PyStr.rstrip (PyStr.lower s).
Proof.
  induction s as [|c r IH]; simpl; [reflexivity|].
  rewrite <- IH, isspace_lower_char.
  destruct (PyStr.rstrip r); simpl; [destruct (PyStr.isspace c)|]; reflexivity.
Qed.

Lemma lower_strip s : PyStr.lower (PyStr.strip s) = PyStr.strip (PyStr.lower s).
Proof. unfold PyStr.strip. now rewrite lower_rstrip, lower_lstrip. Qed.

Lemma rstrip_idem s : PyStr.rstrip (PyStr.rstrip s) = PyStr.rstrip s.
Proof.
  induction s as [|c r IH]; simpl; [reflexivity|].
  destruct (PyStr.rstrip r) as [|c' r'] eqn:E.
  - destruct (PyStr.isspace c) eqn:Hc; simpl; [reflexivity | now rewrite Hc].
  - simpl in *. now rewrite IH.
Qed.

Lemma lstrip_no_leading_space s : no_leading_space (PyStr.lstrip s).
Proof.
  induction s as [|c r IH]; simpl; [exact I|].
  destruct (PyStr.isspace c) eqn:Hc; [exact IH | exact Hc].
Qed.

Lemma lstrip_fixed s : no_leading_space s -> PyStr.lstrip s = s.
Proof. destruct s as [|c r]; simpl; [reflexivity|]. now intros ->. Qed.

Lemma rstrip_no_leading_space s : no_leading_space s -> no_leading_space (PyStr.rstrip s).
Proof.
  destruct s as [|c r]; simpl; [trivial|]. intros Hc.
  destruct (PyStr.rstrip r); [rewrite Hc|]; exact Hc.
Qed.

Lemma strip_idem s : PyStr.strip (PyStr.strip s) = PyStr.strip s.
Proof.
  unfold PyStr.strip.
  rewrite (lstrip_fixed (PyStr.rstrip (PyStr.lstrip s))).
  - apply rstrip_idem.
  - apply rstrip_no_leading_space, lstrip_no_leading_space.
Qed.

(** What [_create_user] stores for an address is fixed by [strip] and by
    [lower]: it is trimmed and entirely lower-case. *)
Lemma stored_email_normal s :
  let e := PyStr.strip (PyStr.lower s) in
  PyStr.strip e = e /\ PyStr.lower e = e.
Proof.
  simpl. split; [apply strip_idem|].
  now rewrite lower_strip, lower_idem.
Qed.

Lemma slice_to_length n s : n <= String.length s -> String.length (PyStr.slice_to n s) = n.
Proof.
  revert s. induction n as [|n IH]; intros [|c r]; simpl; intros H; try lia.
  rewrite IH; lia.
Qed.

Lemma truthy_length s : PyStr.truthy s = true <-> 0 < String.length s.
Proof. destruct s; simpl; split; intros; try lia; try discriminate; reflexivity. Qed.

(** ** The store monad *)

Lemma same_table_refl db : same_table db db.
Proof. repeat split. Qed.

Lemma same_table_sym a b : same_table a b -> same_table b a.
Proof. intros (H1 & H2 & H3). repeat split; congruence. Qed.

Lemma same_table_trans a b c : same_table a b -> same_table b c -> same_table a c.
Proof. intros (H1 & H2 & H3) (H4 & H5 & H6). repeat split; congruence. Qed.

Lemma bind_returned {A B} (c : M A) (k : A -> M B) db a db' :
  c db = (Returned a, db') -> bind c k db = k a db'.
Proof. unfold bind. now intros ->. Qed.

Lemma bind_raised {A B} (c : M A) (k : A -> M B) db e db' :
  c db = (Raised e, db') -> bind c k db = (Raised e, db').
Proof. unfold bind. now intros ->. Qed.

Lemma read_only_ret {A} (a : A) : read_only (ret a).
Proof. intros db. split; [apply same_table_refl | reflexivity]. Qed.

Lemma read_only_raise {A} e : read_only (@raise A e).
Proof. intros db. split; [apply same_table_refl | reflexivity]. Qed.

Lemma read_only_log q : read_only (log q).
Proof. intros db. split; [repeat split | reflexivity]. Qed.

Lemma read_only_bind {A B} (c : M A) (k : A -> M B) :
  read_only c -> (forall a, read_only (k a)) -> read_only (bind c k).
Proof.
  intros Hc Hk db. destruct (Hc db) as [Hs Hi]. unfold bind.
  destruct (c db) as [[a|e] db1] eqn:E; simpl in *.
  - destruct (Hk a db1) as [Hs1 Hi1]. split.
    + eapply same_table_trans; eassumption.
    + intros db' Hdb'. specialize (Hi db' Hdb').
      destruct (Hc db') as [Hs' _].
      destruct (c db') as [[a'|e'] db1'] eqn:E'; simpl in *; [|discriminate].
      injection Hi as <-. apply Hi1.
      eapply same_table_trans; [apply same_table_sym; exact Hs|].
      eapply same_table_trans; eassumption.
  - split; [exact Hs|].
    intros db' Hdb'. specialize (Hi db' Hdb').
    destruct (c db') as [[a'|e'] db1'] eqn:E'; simpl in *; [discriminate|].
    now injection Hi as <-.
Qed.

Lemma read_only_try_validation {A} (c : M A) :
  read_only c -> read_only (try_validation c).
Proof.
  intros Hc db. destruct (Hc db) as [Hs Hi]. unfold try_validation.
  split.
  - destruct (c db) as [[a|[]] db1]; exact Hs.
  - intros db' Hdb'. specialize (Hi db' Hdb').
    destruct (c db) as [[a|e] db1], (c db') as [[a'|e'] db1']; simpl in *;
      try discriminate.
    + now injection Hi as <-.
    + injection Hi as <-. destruct e; reflexivity.
Qed.

(** A read-only computation of which only the table is consulted. *)
Lemma read_only_query {A} (f : list User -> A) :
  read_only (fun db => (Returned (f (rows db)), db)).
Proof.
  intros db. split; [apply same_table_refl|].
  intros db' (H & _). simpl. now rewrite H.
Qed.

Lemma total_ret {A} (a : A) : total (ret a).
Proof. intros db. now exists a. Qed.

Lemma total_bind {A B} (c : M A) (k : A -> M B) :
  total c -> (forall a, total (k a)) -> total (bind c k).
Proof.
  intros Hc Hk db. destruct (Hc db) as [a Ha]. unfold bind.
  destruct (c db) as [o db1]; simpl in Ha; subst o. apply Hk.
Qed.

Lemma total_try_validation {A} (c : M A) : validating c -> total (try_validation c).
Proof.
  intros Hc db. unfold try_validation.
  destruct (Hc db) as [[a Ha]|[d Hd]]; destruct (c db) as [o db1]; simpl in *; subst o;
    simpl; eauto.
Qed.

Lemma total_validating {A} (c : M A) : total c -> validating c.
Proof. intros H db. left. apply H. Qed.

Lemma validating_bind {A B} (c : M A) (k : A -> M B) :
  validating c -> (forall a, validating (k a)) -> validating (bind c k).
Proof.
  intros Hc Hk db. unfold bind.
  destruct (Hc db) as [[a Ha]|[d Hd]]; destruct (c db) as [o db1]; simpl in *; subst o.
  - apply Hk.
  - right. now exists d.
Qed.

Lemma validating_invalid {A} msg : validating (@invalid A msg).
Proof. intros db. right. now eexists. Qed.

Create HintDb store discriminated.
#[local] Hint Resolve read_only_ret read_only_raise read_only_log read_only_bind
  read_only_try_validation total_ret total_bind total_try_validation
  validating_bind validating_invalid total_validating : store.

Lemma read_only_filter_email_exists v : read_only (filter_email_exists v).
Proof.
  unfold filter_email_exists. apply read_only_bind; [apply read_only_log|].
  intros _. apply (read_only_query (existsb _)).
Qed.

Lemma read_only_filter_email_exclude_exists v k :
  read_only (filter_email_exclude_exists v k).
Proof.
  unfold filter_email_exclude_exists. apply read_only_bind; [apply read_only_log|].
  intros _. apply (read_only_query (existsb _)).
Qed.

Lemma read_only_get_by_natural_key v : read_only (get_by_natural_key v).
Proof.
  unfold get_by_natural_key. apply read_only_bind; [apply read_only_log|].
  intros _. apply (read_only_query (find _)).
Qed.

Lemma total_filter_email_exists v : total (filter_email_exists v).
Proof. intros db. eexists. reflexivity. Qed.

Lemma total_filter_email_exclude_exists v k : total (filter_email_exclude_exists v k).
Proof. intros db. eexists. reflexivity. Qed.

Lemma total_get_by_natural_key v : total (get_by_natural_key v).
Proof. intros db. eexists. reflexivity. Qed.

#[local] Hint Resolve read_only_filter_email_exists read_only_filter_email_exclude_exists
  read_only_get_by_natural_key total_filter_email_exists
  total_filter_email_exclude_exists total_get_by_natural_key : store.

(** ** Field validation only reads the table *)

Section FieldFacts.

Variable env : Env.

Lemma run_validator_read_only v value : read_only (run_validator env v value).
Proof. destruct v as [m [i|]| | | |]; simpl; auto with store. Qed.

Lemma run_validator_total v value : total (run_validator env v value).
Proof. destruct v as [m [i|]| | | |]; simpl; auto with store. Qed.

Lemma run_validators_read_only vs value : read_only (run_validators env vs value).
Proof.
  induction vs as [|v vs IH]; simpl; auto using run_validator_read_only with store.
Qed.

Lemma run_validators_total vs value : total (run_validators env vs value).
Proof.
  induction vs as [|v vs IH]; simpl; auto using run_validator_total with store.
Qed.

Lemma run_validation_read_only f partial data :
  read_only (run_validation env f partial data).
Proof.
  destruct data as [[|s]|]; simpl.
  - destruct (allow_null f); auto with store.
  - destruct (negb _).
    + destruct (allow_blank f); auto with store.
    + apply read_only_bind; [apply run_validators_read_only|].
      intros [|]; auto with store.
  - destruct partial, (required f); auto with store.
Qed.

Lemma run_validation_total f partial data :
  total (run_validation env f partial data).
Proof.
  destruct data as [[|s]|]; simpl.
  - destruct (allow_null f); auto with store.
  - destruct (negb _).
    + destruct (allow_blank f); auto with store.
    + apply total_bind; [apply run_validators_total|].
      intros [|]; auto with store.
  - destruct partial, (required f); auto with store.
Qed.

Lemma run_field_read_only f partial data :
  well_behaved f -> read_only (run_field env f partial data).
Proof.
  unfold well_behaved, run_field. intros Hf.
  apply read_only_bind; [apply run_validation_read_only|].
  intros [|[v|]|d]; destruct (validate_method f) as [validate|]; auto with store.
  apply read_only_bind; [apply read_only_try_validation, Hf|].
  intros [|]; auto with store.
Qed.

Lemma run_field_total f partial data :
  well_behaved f -> total (run_field env f partial data).
Proof.
  unfold well_behaved, run_field. intros Hf.
  apply total_bind; [apply run_validation_total|].
  intros [|[v|]|d]; destruct (validate_method f) as [validate|]; auto with store.
  apply total_bind; [apply total_try_validation, Hf|].
  intros [|]; auto with store.
Qed.

Lemma to_internal_value_read_only fields partial data :
  Forall well_behaved fields -> read_only (to_internal_value env fields partial data).
Proof.
  induction 1 as [|f fields Hf _ IH]; simpl; auto with store.
  apply read_only_bind; [now apply run_field_read_only|].
  intros o. apply read_only_bind; [exact IH|].
  intros r. destruct o; auto with store.
Qed.

Lemma to_internal_value_total fields partial data :
  Forall well_behaved fields -> total (to_internal_value env fields partial data).
Proof.
  induction 1 as [|f fields Hf _ IH]; simpl; auto with store.
  apply total_bind; [now apply run_field_total|].
  intros o. apply total_bind; [exact IH|].
  intros r. destruct o; auto with store.
Qed.

(** The fields do not influence one another: the outcome of the loop on
    [f :: rest] files the outcome of [f], run on its own, into the outcome
    of the loop on [rest], run on its own. *)
Lemma to_internal_value_cons f rest partial data db :
  well_behaved f -> Forall well_behaved rest ->
  exists o r,
    fst (run_field env f partial data db) = Returned o /\
    fst (to_internal_value env rest partial data db) = Returned r /\
    fst (to_internal_value env (f :: rest) partial data db)
      = Returned (file_outcome (field_name f) o r).
Proof.
  intros Hf Hrest.
  destruct (run_field_total f partial data Hf db) as [o Ho].
  destruct (to_internal_value_total rest partial data Hrest db) as [r Hr].
  exists o, r. repeat split; trivial.
  simpl. unfold bind at 1.
  destruct (run_field_read_only f partial data Hf db) as [Hs _].
  destruct (run_field env f partial data db) as [o' db1]; simpl in Ho, Hs; subst o'.
  destruct (to_internal_value_read_only rest partial data Hrest db) as [_ Hi].
  specialize (Hi db1 Hs). rewrite Hr in Hi.
  unfold bind.
  destruct (to_internal_value env rest partial data db1) as [r' db2]; simpl in Hi;
    subst r'.
  destruct o; reflexivity.
Qed.

End FieldFacts.

Lemma file_outcome_lookup_error key name o r :
  lookup key (fst (file_outcome name o r)) =
    match o with
    | Invalid detail => if String.eqb name key then Some detail else lookup key (fst r)
    | _ => lookup key (fst r)
    end.
Proof. destruct o; reflexivity. Qed.

Lemma file_outcome_lookup_value key name o r :
  lookup key (snd (file_outcome name o r)) =
    match o with
    | Validated v => if String.eqb name key then Some v else lookup key (snd r)
    | _ => lookup key (snd r)
    end.
Proof. destruct o; reflexivity. Qed.

Lemma file_outcome_no_error name o r :
  fst (file_outcome name o r) = [] ->
  (forall detail, o <> Invalid detail) /\ fst r = [].
Proof. destruct o; simpl; intros H; try discriminate; split; trivial; discriminate. Qed.

Lemma file_outcome_error name o r :
  fst r <> [] -> fst (file_outcome name o r) <> [].
Proof. destruct o; simpl; trivial; discriminate. Qed.

(** ** Serializers only read the table *)

Section SerializerFacts.

Variable env : Env.
Context {R : Type}.
Variable fields : list Field.
Variable partial : bool.
Variable validate : Attrs -> M R.
Hypothesis fields_ok : Forall well_behaved fields.
Hypothesis validate_ro : forall attrs, read_only (validate attrs).

Lemma serializer_run_validation_read_only data :
  read_only (serializer_run_validation env fields partial validate data).
Proof.
  unfold serializer_run_validation.
  apply read_only_bind; [now apply to_internal_value_read_only|].
  intros [[|e errs] attrs]; simpl; auto with store.
  apply read_only_bind; [auto with store|]. intros [|]; auto with store.
Qed.

Lemma is_valid_read_only data : read_only (serializer_is_valid env fields partial validate data).
Proof.
  unfold serializer_is_valid.
  apply read_only_bind;
    [apply read_only_try_validation, serializer_run_validation_read_only|].
  intros [|]; auto with store.
Qed.

(** What [is_valid] answers, from the outcome of the fields and of the
    object-level [validate], each run on its own. *)
Lemma is_valid_outcome data db errors attrs :
  fst (to_internal_value env fields partial data db) = Returned (errors, attrs) ->
  fst (serializer_is_valid env fields partial validate data db) =
    match errors with
    | [] =>
        match fst (validate attrs db) with
        | Returned value => Returned (inr value)
        | Raised (ValidationError detail) => Returned (inl (as_serializer_error detail))
        | Raised e => Raised e
        end
    | _ => Returned (inl errors)
    end.
Proof.
  intros H.
  destruct (to_internal_value_read_only env fields partial data fields_ok db) as [Hs _].
  unfold serializer_is_valid, serializer_run_validation, bind at 1, try_validation at 1,
    bind at 1.
  destruct (to_internal_value env fields partial data db) as [o db1];
    simpl in H, Hs; subst o; simpl.
  destruct errors as [|e errs]; [|reflexivity].
  destruct (validate_ro attrs db) as [_ Hi]. rewrite (Hi db1 Hs).
  unfold bind, try_validation.
  destruct (validate attrs db1) as [[value|[]] db2]; reflexivity.
Qed.

End SerializerFacts.

(** ** The manager *)

Section ManagerFacts.

Variable env : Env.

Lemma save_insert_effect u db :
  match save_insert u db with
  | (Returned saved, db') =>
      rows db' = rows db ++ [saved] /\ email saved = email u /\
      first_name saved = first_name u /\ last_name saved = last_name u /\
      existsb (fun r => String.eqb (email r) (email u)) (rows db) = false
  | (Raised e, db') =>
      same_table db db' /\ e = IntegrityError UNIQUE_FAILED /\
      existsb (fun r => String.eqb (email r) (email u)) (rows db) = true
  end.
Proof.
  unfold save_insert, bind, log; simpl.
  destruct (existsb _ (rows db)); simpl; repeat split.
Qed.

(** A call of [_create_user] adds exactly the row it returns, or raises and
    leaves the table as it was. *)
Lemma _create_user_effect email password extra db :
  match _create_user env email password extra db with
  | (Returned u, db') => rows db' = rows db ++ [u]
  | (Raised e, db') => same_table db db'
  end.
Proof.
  unfold _create_user.
  destruct (negb (truthy_opt email)); [apply same_table_refl|].
  destruct (negb (truthy_opt password)); [apply same_table_refl|].
  match goal with |- context [save_insert ?u db] =>
    pose proof (save_insert_effect u db) as H; destruct (save_insert u db) as [[saved|e] db']
  end; tauto.
Qed.

Lemma create_user_effect email password extra db :
  match create_user env email password extra db with
  | (Returned u, db') => rows db' = rows db ++ [u]
  | (Raised e, db') => same_table db db'
  end.
Proof. unfold create_user. apply _create_user_effect. Qed.

End ManagerFacts.

(** C10: [create_user] and [_create_user] called with an empty or missing
    e-mail raise [ValueError] ("The Email field must be set"), and with an
    e-mail but an empty or missing password raise [ValueError] ("The Password
    field must be set"); the store comes back exactly as it was, with no
    query added to its log, so the exception precedes any storage access. *)
Theorem C10_create_user_value_error :
  forall env (email password : option string) extra db,
    truthy_opt email = false \/ truthy_opt password = false ->
    let msg := if truthy_opt email then "The Password field must be set"
               else "The Email field must be set" in
    _create_user env email password extra db = (Raised (ValueError msg), db) /\
    create_user env email password extra db = (Raised (ValueError msg), db).
Proof.
  intros env email password extra db H. unfold create_user, _create_user.
  destruct (truthy_opt email) eqn:He; simpl.
  - destruct H as [H|H]; [discriminate|]. rewrite H. split; reflexivity.
  - split; reflexivity.
Qed.

Lemma C10_witness :
  (truthy_opt (Some "") = false \/ truthy_opt (Some "TestPass123!") = false) /\
  _create_user sample_env (Some "") (Some "TestPass123!") no_extra empty_db
    = (Raised (ValueError "The Email field must be set"), empty_db) /\
  create_user sample_env (Some "") (Some "TestPass123!") no_extra empty_db
    = (Raised (ValueError "The Email field must be set"), empty_db).
Proof.
  split; [left; reflexivity|].
  apply (C10_create_user_value_error sample_env (Some "") (Some "TestPass123!")
           no_extra empty_db).
  left; reflexivity.
Defined.

(** ** Registration *)

Section RegistrationFacts.

Variable env : Env.

Import UserRegistrationSerializer.

Lemma validate_email_well_behaved value :
  read_only (validate_email value) /\ validating (validate_email value).
Proof.
  unfold validate_email. split.
  - apply read_only_bind; [auto with store|]. intros []; unfold invalid; auto with store.
  - apply validating_bind; [auto with store|]. intros []; auto with store.
Qed.

(** [validate_password] does not touch the store at all. *)
Lemma validate_password_pure value db :
  snd (validate_password env value db) = db /\
  forall db', fst (validate_password env value db') = fst (validate_password env value db).
Proof.
  unfold validate_password.
  repeat match goal with |- context [if ?b then _ else _] => destruct b end;
    try (split; reflexivity).
  destruct (password_validation env value); split; reflexivity.
Qed.

Lemma validate_password_well_behaved value :
  read_only (validate_password env value) /\ validating (validate_password env value).
Proof.
  split.
  - intros db. destruct (validate_password_pure value db) as [Hs Hf]. split.
    + rewrite Hs. apply same_table_refl.
    + intros db' _. symmetry. apply Hf.
  - intros db. unfold validate_password.
    repeat match goal with |- context [if ?b then _ else _] => destruct b end;
      try (right; eexists; reflexivity).
    destruct (password_validation env value);
      [left | right]; eexists; reflexivity.
Qed.

Lemma fields_well_behaved : Forall well_behaved (fields env).
Proof.
  unfold fields.
  repeat apply Forall_cons; try apply Forall_nil; unfold well_behaved; simpl; trivial.
  - apply validate_email_well_behaved.
  - apply validate_password_well_behaved.
Qed.

Lemma validate_pure attrs db :
  snd (validate attrs db) = db /\
  forall db', fst (validate attrs db') = fst (validate attrs db).
Proof.
  unfold validate.
  destruct (lookup "password" attrs) as [p|]; [|split; reflexivity].
  destruct (lookup "password_confirm" attrs) as [c|]; [|split; reflexivity].
  match goal with |- context [if ?b then _ else _] => destruct b end; split; reflexivity.
Qed.

Lemma validate_read_only attrs : read_only (validate attrs).
Proof.
  intros db. destruct (validate_pure attrs db) as [Hs Hf]. split.
  - rewrite Hs. apply same_table_refl.
  - intros db' _. symmetry. apply Hf.
Qed.

Lemma is_valid_read_only_registration data : read_only (is_valid env data).
Proof.
  apply is_valid_read_only; [apply fields_well_behaved | apply validate_read_only].
Qed.

Lemma create_effect validated_data db :
  match create env validated_data db with
  | (Returned u, db') => rows db' = rows db ++ [u]
  | (Raised e, db') => same_table db db'
  end.
Proof.
  unfold create.
  destruct (lookup "password_confirm" validated_data); [|apply same_table_refl].
  destruct (lookup "email" _); [|apply same_table_refl].
  apply create_user_effect.
Qed.

(** The handler creates exactly the identity whose tokens it returns, or
    answers 400 without tokens, or raises; in the last two cases the table
    is as before. *)
Lemma post_atomic data db :
  match UserRegistrationView.post env data db with
  | (Returned resp, db') =>
      (exists u,
          rows db' = rows db ++ [u] /\
          resp = mkResponse HTTP_201_CREATED
                   (B_tokens (snd (for_user env u)) (fst (for_user env u))
                      (to_representation u)))
      \/ (exists errors,
          rows db' = rows db /\
          resp = mkResponse HTTP_400_BAD_REQUEST (B_errors errors))
  | (Raised e, db') => rows db' = rows db
  end.
Proof.
  unfold UserRegistrationView.post, bind at 1.
  destruct (is_valid_read_only_registration data db) as [(Hr & _) _].
  destruct (is_valid env data db) as [[[errors|validated]|e] db1]; simpl in Hr.
  - right. exists errors. split; [now symmetry | reflexivity].
  - unfold bind. pose proof (create_effect validated db1) as Hc.
    destruct (create env validated db1) as [[u|e] db2].
    + left. exists u. split; [congruence | reflexivity].
    + destruct Hc as (Hc & _). congruence.
  - now symmetry.
Qed.

(** The outcome of the five fields, each run on its own, and how the loop
    of [to_internal_value] puts them together. *)
Lemma fields_outcome data db :
  exists o1 o2 o3 o4 o5,
    fst (run_field env email_field false data db) = Returned o1 /\
    fst (run_field env (password_field env) false data db) = Returned o2 /\
    fst (run_field env password_confirm_field false data db) = Returned o3 /\
    fst (run_field env first_name_field false data db) = Returned o4 /\
    fst (run_field env last_name_field false data db) = Returned o5 /\
    fst (to_internal_value env (fields env) false data db) =
      Returned (file_outcome "email" o1
                 (file_outcome "password" o2
                   (file_outcome "password_confirm" o3
                     (file_outcome "first_name" o4
                       (file_outcome "last_name" o5 ([], [])))))).
Proof.
  pose proof fields_well_behaved as H. unfold fields in *.
  pose proof (Forall_inv H) as H1. apply Forall_inv_tail in H.
  pose proof (Forall_inv H) as H2. apply Forall_inv_tail in H.
  pose proof (Forall_inv H) as H3. apply Forall_inv_tail in H.
  pose proof (Forall_inv H) as H4. apply Forall_inv_tail in H.
  pose proof (Forall_inv H) as H5. apply Forall_inv_tail in H.
  destruct (to_internal_value_cons env _ [] false data db H5 H) as (o5 & r5 & E5 & R5 & T5).
  simpl in R5. injection R5 as <-.
  destruct (to_internal_value_cons env _ _ false data db H4 (Forall_cons _ H5 H))
    as (o4 & r4 & E4 & R4 & T4).
  rewrite T5 in R4. injection R4 as <-.
  destruct (to_internal_value_cons env _ _ false data db H3
              (Forall_cons _ H4 (Forall_cons _ H5 H))) as (o3 & r3 & E3 & R3 & T3).
  rewrite T4 in R3. injection R3 as <-.
  destruct (to_internal_value_cons env _ _ false data db H2
              (Forall_cons _ H3 (Forall_cons _ H4 (Forall_cons _ H5 H))))
    as (o2 & r2 & E2 & R2 & T2).
  rewrite T3 in R2. injection R2 as <-.
  destruct (to_internal_value_cons env _ _ false data db H1
              (Forall_cons _ H2 (Forall_cons _ H3 (Forall_cons _ H4 (Forall_cons _ H5 H)))))
    as (o1 & r1 & E1 & R1 & T1).
  rewrite T2 in R1. injection R1 as <-.
  exists o1, o2, o3, o4, o5. repeat split; assumption.
Qed.

(** [validate_password] on a password that accepts it: no rule of the
    specification is violated. *)
Lemma validate_password_returns value db v :
  fst (validate_password env value db) = Returned v ->
  v = value /\ spec_violated_rules value = [].
Proof.
  unfold validate_password, spec_violated_rules.
  destruct (String.length value <? 8); [discriminate|].
  destruct (PyStr.search PyStr.is_upper_AZ value); [|discriminate].
  destruct (PyStr.search PyStr.is_lower_az value); [|discriminate].
  destruct (PyStr.search PyStr.is_digit value); [|discriminate].
  simpl. destruct (password_validation env value); [|discriminate].
  simpl. intros [= <-]. split; reflexivity.
Qed.

(** The password field passes only on a string, which it trims, and only
    when that violates no rule. *)
Lemma password_outcome data db o :
  fst (run_field env (password_field env) false data db) = Returned o ->
  (exists detail, o = Invalid detail) \/
  (exists p, lookup "password" data = Some (JStr p) /\
             o = Validated (Some (PyStr.strip p)) /\
             spec_violated_rules (PyStr.strip p) = []).
Proof.
  unfold run_field, run_validation; simpl.
  destruct (lookup "password" data) as [[|p]|]; run_store.
  - intros [= <-]. left. eauto.
  - destruct (PyStr.truthy (PyStr.strip p)); run_store;
      [|intros [= <-]; left; eauto].
    destruct (String.length (PyStr.strip p) <? 8), (has_null_char (PyStr.strip p));
      run_store; try (intros [= <-]; left; eauto).
    pose proof (validate_password_returns (PyStr.strip p) db) as Hv.
    destruct (validate_password env (PyStr.strip p) db) as [[v|[]] db1]; simpl in *;
      try discriminate; intros [= <-]; try (left; eauto; fail).
    destruct (Hv v eq_refl) as [-> Hr]. right. eauto.
  - intros [= <-]. left. eauto.
Qed.

Lemma password_confirm_outcome data db o :
  fst (run_field env password_confirm_field false data db) = Returned o ->
  (exists detail, o = Invalid detail) \/
  (exists c, lookup "password_confirm" data = Some (JStr c) /\
             o = Validated (Some (PyStr.strip c))).
Proof.
  unfold run_field, run_validation; simpl.
  destruct (lookup "password_confirm" data) as [[|c]|]; run_store.
  - intros [= <-]. left. eauto.
  - destruct (PyStr.truthy (PyStr.strip c)); run_store;
      [|intros [= <-]; left; eauto].
    destruct (has_null_char (PyStr.strip c)); run_store; intros [= <-]; eauto.
  - intros [= <-]. left. eauto.
Qed.

(** A name longer than 30 characters after trimming is refused by the
    field. *)
Lemma long_name_outcome (f : Field) data db name :
  f = first_name_field \/ f = last_name_field ->
  lookup (field_name f) data = Some (JStr name) ->
  30 < String.length (PyStr.strip name) ->
  exists more,
    fst (run_field env f false data db) = Returned (Invalid (DList (MSG_MAX_30 :: more))).
Proof.
  intros Hf Hl Hlen.
  assert (Ht : PyStr.truthy (PyStr.strip name) = true) by (apply truthy_length; lia).
  assert (Hlt : (30 <? String.length (PyStr.strip name)) = true) by (apply Nat.ltb_lt; lia).
  destruct Hf as [-> | ->]; unfold run_field, run_validation; simpl in *;
    rewrite Hl, Ht; run_store; rewrite Hlt; run_store; eauto.
Qed.

Lemma post_of_invalid data db errors :
  fst (is_valid env data db) = Returned (inl errors) ->
  fst (UserRegistrationView.post env data db)
    = Returned (mkResponse HTTP_400_BAD_REQUEST (B_errors errors)) /\
  rows (snd (UserRegistrationView.post env data db)) = rows db.
Proof.
  intros H. pose proof (post_atomic data db) as Ha.
  unfold UserRegistrationView.post, bind in *.
  destruct (is_valid env data db) as [o db1]; simpl in H; subst o; simpl in *.
  destruct Ha as [(u & _ & [=])|(errs & Hr & _)]. now split.
Qed.

(** A request whose fields do not all pass is answered 400 with the field
    errors. *)
Lemma post_of_field_errors data db e errors attrs :
  fst (to_internal_value env (fields env) false data db) = Returned (e :: errors, attrs) ->
  fst (UserRegistrationView.post env data db)
    = Returned (mkResponse HTTP_400_BAD_REQUEST (B_errors (e :: errors))) /\
  rows (snd (UserRegistrationView.post env data db)) = rows db.
Proof.
  intros H. apply post_of_invalid. unfold is_valid.
  now rewrite (is_valid_outcome env (fields env) false validate fields_well_behaved
                 validate_read_only data db _ _ H).
Qed.

(** Password and confirmation that differ once trimmed: the request is
    answered 400, and with the mismatch error when every field passed. *)
Lemma post_mismatch data db p c :
  lookup "password" data = Some (JStr p) ->
  lookup "password_confirm" data = Some (JStr c) ->
  PyStr.strip p <> PyStr.strip c ->
  exists errors,
    fst (UserRegistrationView.post env data db)
      = Returned (mkResponse HTTP_400_BAD_REQUEST (B_errors errors)) /\
    rows (snd (UserRegistrationView.post env data db)) = rows db /\
    (forall attrs,
        fst (to_internal_value env (fields env) false data db) = Returned ([], attrs) ->
        errors = [("password_confirm", DList [MSG_MISMATCH])]).
Proof.
  intros Hp Hc Hne.
  destruct (fields_outcome data db)
    as (o1 & o2 & o3 & o4 & o5 & E1 & E2 & E3 & E4 & E5 & T).
  match type of T with _ = Returned ?x => destruct x as [errors attrs] eqn:Er end.
  destruct errors as [|e errors].
  - assert (Hf : fst (file_outcome "email" o1
                       (file_outcome "password" o2
                         (file_outcome "password_confirm" o3
                           (file_outcome "first_name" o4
                             (file_outcome "last_name" o5 ([], [])))))) = [])
      by now rewrite Er.
    apply file_outcome_no_error in Hf as [N1 Hf].
    apply file_outcome_no_error in Hf as [N2 Hf].
    apply file_outcome_no_error in Hf as [N3 _].
    destruct (password_outcome data db o2 E2) as [[d ->]|(p' & Hp' & -> & _)];
      [now elim (N2 d)|].
    destruct (password_confirm_outcome data db o3 E3) as [[d ->]|(c' & Hc' & ->)];
      [now elim (N3 d)|].
    rewrite Hp in Hp'. injection Hp' as <-. rewrite Hc in Hc'. injection Hc' as <-.
    assert (Hv : fst (validate attrs db)
                 = Raised (ValidationError
                             (DDict [("password_confirm", DList [MSG_MISMATCH])]))).
    { unfold validate.
      assert (L1 : lookup "password" attrs = Some (Some (PyStr.strip p))).
      { change attrs with (snd (([] : ErrorDict), attrs)). rewrite <- Er.
        rewrite file_outcome_lookup_value. destruct o1; reflexivity. }
      assert (L2 : lookup "password_confirm" attrs = Some (Some (PyStr.strip c))).
      { change attrs with (snd (([] : ErrorDict), attrs)). rewrite <- Er.
        rewrite file_outcome_lookup_value. destruct o1; reflexivity. }
      rewrite L1, L2.
      destruct (String.eqb_spec (PyStr.strip p) (PyStr.strip c)); [contradiction|].
      reflexivity. }
    pose proof (is_valid_outcome env (fields env) false validate fields_well_behaved
                  validate_read_only data db _ _ T) as Hi.
    simpl in Hi. rewrite Hv in Hi. simpl in Hi.
    destruct (post_of_invalid data db _ Hi) as [Hr Hs].
    eexists. split; [exact Hr|]. split; [exact Hs|]. reflexivity.
  - destruct (post_of_field_errors data db _ _ _ T) as [Hr Hs].
    eexists. split; [exact Hr|]. split; [exact Hs|].
    intros attrs' H'. rewrite T in H'. discriminate.
Qed.

Lemma post_of_reported_error data db errors attrs key detail :
  fst (to_internal_value env (fields env) false data db) = Returned (errors, attrs) ->
  lookup key errors = Some detail ->
  exists errors,
    fst (UserRegistrationView.post env data db)
      = Returned (mkResponse HTTP_400_BAD_REQUEST (B_errors errors)) /\
    rows (snd (UserRegistrationView.post env data db)) = rows db /\
    lookup key errors = Some detail.
Proof.
  intros T L. destruct errors as [|e errors]; [discriminate|].
  destruct (post_of_field_errors data db _ _ _ T) as [Hr Hs].
  exists (e :: errors). now repeat split.
Qed.

(** An error of a field is reported under the key of the field, whatever
    the other fields do. *)
Lemma field_error_reported (f : Field) data db detail :
  In f (fields env) ->
  fst (run_field env f false data db) = Returned (Invalid detail) ->
  exists errors,
    fst (UserRegistrationView.post env data db)
      = Returned (mkResponse HTTP_400_BAD_REQUEST (B_errors errors)) /\
    rows (snd (UserRegistrationView.post env data db)) = rows db /\
    lookup (field_name f) errors = Some detail.
Proof.
  intros Hin Hf.
  destruct (fields_outcome data db)
    as (o1 & o2 & o3 & o4 & o5 & E1 & E2 & E3 & E4 & E5 & T).
  match type of T with _ = Returned ?x => destruct x as [errors attrs] eqn:Er end.
  apply (post_of_reported_error data db errors attrs _ _ T).
  change errors with (fst (errors, attrs)). rewrite <- Er.
  simpl in Hin.
  destruct Hin as [<-|[<-|[<-|[<-|[<-|[]]]]]]; rewrite Hf in *;
    match goal with E : Returned (Invalid _) = Returned ?o |- _ =>
      injection E as <- end;
    repeat (rewrite file_outcome_lookup_error; simpl;
            try match goal with |- context [match ?o with _ => _ end] =>
                  is_var o; destruct o; simpl end);
    reflexivity.
Qed.

(** [validate_password] names the first violated rule, and it alone. *)
Lemma validate_password_violation value m rest db :
  spec_violated_rules value = m :: rest ->
  validate_password env value db = (Raised (ValidationError (DList [m])), db).
Proof.
  unfold spec_violated_rules, validate_password.
  destruct (String.length value <? 8); simpl; [now intros [= <- _]|].
  destruct (PyStr.search PyStr.is_upper_AZ value); simpl; [|now intros [= <- _]].
  destruct (PyStr.search PyStr.is_lower_az value); simpl; [|now intros [= <- _]].
  destruct (PyStr.search PyStr.is_digit value); simpl; [discriminate|now intros [= <- _]].
Qed.

(** The error of the password field for a trimmed password that violates a
    rule: one message, the field's own minimum-length message when the
    password is short, the first violated rule otherwise. *)
Lemma password_violation_outcome data db raw m rest :
  lookup "password" data = Some (JStr raw) ->
  spec_violated_rules (PyStr.strip raw) = m :: rest ->
  exists detail,
    fst (run_field env (password_field env) false data db) = Returned (Invalid detail) /\
    (PyStr.truthy (PyStr.strip raw) = true ->
     has_null_char (PyStr.strip raw) = false ->
     detail = DList [if String.length (PyStr.strip raw) <? 8 then MSG_MIN_8 else m]).
Proof.
  intros Hl Hv. pose proof (validate_password_violation _ _ _ db Hv) as Hm.
  unfold run_field, run_validation; simpl. rewrite Hl.
  destruct (PyStr.truthy (PyStr.strip raw)); run_store;
    [|eexists; split; [reflexivity | discriminate]].
  destruct (String.length (PyStr.strip raw) <? 8), (has_null_char (PyStr.strip raw));
    run_store; try rewrite Hm; simpl;
    eexists; (split; [reflexivity | try discriminate; reflexivity]).
Qed.

End RegistrationFacts.

(** C1, as amended: a password that violates one or more of the strength
    rules makes [validate_password] fail with an error list that holds one
    message only, the first violated rule in the order length, uppercase,
    lowercase, digit; a registration with such a password is answered 400
    with an error under [password], creates nothing, and for a non-blank
    password without null characters that error is the single message of
    the field's minimum-length check (password shorter than 8) or of the
    first violated rule. *)
Theorem C1_first_violated_rule_only :
  forall env value m rest db,
    spec_violated_rules value = m :: rest ->
    UserRegistrationSerializer.validate_password env value db
      = (Raised (ValidationError (DList [m])), db) /\
    forall data raw,
      lookup "password" data = Some (JStr raw) ->
      PyStr.strip raw = value ->
      exists errors detail,
        fst (UserRegistrationView.post env data db)
          = Returned (mkResponse HTTP_400_BAD_REQUEST (B_errors errors)) /\
        rows (snd (UserRegistrationView.post env data db)) = rows db /\
        lookup "password" errors = Some detail /\
        (PyStr.truthy value = true -> has_null_char value = false ->
         detail = DList [if String.length value <? 8 then MSG_MIN_8 else m]).
Proof.
  intros env value m rest db Hv. split.
  - now apply validate_password_violation with (rest := rest).
  - intros data raw Hl <-.
    destruct (password_violation_outcome env data db raw m rest Hl Hv) as (d & Ho & Hd).
    destruct (field_error_reported env (UserRegistrationSerializer.password_field env)
                data db d) as (errors & Hr & Hs & He); [simpl; tauto | exact Ho |].
    exists errors, d. repeat split; assumption.
Qed.

Lemma C1_witness :
  spec_violated_rules "alllowercase"
    = [UserRegistrationSerializer.MSG_UPPER; UserRegistrationSerializer.MSG_NUMBER] /\
  UserRegistrationSerializer.validate_password sample_env "alllowercase" empty_db
    = (Raised (ValidationError (DList [UserRegistrationSerializer.MSG_UPPER])), empty_db) /\
  exists errors detail,
    fst (UserRegistrationView.post sample_env
           (registration_data "user@example.com" " alllowercase " " alllowercase ")
           empty_db)
      = Returned (mkResponse HTTP_400_BAD_REQUEST (B_errors errors)) /\
    rows (snd (UserRegistrationView.post sample_env
                 (registration_data "user@example.com" " alllowercase " " alllowercase ")
                 empty_db)) = rows empty_db /\
    lookup "password" errors = Some detail /\
    (PyStr.truthy "alllowercase" = true -> has_null_char "alllowercase" = false ->
     detail = DList [if String.length "alllowercase" <? 8 then MSG_MIN_8
                     else UserRegistrationSerializer.MSG_UPPER]).
Proof.
  split; [reflexivity|].
  destruct (C1_first_violated_rule_only sample_env "alllowercase"
              UserRegistrationSerializer.MSG_UPPER [UserRegistrationSerializer.MSG_NUMBER]
              empty_db eq_refl) as [Hm Hp].
  split; [exact Hm|].
  apply (Hp (registration_data "user@example.com" " alllowercase " " alllowercase ")
            " alllowercase "); reflexivity.
Defined.

(** C1 as stated fails: "alllowercase" violates the uppercase rule and the
    digit rule, and the registration reports the uppercase rule alone. *)
Lemma C1_counterexample :
  spec_violated_rules "alllowercase"
    = [UserRegistrationSerializer.MSG_UPPER; UserRegistrationSerializer.MSG_NUMBER] /\
  fst (UserRegistrationView.post sample_env
         (registration_data "user@example.com" "alllowercase" "alllowercase") empty_db)
    = Returned (mkResponse HTTP_400_BAD_REQUEST
                  (B_errors [("password", DList [UserRegistrationSerializer.MSG_UPPER])])) /\
  existsb (String.eqb UserRegistrationSerializer.MSG_NUMBER)
    [UserRegistrationSerializer.MSG_UPPER] = false.
Proof. repeat split. Qed.

(** C7, as amended: a registration request either creates exactly one
    identity and returns its tokens (201), or is answered 400 with errors
    and no tokens, or raises, and in the last two cases the table is as
    before; a request whose password and confirmation differ after the
    fields have trimmed them is answered 400 and creates nothing, with the
    mismatch error under [password_confirm] when every field passed its own
    checks; and [validate] itself raises that error on any two different
    values. *)
Theorem C7_registration_atomic :
  forall env data db,
    match UserRegistrationView.post env data db with
    | (Returned resp, db') =>
        (exists u,
            rows db' = rows db ++ [u] /\
            resp = mkResponse HTTP_201_CREATED
                     (B_tokens (snd (for_user env u)) (fst (for_user env u))
                        (to_representation u)))
        \/ (exists errors,
            rows db' = rows db /\
            resp = mkResponse HTTP_400_BAD_REQUEST (B_errors errors))
    | (Raised e, db') => rows db' = rows db
    end /\
    (forall p c,
        lookup "password" data = Some (JStr p) ->
        lookup "password_confirm" data = Some (JStr c) ->
        PyStr.strip p <> PyStr.strip c ->
        exists errors,
          fst (UserRegistrationView.post env data db)
            = Returned (mkResponse HTTP_400_BAD_REQUEST (B_errors errors)) /\
          rows (snd (UserRegistrationView.post env data db)) = rows db /\
          (forall attrs,
              fst (to_internal_value env (UserRegistrationSerializer.fields env)
                     false data db) = Returned ([], attrs) ->
              errors = [("password_confirm",
                         DList [UserRegistrationSerializer.MSG_MISMATCH])])) /\
    (forall attrs p c,
        lookup "password" attrs = Some (Some p) ->
        lookup "password_confirm" attrs = Some (Some c) ->
        p <> c ->
        UserRegistrationSerializer.validate attrs db
          = (Raised (ValidationError
                       (DDict [("password_confirm",
                                DList [UserRegistrationSerializer.MSG_MISMATCH])])), db)).
Proof.
  intros env data db. split; [apply post_atomic|]. split.
  - intros p c. apply post_mismatch.
  - intros attrs p c Hp Hc Hne. unfold UserRegistrationSerializer.validate.
    rewrite Hp, Hc. destruct (String.eqb_spec p c); [contradiction | reflexivity].
Qed.

Lemma C7_witness :
  PyStr.strip "TestPass123!" <> PyStr.strip "DifferentPass123!" /\
  exists errors,
    fst (UserRegistrationView.post sample_env
           (registration_data "test@example.com" "TestPass123!" "DifferentPass123!")
           empty_db)
      = Returned (mkResponse HTTP_400_BAD_REQUEST (B_errors errors)) /\
    rows (snd (UserRegistrationView.post sample_env
                 (registration_data "test@example.com" "TestPass123!" "DifferentPass123!")
                 empty_db)) = rows empty_db /\
    (forall attrs,
        fst (to_internal_value sample_env (UserRegistrationSerializer.fields sample_env)
               false
               (registration_data "test@example.com" "TestPass123!" "DifferentPass123!")
               empty_db) = Returned ([], attrs) ->
        errors = [("password_confirm", DList [UserRegistrationSerializer.MSG_MISMATCH])]).
Proof.
  split; [vm_compute; discriminate|].
  apply (proj1 (proj2 (C7_registration_atomic sample_env
           (registration_data "test@example.com" "TestPass123!" "DifferentPass123!")
           empty_db)) "TestPass123!" "DifferentPass123!");
    [reflexivity | reflexivity | vm_compute; discriminate].
Defined.

(** C7 as stated fails: a confirmation that differs from the password by a
    trailing blank is trimmed by its field, so the registration succeeds and
    creates an identity; and with a malformed e-mail the mismatch is not
    reported, the field error is. *)
Lemma C7_counterexample :
  String.eqb "TestPass123!" "TestPass123! " = false /\
  UserRegistrationView.post sample_env
    (registration_data "test@example.com" "TestPass123!" "TestPass123! ") empty_db
    = (Returned (mkResponse HTTP_201_CREATED
                   (B_tokens "access:test@example.com" "refresh:test@example.com"
                      (mkProfile "test@example.com" None None 0 0))),
       mkDB [mkUser 1 "test@example.com" "plain$TestPass123!" None None
               true false false 0 0]
            2 1
            [Q_insert "test@example.com"; Q_exists "test@example.com";
             Q_exists "test@example.com"]) /\
  fst (UserRegistrationView.post sample_env
         (registration_data "invalid-email" "TestPass123!" "DifferentPass123!") empty_db)
    = Returned (mkResponse HTTP_400_BAD_REQUEST
                  (B_errors [("email", DList [MSG_INVALID_EMAIL])])).
Proof. repeat split. Qed.

(** [create_user] with a non-empty e-mail and password, on a table that does
    not hold the normalised address, inserts one row: the normalised
    address and the names cut to 30 characters. *)
Lemma create_user_returns env e p extra db :
  PyStr.truthy e = true -> PyStr.truthy p = true ->
  existsb (fun r => String.eqb (email r)
                      (PyStr.strip (PyStr.lower (normalize_email (Some e)))))
    (rows db) = false ->
  exists u db',
    create_user env (Some e) (Some p) extra db = (Returned u, db') /\
    rows db' = rows db ++ [u] /\
    email u = PyStr.strip (PyStr.lower (normalize_email (Some e))) /\
    first_name u = match truncate_name (x_first_name extra) with
                   | Some v => v | None => None end /\
    last_name u = match truncate_name (x_last_name extra) with
                  | Some v => v | None => None end.
Proof.
  intros He Hp Hfree. unfold create_user, _create_user. simpl. rewrite He, Hp. simpl.
  unfold save_insert, bind, log; simpl. rewrite Hfree.
  eexists. eexists. repeat split.
Qed.

(** C4, as amended: it is [create_user], called directly, that cuts a first
    or last name longer than 30 characters to its first 30 characters and
    stores it without an error; the registration endpoint answers a name
    that is longer than 30 characters after trimming with 400 and the
    maximum-length error under the key of that name, and creates nothing. *)
Theorem C4_manager_truncates_registration_rejects :
  forall env db,
    (forall e p extra,
        PyStr.truthy e = true -> PyStr.truthy p = true ->
        existsb (fun r => String.eqb (email r)
                            (PyStr.strip (PyStr.lower (normalize_email (Some e)))))
          (rows db) = false ->
        exists u db',
          create_user env (Some e) (Some p) extra db = (Returned u, db') /\
          rows db' = rows db ++ [u] /\
          (forall name, x_first_name extra = Some (Some name) ->
                        30 < String.length name ->
                        first_name u = Some (PyStr.slice_to 30 name) /\
                        String.length (PyStr.slice_to 30 name) = 30) /\
          (forall name, x_last_name extra = Some (Some name) ->
                        30 < String.length name ->
                        last_name u = Some (PyStr.slice_to 30 name) /\
                        String.length (PyStr.slice_to 30 name) = 30)) /\
    (forall data (f : Field) name,
        f = UserRegistrationSerializer.first_name_field \/
        f = UserRegistrationSerializer.last_name_field ->
        lookup (field_name f) data = Some (JStr name) ->
        30 < String.length (PyStr.strip name) ->
        exists errors more,
          fst (UserRegistrationView.post env data db)
            = Returned (mkResponse HTTP_400_BAD_REQUEST (B_errors errors)) /\
          rows (snd (UserRegistrationView.post env data db)) = rows db /\
          lookup (field_name f) errors = Some (DList (MSG_MAX_30 :: more))).
Proof.
  intros env db. split.
  - intros e p extra He Hp Hfree.
    destruct (create_user_returns env e p extra db He Hp Hfree)
      as (u & db' & Hc & Hr & _ & Hf & Hl).
    assert (Ht : forall name, 30 < String.length name -> PyStr.truthy name = true)
      by (intros name Hn; apply truthy_length; lia).
    exists u, db'. split; [exact Hc|]. split; [exact Hr|]. split.
    + intros name Hx Hn. split; [|apply slice_to_length; lia].
      rewrite Hf, Hx. unfold truncate_name. now rewrite (Ht name Hn).
    + intros name Hx Hn. split; [|apply slice_to_length; lia].
      rewrite Hl, Hx. unfold truncate_name. now rewrite (Ht name Hn).
  - intros data f name Hf Hl Hlen.
    destruct (long_name_outcome env f data db name Hf Hl Hlen) as (more & Ho).
    assert (Hin : In f (UserRegistrationSerializer.fields env))
      by (destruct Hf as [-> | ->]; simpl; tauto).
    destruct (field_error_reported env f data db _ Hin Ho) as (errors & Hr & Hs & He).
    exists errors, more. repeat split; assumption.
Qed.

Lemma C4_witness :
  (PyStr.truthy "test@example.com" = true /\
   30 < String.length (PyStr.repeat "A" 50) /\
   exists u db',
     create_user sample_env (Some "test@example.com") (Some "TestPass123!")
       (mkExtra (Some (Some (PyStr.repeat "A" 50))) (Some (Some (PyStr.repeat "A" 50)))
          None None None) empty_db = (Returned u, db') /\
     rows db' = rows empty_db ++ [u] /\
     first_name u = Some (PyStr.slice_to 30 (PyStr.repeat "A" 50)) /\
     last_name u = Some (PyStr.slice_to 30 (PyStr.repeat "A" 50))) /\
  (30 < String.length (PyStr.strip (PyStr.repeat "A" 50)) /\
   exists errors more,
     fst (UserRegistrationView.post sample_env
            (("first_name", JStr (PyStr.repeat "A" 50))
               :: registration_data "test@example.com" "TestPass123!" "TestPass123!")
            empty_db)
       = Returned (mkResponse HTTP_400_BAD_REQUEST (B_errors errors)) /\
     rows (snd (UserRegistrationView.post sample_env
                  (("first_name", JStr (PyStr.repeat "A" 50))
                     :: registration_data "test@example.com" "TestPass123!" "TestPass123!")
                  empty_db)) = rows empty_db /\
     lookup "first_name" errors = Some (DList (MSG_MAX_30 :: more))).
Proof.
  split.
  - split; [reflexivity|]. split; [vm_compute; lia|].
    destruct (proj1 (C4_manager_truncates_registration_rejects sample_env empty_db)
                "test@example.com" "TestPass123!"
                (mkExtra (Some (Some (PyStr.repeat "A" 50)))
                   (Some (Some (PyStr.repeat "A" 50))) None None None)
                eq_refl eq_refl eq_refl) as (u & db' & Hc & Hr & Hf & Hl).
    exists u, db'. split; [exact Hc|]. split; [exact Hr|]. split.
    + apply (Hf (PyStr.repeat "A" 50)); [reflexivity | vm_compute; lia].
    + apply (Hl (PyStr.repeat "A" 50)); [reflexivity | vm_compute; lia].
  - split; [vm_compute; lia|].
    apply (proj2 (C4_manager_truncates_registration_rejects sample_env empty_db)
             (("first_name", JStr (PyStr.repeat "A" 50))
                :: registration_data "test@example.com" "TestPass123!" "TestPass123!")
             UserRegistrationSerializer.first_name_field (PyStr.repeat "A" 50));
      [left; reflexivity | reflexivity | vm_compute; lia].
Defined.

(** C4 as stated fails: a registration with a first name of 50 characters
    and every other field valid is answered 400 with the maximum-length
    error, and no identity is stored. *)
Lemma C4_counterexample :
  UserRegistrationView.post sample_env
    (("first_name", JStr (PyStr.repeat "A" 50))
       :: registration_data "test@example.com" "TestPass123!" "TestPass123!")
    empty_db
  = (Returned (mkResponse HTTP_400_BAD_REQUEST
                 (B_errors [("first_name", DList [MSG_MAX_30])])),
     mkDB [] 1 0 [Q_exists "test@example.com"; Q_exists "test@example.com"]).
Proof. reflexivity. Qed.

(** ** Login *)

Section LoginFacts.

Variable env : Env.

Import UserLoginSerializer.

(** [authenticate] answers [None] when no row has the address, whatever the
    backends. *)
Lemma authenticate_unknown backends username raw db :
  find (fun r => String.eqb (email r) username) (rows db) = None ->
  fst (authenticate_with env backends (Some username) (Some raw) db) = Returned None.
Proof.
  revert db. induction backends as [|b rest IH]; intros db Hf; [reflexivity|].
  simpl. unfold backend_authenticate, get_by_natural_key. run_store. rewrite Hf.
  apply IH. exact Hf.
Qed.

(** [authenticate] answers [None] when the row of the address does not
    carry the password, whatever the backends. *)
Lemma authenticate_wrong_password backends username raw u db :
  find (fun r => String.eqb (email r) username) (rows db) = Some u ->
  check_password env raw (password u) = false ->
  fst (authenticate_with env backends (Some username) (Some raw) db) = Returned None.
Proof.
  revert db. induction backends as [|b rest IH]; intros db Hf Hc; [reflexivity|].
  simpl. unfold backend_authenticate, get_by_natural_key, encoded_password. run_store.
  rewrite Hf, Hc. simpl. apply IH; assumption.
Qed.

(** Under [ModelBackend] alone, [authenticate] answers [None] for a user
    that is not active, even with the right password. *)
Lemma authenticate_inactive username raw u db :
  find (fun r => String.eqb (email r) username) (rows db) = Some u ->
  is_active u = false ->
  fst (authenticate_with env [ModelBackend] (Some username) (Some raw) db) = Returned None.
Proof.
  intros Hf Ha. simpl.
  unfold backend_authenticate, get_by_natural_key, encoded_password. run_store.
  rewrite Hf. simpl. rewrite Ha, andb_false_r. reflexivity.
Qed.

(** Under [AllowAllUsersModelBackend], [authenticate] returns the user with
    the right password, active or not. *)
Lemma authenticate_allow_all username raw u db :
  find (fun r => String.eqb (email r) username) (rows db) = Some u ->
  check_password env raw (password u) = true ->
  fst (authenticate_with env [AllowAllUsersModelBackend] (Some username) (Some raw) db)
    = Returned (Some u).
Proof.
  intros Hf Hc. simpl.
  unfold backend_authenticate, get_by_natural_key, encoded_password. run_store.
  rewrite Hf, Hc. reflexivity.
Qed.

(** The fields of a well-formed login request pass and give the trimmed
    values; no query is made. *)
Lemma login_fields_clean e p db :
  login_fields_pass env e p = true ->
  to_internal_value env fields false (login_data e p) db
    = (Returned ([], [("email", Some (PyStr.strip e)); ("password", Some (PyStr.strip p))]),
       db).
Proof.
  unfold login_fields_pass, clean_ok. intros H.
  apply andb_prop in H as [H Hp]. apply andb_prop in H as [He Hok].
  apply andb_prop in He as [He1 He2]. apply andb_prop in Hp as [Hp1 Hp2].
  apply negb_true_iff in He2, Hp2.
  simpl. unfold run_field, run_validation; simpl. run_store.
  rewrite He1, Hp1; simpl. run_store. rewrite He2, Hp2, Hok. reflexivity.
Qed.

(** What the handler answers to a well-formed request is decided by
    [authenticate]. *)
Lemma post_of_authenticate e p db r :
  login_fields_pass env e p = true ->
  fst (authenticate env (Some (PyStr.strip e)) (Some (PyStr.strip p)) db) = Returned r ->
  fst (UserLoginView.post env (login_data e p) db) =
    match r with
    | None => Returned invalid_credentials
    | Some user =>
        if is_active user
        then Returned (mkResponse HTTP_200_OK
                         (B_tokens (snd (for_user env user)) (fst (for_user env user))
                            (to_representation user)))
        else Returned account_disabled
    end.
Proof.
  intros H Ha. pose proof H as H'. unfold login_fields_pass, clean_ok in H'.
  apply andb_prop in H' as [H' Hp]. apply andb_prop in H' as [He _].
  apply andb_prop in He as [He _]. apply andb_prop in Hp as [Hp _].
  unfold UserLoginView.post, is_valid, serializer_is_valid, serializer_run_validation.
  unfold bind at 1, bind at 1, try_validation at 1, bind at 1.
  rewrite (login_fields_clean e p db H). simpl.
  unfold validate, get; simpl. rewrite He, Hp. simpl.
  unfold bind, try_validation.
  destruct (authenticate env (Some (PyStr.strip e)) (Some (PyStr.strip p)) db)
    as [o db1]; simpl in Ha; subst o.
  destruct r as [user|]; simpl; [|reflexivity].
  destruct (is_active user); reflexivity.
Qed.

End LoginFacts.

(** Under Django's default backends a deactivated account that presents its
    right password is answered with the generic error. *)
Lemma inactive_login_default_backends env e p u db :
  AUTHENTICATION_BACKENDS env = DEFAULT_AUTHENTICATION_BACKENDS ->
  login_fields_pass env e p = true ->
  find (fun r => String.eqb (email r) (PyStr.strip e)) (rows db) = Some u ->
  is_active u = false ->
  fst (UserLoginView.post env (login_data e p) db) = Returned invalid_credentials.
Proof.
  intros Hb Hw Hf Ha.
  rewrite (post_of_authenticate env e p db None Hw); [reflexivity|].
  unfold authenticate. rewrite Hb. now apply authenticate_inactive with (u := u).
Qed.

(** The serializer's own test of [is_active] decides only under a backend
    that lets deactivated accounts through. *)
Lemma inactive_login_allow_all env e p u db :
  AUTHENTICATION_BACKENDS env = [AllowAllUsersModelBackend] ->
  login_fields_pass env e p = true ->
  find (fun r => String.eqb (email r) (PyStr.strip e)) (rows db) = Some u ->
  check_password env (PyStr.strip p) (password u) = true ->
  is_active u = false ->
  fst (UserLoginView.post env (login_data e p) db) = Returned account_disabled.
Proof.
  intros Hb Hw Hf Hc Ha.
  rewrite (post_of_authenticate env e p db (Some u) Hw); [now rewrite Ha|].
  unfold authenticate. rewrite Hb. now apply authenticate_allow_all.
Qed.

(** C3: a well-formed login for an address that no identity has, and a
    well-formed login for an address that an identity has but with a
    password that does not check, are answered by one and the same payload,
    400 with "Invalid email or password." under [non_field_errors], whatever
    the authentication backends. *)
Theorem C3_login_enumeration_resistance :
  forall env db1 db2 e1 p1 e2 p2 u,
    login_fields_pass env e1 p1 = true ->
    login_fields_pass env e2 p2 = true ->
    find (fun r => String.eqb (email r) (PyStr.strip e1)) (rows db1) = None ->
    find (fun r => String.eqb (email r) (PyStr.strip e2)) (rows db2) = Some u ->
    check_password env (PyStr.strip p2) (password u) = false ->
    fst (UserLoginView.post env (login_data e1 p1) db1) = Returned invalid_credentials /\
    fst (UserLoginView.post env (login_data e2 p2) db2) = Returned invalid_credentials /\
    fst (UserLoginView.post env (login_data e1 p1) db1)
      = fst (UserLoginView.post env (login_data e2 p2) db2).
Proof.
  intros env db1 db2 e1 p1 e2 p2 u H1 H2 Hn Hf Hc.
  assert (A : fst (UserLoginView.post env (login_data e1 p1) db1)
              = Returned invalid_credentials).
  { rewrite (post_of_authenticate env e1 p1 db1 None H1); [reflexivity|].
    now apply authenticate_unknown. }
  assert (B : fst (UserLoginView.post env (login_data e2 p2) db2)
              = Returned invalid_credentials).
  { rewrite (post_of_authenticate env e2 p2 db2 None H2); [reflexivity|].
    now apply authenticate_wrong_password with (u := u). }
  split; [exact A|]. split; [exact B|]. now rewrite A, B.
Qed.

Lemma C3_witness :
  login_fields_pass sample_env "nonexistent@example.com" "TestPass123!" = true /\
  login_fields_pass sample_env "testuser@example.com" "WrongPassword123!" = true /\
  fst (UserLoginView.post sample_env
         (login_data "nonexistent@example.com" "TestPass123!") sample_db)
    = Returned invalid_credentials /\
  fst (UserLoginView.post sample_env
         (login_data "testuser@example.com" "WrongPassword123!") sample_db)
    = Returned invalid_credentials /\
  fst (UserLoginView.post sample_env
         (login_data "nonexistent@example.com" "TestPass123!") sample_db)
    = fst (UserLoginView.post sample_env
             (login_data "testuser@example.com" "WrongPassword123!") sample_db).
Proof.
  split; [reflexivity|]. split; [reflexivity|].
  apply (C3_login_enumeration_resistance sample_env sample_db sample_db
           "nonexistent@example.com" "TestPass123!"
           "testuser@example.com" "WrongPassword123!"
           (mkUser 1 "testuser@example.com" "plain$TestPass123!" (Some "Test")
              (Some "User") true false false 0 0));
    reflexivity.
Defined.

(** C5, on the code: with Django's default backends, the right password of
    a deactivated account is answered with the generic "Invalid email or
    password." payload, not with "User account is disabled."; the check of
    [is_active] in the serializer is never reached. *)
Theorem C5_disabled_account_gets_invalid_credentials :
  AUTHENTICATION_BACKENDS sample_env = [ModelBackend] /\
  rows disabled_db
    = [mkUser 1 "disabled@example.com" "plain$TestPass123!" None None
         false false false 0 0] /\
  check_password sample_env "TestPass123!" "plain$TestPass123!" = true /\
  fst (UserLoginView.post sample_env
         (login_data "disabled@example.com" "TestPass123!") disabled_db)
    = Returned invalid_credentials /\
  invalid_credentials <> account_disabled.
Proof. repeat split. discriminate. Qed.

(** A registration whose trimmed address is held by a row, letter for
    letter, is answered 400 with the duplicate error under [email]. *)
Lemma post_exact_duplicate env data db e :
  lookup "email" data = Some (JStr e) ->
  PyStr.truthy (PyStr.strip e) = true ->
  existsb (fun r => String.eqb (email r) (PyStr.strip e)) (rows db) = true ->
  exists errors more,
    fst (UserRegistrationView.post env data db)
      = Returned (mkResponse HTTP_400_BAD_REQUEST (B_errors errors)) /\
    rows (snd (UserRegistrationView.post env data db)) = rows db /\
    lookup "email" errors = Some (DList (MSG_UNIQUE :: more)).
Proof.
  intros Hl Ht Hd.
  assert (Ho : exists more,
             fst (run_field env UserRegistrationSerializer.email_field false data db)
             = Returned (Invalid (DList (MSG_UNIQUE :: more)))).
  { unfold run_field, run_validation; simpl. rewrite Hl, Ht.
    unfold filter_email_exists. run_store. rewrite Hd. simpl. eauto. }
  destruct Ho as (more & Ho).
  assert (Hin : In UserRegistrationSerializer.email_field
                  (UserRegistrationSerializer.fields env)) by (simpl; tauto).
  destruct (field_error_reported env _ data db _ Hin Ho) as (errors & Hr & Hs & He).
  exists errors, more. repeat split; assumption.
Qed.

(** Every address that [create_user] stores is trimmed and lower-case. *)
Lemma create_user_stores_normal_email env e p extra db u db' :
  create_user env e p extra db = (Returned u, db') ->
  PyStr.strip (email u) = email u /\ PyStr.lower (email u) = email u.
Proof.
  unfold create_user, _create_user.
  destruct (negb (truthy_opt e)); [discriminate|].
  destruct (negb (truthy_opt p)); [discriminate|].
  match goal with |- context [save_insert ?x db] =>
    pose proof (save_insert_effect x db) as H; destruct (save_insert x db) as [[saved|ex] db1]
  end; [|discriminate].
  intros [= <- <-]. destruct H as (_ & -> & _). simpl.
  apply (stored_email_normal (normalize_email e)).
Qed.

(** C2, on the code: after the registration of "test@example.com", the
    registration of "Test@Example.com" passes validation, because the two
    duplicate checks compare the address as submitted with the stored,
    lower-cased one, and the INSERT of the lower-cased address raises
    [IntegrityError]: no [DuplicateEmail] error is returned. *)
Theorem C2_case_variant_raises_integrity_error :
  rows registered_db
    = [mkUser 1 "test@example.com" "plain$TestPass123!" None None true false false 0 0] /\
  PyStr.lower "Test@Example.com" = "test@example.com" /\
  fst (UserRegistrationSerializer.is_valid sample_env
         (registration_data "Test@Example.com" "OtherPass123!" "OtherPass123!")
         registered_db)
    = Returned (inr [("email", Some "Test@Example.com");
                     ("password", Some "OtherPass123!");
                     ("password_confirm", Some "OtherPass123!")]) /\
  fst (UserRegistrationView.post sample_env
         (registration_data "Test@Example.com" "OtherPass123!" "OtherPass123!")
         registered_db)
    = Raised (IntegrityError UNIQUE_FAILED).
Proof. repeat split. Qed.

(** C6, on the code: a partial and a full profile update with the address
    "New@Example.com" both succeed and store it as submitted, capitals
    included, although its lower-case form is "new@example.com"; the table,
    whose addresses were all lower-case, no longer is. *)
Theorem C6_profile_update_stores_mixed_case_email :
  PyStr.lower "New@Example.com" = "new@example.com" /\
  fst (UserProfileView.patch sample_env sample_user
         [("email", JStr "New@Example.com")] sample_db)
    = Returned (mkResponse HTTP_200_OK
                  (B_profile (mkProfile "New@Example.com" (Some "Test") (Some "User") 0 1))) /\
  stored 1 (snd (UserProfileView.patch sample_env sample_user
                   [("email", JStr "New@Example.com")] sample_db))
    = Some (mkUser 1 "New@Example.com" "plain$TestPass123!" (Some "Test") (Some "User")
              true false false 0 1) /\
  stored 1 (snd (UserProfileView.put sample_env sample_user
                   [("email", JStr "New@Example.com")] sample_db))
    = Some (mkUser 1 "New@Example.com" "plain$TestPass123!" (Some "Test") (Some "User")
              true false false 0 1) /\
  lower_case_emails sample_db /\
  ~ lower_case_emails (snd (UserProfileView.patch sample_env sample_user
                              [("email", JStr "New@Example.com")] sample_db)).
Proof.
  repeat split.
  - intros r [<-|[]]. reflexivity.
  - intros H. specialize (H _ (or_introl eq_refl)). discriminate H.
Qed.

(** ** Profile updates *)

Lemma stored_exists key l u :
  find (fun r => pk r =? key) l = Some u ->
  existsb (fun r => pk r =? key) l = true.
Proof.
  induction l as [|r l IH]; simpl; [discriminate|].
  destruct (pk r =? key); [reflexivity | exact IH].
Qed.

Lemma find_replace_row saved l u :
  find (fun r => pk r =? pk saved) l = Some u ->
  find (fun r => pk r =? pk saved) (replace_row saved l) = Some saved.
Proof.
  induction l as [|r l IH]; simpl; [discriminate|].
  destruct (pk r =? pk saved) eqn:E; simpl.
  - now rewrite Nat.eqb_refl.
  - rewrite E. exact IH.
Qed.

Section ProfileFacts.

Variable env : Env.
Variable user : User.

Import UserProfileSerializer.

(** [instance.save()] after the assignments: the row of [user] becomes the
    saved instance, or the table stays as it was. *)
Lemma save_update_stored (u : User) db :
  pk u = pk user ->
  stored (pk user) db = Some user ->
  match save_update u db with
  | (Returned saved, db') =>
      stored (pk user) db' = Some saved /\
      email saved = email u /\ first_name saved = first_name u /\
      last_name saved = last_name u
  | (Raised e, db') =>
      rows db' = rows db /\
      existsb (fun r => String.eqb (email r) (email u) && negb (pk r =? pk u)) (rows db)
        = true
  end.
Proof.
  intros Hpk Hs. unfold save_update. run_store.
  destruct (existsb _ (rows db)); [split; reflexivity|].
  unfold stored in *. simpl. rewrite Hpk.
  rewrite (stored_exists _ _ _ Hs). repeat split.
  match goal with |- find _ (replace_row ?s _) = _ =>
    apply (find_replace_row s (rows db) user) end.
  simpl. exact Hs.
Qed.

Lemma validate_email_well_behaved_profile value :
  read_only (validate_email (Some user) value) /\
  validating (validate_email (Some user) value).
Proof.
  unfold validate_email. split.
  - apply read_only_bind; [auto with store|]. intros []; unfold invalid; auto with store.
  - apply validating_bind; [auto with store|]. intros []; auto with store.
Qed.

Lemma fields_well_behaved_profile : Forall well_behaved (fields (Some user)).
Proof.
  unfold fields.
  repeat apply Forall_cons; try apply Forall_nil; unfold well_behaved; simpl; trivial.
  apply validate_email_well_behaved_profile.
Qed.

Lemma validate_read_only_profile attrs : read_only (validate attrs).
Proof. apply read_only_ret. Qed.

(** The outcome of the three writable fields, each run on its own, and how
    the loop of [to_internal_value] puts them together. *)
Lemma fields_outcome_profile partial data db :
  exists o1 o2 o3,
    fst (run_field env (email_field (Some user)) partial data db) = Returned o1 /\
    fst (run_field env first_name_field partial data db) = Returned o2 /\
    fst (run_field env last_name_field partial data db) = Returned o3 /\
    fst (to_internal_value env (fields (Some user)) partial data db) =
      Returned (file_outcome "email" o1
                 (file_outcome "first_name" o2
                   (file_outcome "last_name" o3 ([], [])))).
Proof.
  pose proof fields_well_behaved_profile as H. unfold fields in *.
  pose proof (Forall_inv H) as H1. apply Forall_inv_tail in H.
  pose proof (Forall_inv H) as H2. apply Forall_inv_tail in H.
  pose proof (Forall_inv H) as H3. apply Forall_inv_tail in H.
  destruct (to_internal_value_cons env _ [] partial data db H3 H) as (o3 & r3 & E3 & R3 & T3).
  simpl in R3. injection R3 as <-.
  destruct (to_internal_value_cons env _ _ partial data db H2 (Forall_cons _ H3 H))
    as (o2 & r2 & E2 & R2 & T2).
  rewrite T3 in R2. injection R2 as <-.
  destruct (to_internal_value_cons env _ _ partial data db H1
              (Forall_cons _ H2 (Forall_cons _ H3 H))) as (o1 & r1 & E1 & R1 & T1).
  rewrite T2 in R1. injection R1 as <-.
  exists o1, o2, o3. repeat split; assumption.
Qed.

(** The handler, from the answer of [is_valid]: the errors with 400, or
    [update] on the validated data; [is_valid] leaves the table as it
    was. *)
Lemma update_with_cases partial data db :
  exists db1,
    same_table db db1 /\
    ((exists errors,
         fst (is_valid env (Some user) partial data db) = Returned (inl errors) /\
         UserProfileView.update_with env partial user data db
           = (Returned (mkResponse HTTP_400_BAD_REQUEST (B_errors errors)), db1))
     \/ (exists attrs,
         fst (is_valid env (Some user) partial data db) = Returned (inr attrs) /\
         UserProfileView.update_with env partial user data db
           = bind (update user attrs)
               (fun saved =>
                  ret (mkResponse HTTP_200_OK (B_profile (to_representation saved))))
               db1)).
Proof.
  destruct (fields_outcome_profile partial data db) as (o1 & o2 & o3 & _ & _ & _ & T).
  match type of T with _ = Returned ?x => destruct x as [errors attrs] end.
  pose proof (is_valid_outcome env (fields (Some user)) partial validate
                fields_well_behaved_profile validate_read_only_profile data db _ _ T) as Hi.
  pose proof (is_valid_read_only env (fields (Some user)) partial validate
                fields_well_behaved_profile validate_read_only_profile data db) as [Hs _].
  unfold UserProfileView.update_with. unfold is_valid in *.
  destruct (serializer_is_valid env (fields (Some user)) partial validate data db)
    as [o db1] eqn:E; simpl in Hi, Hs. exists db1. split; [exact Hs|].
  destruct errors as [|e errors]; simpl in Hi; subst o;
    rewrite (bind_returned _ _ _ _ _ E).
  - right. exists attrs. split; reflexivity.
  - left. exists (e :: errors). split; reflexivity.
Qed.

(** A field that the request does not carry is skipped by a partial
    update, without a query. *)
Lemma absent_field_skipped (f : Field) data db :
  lookup (field_name f) data = None ->
  run_field env f true data db = (Returned SkipField, db).
Proof.
  intros H. unfold run_field, run_validation. rewrite H. run_store.
  destruct (validate_method f); reflexivity.
Qed.

Lemma no_conflict (l : list User) e key :
  (forall r, In r l -> email r = e -> pk r = key) ->
  existsb (fun r => String.eqb (email r) e && negb (pk r =? key)) l = false.
Proof.
  induction l as [|r l IH]; simpl; intros H; [reflexivity|].
  rewrite IH by (intros r' Hr'; apply H; now right).
  destruct (String.eqb_spec (email r) e) as [He|]; [|reflexivity].
  rewrite (H r (or_introl eq_refl) He), Nat.eqb_refl. reflexivity.
Qed.

(** A partial update that carries neither [email] nor [last_name]:
    [is_valid] is decided by the [first_name] field alone. *)
Lemma first_name_only_is_valid data db :
  lookup "email" data = None ->
  lookup "last_name" data = None ->
  exists o,
    fst (run_field env first_name_field true data db) = Returned o /\
    fst (is_valid env (Some user) true data db) =
      match o with
      | SkipField => Returned (inr [])
      | Validated v => Returned (inr [("first_name", v)])
      | Invalid detail => Returned (inl [("first_name", detail)])
      end.
Proof.
  intros He Hl.
  destruct (fields_outcome_profile true data db) as (o1 & o2 & o3 & E1 & E2 & E3 & T).
  rewrite (absent_field_skipped (email_field (Some user)) data db He) in E1.
  rewrite (absent_field_skipped last_name_field data db Hl) in E3.
  simpl in E1, E3. injection E1 as <-. injection E3 as <-.
  exists o2. split; [exact E2|].
  unfold is_valid.
  destruct o2; simpl in T;
    rewrite (is_valid_outcome env (fields (Some user)) true validate
               fields_well_behaved_profile validate_read_only_profile data db _ _ T);
    reflexivity.
Qed.

Lemma truthy_false s : PyStr.truthy s = false -> s = EmptyString.
Proof. destruct s; [reflexivity | discriminate]. Qed.

(** A name of at most 30 characters after trimming, without null
    characters, passes as its trimmed form. *)
Lemma short_name_outcome (f : Field) partial data db name :
  f = first_name_field \/ f = last_name_field ->
  lookup (field_name f) data = Some (JStr name) ->
  String.length (PyStr.strip name) <= 30 ->
  has_null_char (PyStr.strip name) = false ->
  fst (run_field env f partial data db) = Returned (Validated (Some (PyStr.strip name))).
Proof.
  intros Hf Hl Hlen Hn.
  assert (Hlt : (30 <? String.length (PyStr.strip name)) = false)
    by (apply Nat.ltb_ge; lia).
  destruct Hf as [-> | ->]; unfold run_field, run_validation; simpl in *; rewrite Hl;
    destruct (PyStr.truthy (PyStr.strip name)) eqn:Ht; run_store;
    try (rewrite (truthy_false _ Ht); reflexivity);
    rewrite Hlt, Hn; reflexivity.
Qed.

(** The [email] field on the caller's own, unchanged address: neither the
    [UniqueValidator] nor [validate_email] finds another row, so the field
    passes or fails with messages other than the duplicate one. *)
Lemma own_email_outcome partial data db :
  (forall r, In r (rows db) -> email r = email user -> pk r = pk user) ->
  PyStr.strip (email user) = email user ->
  lookup "email" data = Some (JStr (email user)) ->
  exists o,
    fst (run_field env (email_field (Some user)) partial data db) = Returned o /\
    ((o = Validated (Some (email user)) /\
      (PyStr.truthy (email user) = true ->
       String.length (email user) <= 254 /\ has_null_char (email user) = false /\
       email_ok env (email user) = true))
     \/ (exists msgs, o = Invalid (DList msgs) /\ ~ In MSG_UNIQUE msgs /\
         (PyStr.truthy (email user) = true ->
          String.length (email user) <= 254 ->
          has_null_char (email user) = false ->
          email_ok env (email user) = false))).
Proof.
  intros Hu Hs Hl. pose proof (no_conflict _ _ _ Hu) as Hn.
  unfold run_field, run_validation; simpl. rewrite Hl, Hs.
  destruct (PyStr.truthy (email user)); run_store.
  2:{ eexists. split; [reflexivity|]. right. eexists. split; [reflexivity|].
      split; [|discriminate]. simpl. intros [H|[]]. discriminate H. }
  unfold filter_email_exclude_exists. run_store. rewrite Hn. simpl.
  destruct (254 <? String.length (email user)) eqn:Hlen,
           (has_null_char (email user)) eqn:Hnull,
           (email_ok env (email user)) eqn:Hok; simpl;
    try (eexists; split; [reflexivity|]; right; eexists; split; [reflexivity|];
         split;
         [ simpl; intuition discriminate
         | intros _ Hle Hnc;
           first [discriminate | reflexivity | apply Nat.ltb_lt in Hlen; lia] ]).
  unfold validate_email, filter_email_exclude_exists. run_store. rewrite Hn. simpl.
  eexists. split; [reflexivity|]. left. split; [reflexivity|].
  intros _. apply Nat.ltb_ge in Hlen. auto.
Qed.

(** [update] on validated data that bind [email] to the caller's own
    address, at most: the instance that is saved has the caller's key and
    address. *)
Lemma update_keeps_email o2 o3 :
  (forall d, o2 <> Invalid d) -> (forall d, o3 <> Invalid d) ->
  exists u,
    update user
      (snd (file_outcome "email" (Validated (Some (email user)))
              (file_outcome "first_name" o2
                 (file_outcome "last_name" o3 ([], [])))))
      = save_update u /\
    pk u = pk user /\ email u = email user.
Proof.
  intros N2 N3.
  destruct o2 as [|v2|d2]; [| |now elim (N2 d2)];
    (destruct o3 as [|v3|d3]; [| |now elim (N3 d3)]);
    eexists; (split; [reflexivity|]); split; reflexivity.
Qed.

End ProfileFacts.

(** C9: a partial update that carries neither [email] nor [last_name]
    leaves both as they were in the stored record of the caller, whether the
    update is accepted or refused; and when it carries a first name of at
    most 30 characters it is accepted (200) and stores that name,
    trimmed. *)
Theorem C9_patch_first_name_frame :
  forall env user data db,
    stored (pk user) db = Some user ->
    lookup "email" data = None ->
    lookup "last_name" data = None ->
    (exists u',
        stored (pk user) (snd (UserProfileView.patch env user data db)) = Some u' /\
        email u' = email user /\ last_name u' = last_name user) /\
    (forall name,
        lookup "first_name" data = Some (JStr name) ->
        String.length (PyStr.strip name) <= 30 ->
        has_null_char (PyStr.strip name) = false ->
        (forall r, In r (rows db) -> email r = email user -> pk r = pk user) ->
        exists u',
          fst (UserProfileView.patch env user data db)
            = Returned (mkResponse HTTP_200_OK (B_profile (to_representation u'))) /\
          stored (pk user) (snd (UserProfileView.patch env user data db)) = Some u' /\
          first_name u' = Some (PyStr.strip name) /\
          email u' = email user /\ last_name u' = last_name user).
Proof.
  intros env user data db Hst He Hl.
  destruct (first_name_only_is_valid env user data db He Hl) as (o & Ho & Hv).
  destruct (update_with_cases env user true data db)
    as (db1 & (Hr & _) & [(errors & Hi & Hu)|(attrs & Hi & Hu)]).
  - (* refused *)
    split.
    + exists user. unfold UserProfileView.patch. rewrite Hu. simpl.
      unfold stored in *. rewrite <- Hr. auto.
    + intros name Hn Hlen Hnull _.
      rewrite (short_name_outcome env UserProfileSerializer.first_name_field true data db name
                 (or_introl eq_refl) Hn Hlen Hnull) in Ho.
      injection Ho as <-. rewrite Hv in Hi. discriminate.
  - (* accepted: [attrs] is empty or binds [first_name] *)
    assert (Hst1 : stored (pk user) db1 = Some user)
      by (unfold stored in *; now rewrite <- Hr).
    assert (Ha : exists u, UserProfileSerializer.update user attrs = save_update u /\
                           pk u = pk user /\ email u = email user /\
                           last_name u = last_name user /\
                           (forall v, o = Validated v -> first_name u = v)).
    { rewrite Hv in Hi. destruct o as [|v|d]; try discriminate; injection Hi as <-.
      - exists user. repeat split. intros v [=].
      - eexists. split; [reflexivity|]. simpl. repeat split. now intros v' [= <-]. }
    destruct Ha as (u & Hup & Hpk & Hem & Hln & Hfn).
    pose proof (save_update_stored user u db1 Hpk Hst1) as Hsave.
    unfold UserProfileView.patch. rewrite Hu, Hup. unfold bind.
    destruct (save_update u db1) as [[saved|ex] db2].
    + destruct Hsave as (Hs2 & Hes & Hfs & Hls). split.
      * exists saved. simpl. repeat split; congruence.
      * intros name Hn Hlen Hnull _.
        rewrite (short_name_outcome env UserProfileSerializer.first_name_field true data db name
                   (or_introl eq_refl) Hn Hlen Hnull) in Ho.
        injection Ho as <-. exists saved. simpl.
        repeat split; try congruence. rewrite Hfs. now apply Hfn.
    + destruct Hsave as (Hr2 & Hex). split.
      * exists user. simpl. unfold stored in *. now rewrite Hr2.
      * intros name _ _ _ Huniq. exfalso.
        rewrite no_conflict in Hex; [discriminate|].
        intros r Hin Her. rewrite Hpk. apply Huniq; [now rewrite Hr | congruence].
Qed.

Lemma C9_witness :
  stored (pk sample_user) sample_db = Some sample_user /\
  lookup "email" [("first_name", JStr "PartialUpdate")] = None /\
  lookup "last_name" [("first_name", JStr "PartialUpdate")] = None /\
  exists u',
    fst (UserProfileView.patch sample_env sample_user
           [("first_name", JStr "PartialUpdate")] sample_db)
      = Returned (mkResponse HTTP_200_OK (B_profile (to_representation u'))) /\
    stored (pk sample_user)
      (snd (UserProfileView.patch sample_env sample_user
              [("first_name", JStr "PartialUpdate")] sample_db)) = Some u' /\
    first_name u' = Some (PyStr.strip "PartialUpdate") /\
    email u' = email sample_user /\ last_name u' = last_name sample_user.
Proof.
  split; [reflexivity|]. split; [reflexivity|]. split; [reflexivity|].
  apply (proj2 (C9_patch_first_name_frame sample_env sample_user
                  [("first_name", JStr "PartialUpdate")] sample_db
                  eq_refl eq_refl eq_refl) "PartialUpdate").
  - reflexivity.
  - vm_compute. lia.
  - reflexivity.
  - intros r [<-|[]] _. reflexivity.
Defined.

(** A profile update that carries the caller's own address, on a table
    where no other row holds that address: it is answered, never with the
    duplicate error, and it is accepted when the address and the names pass
    their other checks. *)
Lemma own_email_update :
  forall env user partial data db,
    stored (pk user) db = Some user ->
    (forall r, In r (rows db) -> email r = email user -> pk r = pk user) ->
    PyStr.strip (email user) = email user ->
    lookup "email" data = Some (JStr (email user)) ->
    exists resp,
      fst (UserProfileView.update_with env partial user data db) = Returned resp /\
      (forall errors msgs,
          body resp = B_errors errors ->
          lookup "email" errors = Some (DList msgs) ->
          ~ In MSG_UNIQUE msgs) /\
      (PyStr.truthy (email user) = true ->
       String.length (email user) <= 254 ->
       has_null_char (email user) = false ->
       email_ok env (email user) = true ->
       (forall d, fst (run_field env UserProfileSerializer.first_name_field partial data db)
                  <> Returned (Invalid d)) ->
       (forall d, fst (run_field env UserProfileSerializer.last_name_field partial data db)
                  <> Returned (Invalid d)) ->
       exists u',
         resp = mkResponse HTTP_200_OK (B_profile (to_representation u')) /\
         stored (pk user) (snd (UserProfileView.update_with env partial user data db))
           = Some u' /\
         email u' = email user).
Proof.
  intros env user partial data db Hst Hu Hs Hl.
  destruct (own_email_outcome env user partial data db Hu Hs Hl) as (o & Ho & Hcase).
  destruct (fields_outcome_profile env user partial data db)
    as (o1 & o2 & o3 & E1 & E2 & E3 & T).
  rewrite Ho in E1. injection E1 as <-.
  destruct (update_with_cases env user partial data db)
    as (db1 & (Hr & _) & Hcases).
  assert (Hst1 : stored (pk user) db1 = Some user)
    by (unfold stored in *; now rewrite <- Hr).
  match type of T with _ = Returned ?x => destruct x as [errors attrs] eqn:Er end.
  pose proof (is_valid_outcome env (UserProfileSerializer.fields (Some user)) partial
                UserProfileSerializer.validate
                (fields_well_behaved_profile user)
                validate_read_only_profile data db _ _ T) as Hi.
  fold (UserProfileSerializer.is_valid env (Some user) partial data) in Hi.
  destruct Hcase as [(-> & Hgood)|(msgs & -> & Hnot & Hbad)].
  - (* the address passes *)
    destruct errors as [|e errors]; simpl in Hi.
    + (* no field error: the update is saved *)
      destruct Hcases as [(errs & Hi' & _)|(attrs' & Hi' & Hup)];
        rewrite Hi in Hi'; [discriminate|]. injection Hi' as <-.
      assert (Hf : fst (file_outcome "email" (Validated (Some (email user)))
                          (file_outcome "first_name" o2
                             (file_outcome "last_name" o3 ([], [])))) = [])
        by now rewrite Er.
      apply file_outcome_no_error in Hf as [_ Hf].
      apply file_outcome_no_error in Hf as [N2 Hf].
      apply file_outcome_no_error in Hf as [N3 _].
      destruct (update_keeps_email user o2 o3 N2 N3) as (u & Hupd & Hpk & Hem).
      rewrite Er in Hupd. simpl in Hupd.
      pose proof (save_update_stored user u db1 Hpk Hst1) as Hsave.
      rewrite Hup, Hupd. unfold bind.
      destruct (save_update u db1) as [[saved|ex] db2].
      * destruct Hsave as (Hs2 & Hes & _).
        eexists. split; [reflexivity|]. split; [intros errs ms [=]|].
        intros _ _ _ _ _ _. exists saved. simpl. repeat split; congruence.
      * exfalso. destruct Hsave as (_ & Hex).
        rewrite no_conflict in Hex; [discriminate|].
        intros r Hin Her. rewrite Hpk. apply Hu; [now rewrite Hr | congruence].
    + (* a name is refused: the errors do not mention the address *)
      destruct Hcases as [(errs & Hi' & Hup)|(attrs' & Hi' & _)];
        rewrite Hi in Hi'; [|discriminate]. injection Hi' as <-.
      rewrite Hup. eexists. split; [reflexivity|]. split.
      * intros errs ms [= <-] Hlk. exfalso.
        assert (Hf : fst (file_outcome "email" (Validated (Some (email user)))
                            (file_outcome "first_name" o2
                               (file_outcome "last_name" o3 ([], [])))) = e :: errors)
          by now rewrite Er.
        rewrite <- Hf in Hlk. revert Hlk.
        repeat (rewrite file_outcome_lookup_error; simpl).
        destruct o2, o3; discriminate.
      * intros _ _ _ _ N2 N3. exfalso.
        rewrite E2 in N2. rewrite E3 in N3.
        destruct o2 as [|v2|d2]; [| |now elim (N2 d2)];
          (destruct o3 as [|v3|d3]; [| |now elim (N3 d3)]); discriminate Er.
  - (* the address is refused, for another reason than a duplicate *)
    assert (He : exists rest, errors = ("email", DList msgs) :: rest)
      by (simpl in Er; injection Er as <- _; eauto).
    destruct He as (rest & ->). simpl in Hi.
    destruct Hcases as [(errs & Hi' & Hup)|(attrs' & Hi' & _)];
      rewrite Hi in Hi'; [|discriminate]. injection Hi' as <-.
    rewrite Hup. eexists. split; [reflexivity|]. split.
    + intros errs ms [= <-]. simpl. now intros [= <-].
    + intros Ht Hlen Hnull Hok. rewrite (Hbad Ht Hlen Hnull) in Hok. discriminate.
Qed.

(** ** Invariants of the table *)

Lemma unique_emails_same_table a b : rows a = rows b -> unique_emails a -> unique_emails b.
Proof. unfold unique_emails. intros <-. trivial. Qed.

Lemma existsb_email_false (l : list User) e r :
  existsb (fun r => String.eqb (email r) e) l = false -> In r l -> email r <> e.
Proof.
  intros H Hin He. apply Bool.not_true_iff_false in H. apply H.
  apply existsb_exists. exists r. split; [exact Hin | now apply String.eqb_eq].
Qed.

Lemma existsb_conflict_false (l : list User) e key r :
  existsb (fun r => String.eqb (email r) e && negb (pk r =? key)) l = false ->
  In r l -> email r = e -> pk r = key.
Proof.
  intros H Hin He. apply Bool.not_true_iff_false in H.
  destruct (Nat.eq_dec (pk r) key) as [|Hne]; [assumption|]. exfalso. apply H.
  apply existsb_exists. exists r. split; [exact Hin|].
  apply andb_true_iff. split; [now apply String.eqb_eq|].
  apply negb_true_iff. now apply Nat.eqb_neq.
Qed.

(** [save] keeps the addresses unique: the INSERT and the UPDATE are
    refused when another row holds the address. *)
Lemma save_insert_unique u db : unique_emails db -> unique_emails (snd (save_insert u db)).
Proof.
  intros Hu. pose proof (save_insert_effect u db) as H.
  destruct (save_insert u db) as [[saved|e] db']; simpl.
  - destruct H as (Hr & He & _ & _ & Hfree). unfold unique_emails. rewrite Hr.
    intros r1 r2 H1 H2 Heq. apply in_app_or in H1, H2.
    destruct H1 as [H1|[<-|[]]], H2 as [H2|[<-|[]]]; trivial.
    + now apply Hu.
    + exfalso. apply (existsb_email_false _ _ _ Hfree H1). congruence.
    + exfalso. apply (existsb_email_false _ _ _ Hfree H2). congruence.
  - destruct H as ((Hr & _) & _). now apply (unique_emails_same_table db).
Qed.

Lemma in_replace_row saved l r :
  In r (replace_row saved l) ->
  (r = saved) \/ (In r l /\ pk r <> pk saved).
Proof.
  unfold replace_row. intros H. apply in_map_iff in H as (r0 & Hr & Hin).
  destruct (Nat.eqb_spec (pk r0) (pk saved)); subst; auto.
Qed.

Lemma save_update_unique u db : unique_emails db -> unique_emails (snd (save_update u db)).
Proof.
  intros Hu. unfold save_update. run_store.
  destruct (existsb _ (rows db)) eqn:Hc; simpl; [exact Hu|].
  set (saved := mkUser (pk u) (email u) (password u) (first_name u) (last_name u)
                  (is_active u) (is_staff u) (is_superuser u) (created_at u) (clock db)).
  assert (Hold : forall r, In r (rows db) -> email r = email saved -> pk r = pk saved)
    by (intros r Hin He; exact (existsb_conflict_false _ _ _ _ Hc Hin He)).
  unfold unique_emails. simpl.
  destruct (existsb (fun r => pk r =? pk u) (rows db)).
  - intros r1 r2 H1 H2 Heq.
    apply in_replace_row in H1 as [->|[H1 _]], H2 as [->|[H2 _]]; trivial.
    + symmetry. apply Hold; [exact H2 | now symmetry].
    + now apply Hold.
    + now apply Hu.
  - intros r1 r2 H1 H2 Heq. apply in_app_or in H1, H2.
    destruct H1 as [H1|[<-|[]]], H2 as [H2|[<-|[]]]; trivial.
    + now apply Hu.
    + now apply Hold.
    + symmetry. apply Hold; [exact H2 | now symmetry].
Qed.

(** [save] of an instance with a trimmed address keeps the addresses
    trimmed. *)
Lemma save_update_trimmed u db :
  PyStr.strip (email u) = email u ->
  trimmed_emails db -> trimmed_emails (snd (save_update u db)).
Proof.
  intros He Ht. unfold save_update. run_store.
  destruct (existsb _ (rows db)); simpl; [exact Ht|].
  unfold trimmed_emails. simpl.
  destruct (existsb (fun r => pk r =? pk u) (rows db)); intros r Hin.
  - apply in_replace_row in Hin as [->|[Hin _]]; [exact He | now apply Ht].
  - apply in_app_or in Hin as [Hin|[<-|[]]]; [now apply Ht | exact He].
Qed.

(** [create_user] keeps the addresses unique, trimmed and lower-case. *)
Lemma create_user_invariants env e p extra db :
  (unique_emails db -> unique_emails (snd (create_user env e p extra db))) /\
  (trimmed_emails db -> trimmed_emails (snd (create_user env e p extra db))) /\
  (lower_case_emails db -> lower_case_emails (snd (create_user env e p extra db))).
Proof.
  pose proof (create_user_effect env e p extra db) as Heff.
  pose proof (create_user_stores_normal_email env e p extra db) as Hnorm.
  assert (Hu : unique_emails db -> unique_emails (snd (create_user env e p extra db))).
  { unfold create_user, _create_user.
    destruct (negb (truthy_opt e)); [trivial|].
    destruct (negb (truthy_opt p)); [trivial|]. apply save_insert_unique. }
  split; [exact Hu|].
  destruct (create_user env e p extra db) as [[u|ex] db']; simpl in *.
  - destruct (Hnorm u db' eq_refl) as [Hs Hl].
    split; intros H r Hin; rewrite Heff in Hin;
      apply in_app_or in Hin as [Hin|[<-|[]]]; auto.
  - destruct Heff as (Hr & _). unfold trimmed_emails, lower_case_emails.
    rewrite <- Hr. auto.
Qed.

(** The registration handler keeps the addresses unique, trimmed and
    lower-case. *)
Lemma registration_invariants env data db :
  (unique_emails db -> unique_emails (snd (UserRegistrationView.post env data db))) /\
  (trimmed_emails db -> trimmed_emails (snd (UserRegistrationView.post env data db))) /\
  (lower_case_emails db ->
   lower_case_emails (snd (UserRegistrationView.post env data db))).
Proof.
  destruct (is_valid_read_only_registration env data db) as [(Hr & _) _].
  unfold UserRegistrationView.post.
  destruct (UserRegistrationSerializer.is_valid env data db) as [[[errors|v]|ex] db1] eqn:E;
    simpl in Hr;
    [ rewrite (bind_returned _ _ _ _ _ E) | rewrite (bind_returned _ _ _ _ _ E)
    | rewrite (bind_raised _ _ _ _ _ E) ];
    unfold unique_emails, trimmed_emails, lower_case_emails;
    try (simpl; rewrite <- Hr; tauto).
  unfold bind, UserRegistrationSerializer.create.
  destruct (lookup "password_confirm" v); [|simpl; rewrite <- Hr; tauto].
  destruct (lookup "email" _); [|simpl; rewrite <- Hr; tauto].
  match goal with |- context [create_user env ?e ?p ?x db1] =>
    pose proof (create_user_invariants env e p x db1) as (Hu & Ht & Hl);
    destruct (create_user env e p x db1) as [[u|ex] db2]
  end; simpl in *;
    unfold unique_emails, trimmed_emails, lower_case_emails in *;
    rewrite Hr; auto.
Qed.

(** A value that passes field validation is trimmed. *)
Lemma run_validation_trimmed env f partial data db v :
  fst (run_validation env f partial data db) = Returned (Validated v) ->
  v = None \/ exists e, v = Some e /\ PyStr.strip e = e.
Proof.
  unfold run_validation. destruct data as [[|s]|].
  - destruct (allow_null f); simpl; intros [= <-]; auto.
  - destruct (negb _).
    + destruct (allow_blank f); simpl; intros [= <-]. right. eauto.
    + unfold bind.
      destruct (run_validators env (validators f) (PyStr.strip s) db) as [[[|m ms]|ex] db1];
        simpl; intros [= <-].
      right. eexists. split; [reflexivity | apply strip_idem].
  - destruct partial; [discriminate|]. destruct (required f); discriminate.
Qed.

(** A field that does not allow nulls never passes with a null. *)
Lemma run_validation_not_null env f partial data db :
  allow_null f = false ->
  fst (run_validation env f partial data db) <> Returned (Validated None).
Proof.
  intros Hn. unfold run_validation. destruct data as [[|s]|].
  - rewrite Hn. discriminate.
  - destruct (negb _).
    + destruct (allow_blank f); discriminate.
    + unfold bind.
      destruct (run_validators env (validators f) (PyStr.strip s) db)
        as [[[|m ms]|ex] db1]; discriminate.
  - destruct partial; [discriminate|]. destruct (required f); discriminate.
Qed.

(** The [email] field of a profile update passes with a trimmed string
    only. *)
Lemma profile_email_trimmed env user partial data db v :
  fst (run_field env (UserProfileSerializer.email_field (Some user)) partial data db)
    = Returned (Validated v) ->
  exists e, v = Some e /\ PyStr.strip e = e.
Proof.
  unfold run_field, bind at 1.
  pose proof (run_validation_trimmed env
                (field (UserProfileSerializer.email_field (Some user))) partial
                (lookup (field_name (UserProfileSerializer.email_field (Some user))) data)
                db) as Ht.
  pose proof (run_validation_not_null env
                (field (UserProfileSerializer.email_field (Some user))) partial
                (lookup (field_name (UserProfileSerializer.email_field (Some user))) data)
                db eq_refl) as Hn.
  destruct (run_validation env (field (UserProfileSerializer.email_field (Some user)))
              partial
              (lookup (field_name (UserProfileSerializer.email_field (Some user))) data)
              db)
    as [[[|[value|]|detail]|ex] db1]; simpl in *; try discriminate.
  - unfold UserProfileSerializer.validate_email, filter_email_exclude_exists.
    run_store.
    destruct (existsb _ (rows db1)); simpl; intros [= <-].
    destruct (Ht _ eq_refl) as [[=]|(e & [= <-] & He)]. eauto.
  - now elim Hn.
Qed.

(** The instance that [update] saves has the caller's key, and a trimmed
    address if the caller's was. *)
Lemma update_instance env user partial data db attrs :
  fst (UserProfileSerializer.is_valid env (Some user) partial data db)
    = Returned (inr attrs) ->
  exists u,
    UserProfileSerializer.update user attrs = save_update u /\
    pk u = pk user /\
    (PyStr.strip (email user) = email user -> PyStr.strip (email u) = email u).
Proof.
  intros Hi.
  destruct (fields_outcome_profile env user partial data db)
    as (o1 & o2 & o3 & E1 & E2 & E3 & T).
  unfold UserProfileSerializer.is_valid in Hi.
  destruct o1 as [|v1|d1], o2 as [|v2|d2], o3 as [|v3|d3]; simpl in T;
    rewrite (is_valid_outcome env (UserProfileSerializer.fields (Some user)) partial
               UserProfileSerializer.validate (fields_well_behaved_profile user)
               validate_read_only_profile data db _ _ T) in Hi;
    simpl in Hi; try discriminate; injection Hi as <-;
    try (destruct (profile_email_trimmed env user partial data db _ E1)
           as (e & -> & He));
    eexists; (split; [reflexivity|]); split; try reflexivity; simpl; auto.
Qed.

(** A profile update keeps the addresses unique and trimmed. *)
Lemma profile_update_invariants env user partial data db :
  (unique_emails db ->
   unique_emails (snd (UserProfileView.update_with env partial user data db))) /\
  (trimmed_emails db -> In user (rows db) ->
   trimmed_emails (snd (UserProfileView.update_with env partial user data db))).
Proof.
  destruct (update_with_cases env user partial data db)
    as (db1 & (Hr & _) & [(errors & _ & ->)|(attrs & Hi & ->)]); simpl.
  - unfold unique_emails, trimmed_emails. rewrite <- Hr. tauto.
  - destruct (update_instance env user partial data db attrs Hi) as (u & -> & _ & He).
    unfold bind.
    pose proof (save_update_unique u db1) as Hu.
    pose proof (save_update_trimmed u db1) as Ht.
    destruct (save_update u db1) as [[saved|ex] db2]; simpl in *;
      (split;
       [ intros H; apply Hu; unfold unique_emails in *; now rewrite <- Hr
       | intros H Hin; apply Ht;
         [ apply He, H, Hin | unfold trimmed_emails in *; now rewrite <- Hr ] ]).
Qed.

(** C8: on a table that satisfies the unique constraint and holds trimmed
    addresses (the application keeps both, see [registration_invariants] and
    [profile_update_invariants]), a full or partial profile update by the
    caller that carries the caller's own current address is never refused
    with the duplicate error, since both uniqueness checks leave the
    caller's row out; it is answered, and when the address and the names
    pass their other checks it is accepted (200) and the address stays as it
    was.  [put] is [update_with] on a non-partial serializer, [patch] on a
    partial one. *)
Theorem C8_own_email_is_not_duplicate :
  forall env user partial data db,
    unique_emails db ->
    trimmed_emails db ->
    stored (pk user) db = Some user ->
    lookup "email" data = Some (JStr (email user)) ->
    exists resp,
      fst (UserProfileView.update_with env partial user data db) = Returned resp /\
      (forall errors msgs,
          body resp = B_errors errors ->
          lookup "email" errors = Some (DList msgs) ->
          ~ In MSG_UNIQUE msgs) /\
      (PyStr.truthy (email user) = true ->
       String.length (email user) <= 254 ->
       has_null_char (email user) = false ->
       email_ok env (email user) = true ->
       (forall d, fst (run_field env UserProfileSerializer.first_name_field partial data db)
                  <> Returned (Invalid d)) ->
       (forall d, fst (run_field env UserProfileSerializer.last_name_field partial data db)
                  <> Returned (Invalid d)) ->
       exists u',
         resp = mkResponse HTTP_200_OK (B_profile (to_representation u')) /\
         stored (pk user) (snd (UserProfileView.update_with env partial user data db))
           = Some u' /\
         email u' = email user).
Proof.
  intros env user partial data db Hu Ht Hst Hl.
  assert (Hin : In user (rows db)) by (unfold stored in Hst; now apply find_some in Hst).
  apply own_email_update; trivial.
  - intros r Hr He. now apply Hu.
  - now apply Ht.
Qed.

Lemma C8_witness :
  unique_emails sample_db /\
  trimmed_emails sample_db /\
  stored (pk sample_user) sample_db = Some sample_user /\
  exists u',
    fst (UserProfileView.put sample_env sample_user
           [("email", JStr (email sample_user)); ("first_name", JStr "X")] sample_db)
      = Returned (mkResponse HTTP_200_OK (B_profile (to_representation u'))) /\
    stored (pk sample_user)
      (snd (UserProfileView.put sample_env sample_user
              [("email", JStr (email sample_user)); ("first_name", JStr "X")] sample_db))
      = Some u' /\
    email u' = email sample_user.
Proof.
  assert (Hu : unique_emails sample_db)
    by (intros r1 r2 [<-|[]] [<-|[]] _; reflexivity).
  assert (Ht : trimmed_emails sample_db) by (intros r [<-|[]]; reflexivity).
  split; [exact Hu|]. split; [exact Ht|]. split; [reflexivity|].
  destruct (C8_own_email_is_not_duplicate sample_env sample_user false
              [("email", JStr (email sample_user)); ("first_name", JStr "X")] sample_db
              Hu Ht eq_refl eq_refl)
    as (resp & Hr & _ & Hok).
  destruct Hok as (u' & -> & Hs & He).
  - reflexivity.
  - vm_compute. lia.
  - reflexivity.
  - reflexivity.
  - intros d. vm_compute. discriminate.
  - intros d. vm_compute. discriminate.
  - exists u'. split; [exact Hr|]. split; [exact Hs | exact He].
Defined.

(** ** The manager: what is stored *)

Lemma rsplit1_append sep s a b :
  PyStr.rsplit1 sep s = Some (a, b) -> s = (a ++ String sep b)%string.
Proof.
  revert a b. induction s as [|c r IH]; simpl; intros a b; [discriminate|].
  destruct (PyStr.rsplit1 sep r) as [[a' b']|].
  - intros [= <- <-]. simpl. now rewrite (IH a' b' eq_refl).
  - destruct (Ascii.eqb_spec c sep) as [->|]; [|discriminate].
    now intros [= <- <-].
Qed.

Lemma lower_append a b :
  PyStr.lower (a ++ b) = (PyStr.lower a ++ PyStr.lower b)%string.
Proof. induction a as [|c a IH]; simpl; [reflexivity | now rewrite IH]. Qed.

(** [normalize_email(email).lower().strip()] is the trimmed address in lower
    case: the call of [normalize_email] changes nothing in the result. *)
Lemma normalized_email e :
  PyStr.strip (PyStr.lower (normalize_email (Some e))) = PyStr.lower (PyStr.strip e).
Proof.
  unfold normalize_email.
  destruct (PyStr.rsplit1 "@" (PyStr.strip e)) as [[name dom]|] eqn:E.
  - apply rsplit1_append in E.
    assert (H : PyStr.lower (name ++ "@" ++ PyStr.lower dom)
                = PyStr.lower (PyStr.strip e)).
    { rewrite E, !lower_append. simpl. now rewrite lower_idem. }
    rewrite H, <- lower_strip, strip_idem. reflexivity.
  - symmetry. apply lower_strip.
Qed.

(** What [create_user] does with a non-empty address and password. *)
Lemma create_user_decided env e p extra db :
  PyStr.truthy e = true -> PyStr.truthy p = true ->
  if existsb (fun r => String.eqb (email r) (PyStr.lower (PyStr.strip e))) (rows db)
  then
    fst (create_user env (Some e) (Some p) extra db) = Raised (IntegrityError UNIQUE_FAILED) /\
    same_table db (snd (create_user env (Some e) (Some p) extra db))
  else
    exists u,
      fst (create_user env (Some e) (Some p) extra db) = Returned u /\
      rows (snd (create_user env (Some e) (Some p) extra db)) = rows db ++ [u] /\
      u = mkUser (next_pk db) (PyStr.lower (PyStr.strip e)) (make_password env p)
            (match truncate_name (x_first_name extra) with Some v => v | None => None end)
            (match truncate_name (x_last_name extra) with Some v => v | None => None end)
            (match x_is_active extra with Some b => b | None => true end)
            (match x_is_staff extra with Some b => b | None => false end)
            (match x_is_superuser extra with Some b => b | None => false end)
            (clock db) (clock db).
Proof.
  intros He Hp. unfold create_user, _create_user. simpl. rewrite He, Hp. simpl.
  rewrite normalized_email. unfold save_insert, bind, log. simpl.
  destruct (existsb _ (rows db)); simpl.
  - split; [reflexivity | repeat split].
  - eexists. split; [reflexivity|]. split; [reflexivity|].
    unfold setdefault. destruct (x_is_staff extra), (x_is_superuser extra); reflexivity.
Qed.

(** X1: [create_user] with a non-empty address and password stores the
    address trimmed and in lower case, under the next key, with the hashed
    password, when no row holds that trimmed lower-case address; when a row
    holds it, the call raises [IntegrityError] and the table is as before. *)
Theorem X1_create_user_stores_or_conflicts :
  forall env e p extra db,
    PyStr.truthy e = true -> PyStr.truthy p = true ->
    (existsb (fun r => String.eqb (email r) (PyStr.lower (PyStr.strip e))) (rows db) = true ->
     fst (create_user env (Some e) (Some p) extra db)
       = Raised (IntegrityError UNIQUE_FAILED) /\
     rows (snd (create_user env (Some e) (Some p) extra db)) = rows db) /\
    (existsb (fun r => String.eqb (email r) (PyStr.lower (PyStr.strip e))) (rows db) = false ->
     exists u,
       fst (create_user env (Some e) (Some p) extra db) = Returned u /\
       rows (snd (create_user env (Some e) (Some p) extra db)) = rows db ++ [u] /\
       pk u = next_pk db /\
       email u = PyStr.lower (PyStr.strip e) /\
       password u = make_password env p).
Proof.
  intros env e p extra db He Hp.
  pose proof (create_user_decided env e p extra db He Hp) as H.
  split; intros Hx; rewrite Hx in H.
  - destruct H as [Hr (Hs & _)]. split; [exact Hr | now symmetry].
  - destruct H as (u & Hr & Hs & Hu). exists u. rewrite Hu at 3 4 5.
    repeat split; assumption.
Qed.

Lemma X1_witness :
  PyStr.truthy "  Test@Example.com  " = true /\
  exists u,
    fst (create_user sample_env (Some "  Test@Example.com  ") (Some "TestPass123!")
           no_extra empty_db) = Returned u /\
    rows (snd (create_user sample_env (Some "  Test@Example.com  ") (Some "TestPass123!")
                 no_extra empty_db)) = rows empty_db ++ [u] /\
    pk u = next_pk empty_db /\
    email u = PyStr.lower (PyStr.strip "  Test@Example.com  ") /\
    password u = make_password sample_env "TestPass123!".
Proof.
  split; [reflexivity|].
  apply (proj2 (X1_create_user_stores_or_conflicts sample_env "  Test@Example.com  "
                  "TestPass123!" no_extra empty_db eq_refl eq_refl)).
  reflexivity.
Defined.

(** X2: after [create_user] has stored an address, [create_user] with any
    address that is equal to it up to letter case and surrounding white
    space raises [IntegrityError] and leaves the table as it was. *)
Theorem X2_create_user_case_variants_conflict :
  forall env e1 p1 x1 e2 p2 x2 db u db1,
    create_user env (Some e1) (Some p1) x1 db = (Returned u, db1) ->
    PyStr.truthy e2 = true -> PyStr.truthy p2 = true ->
    PyStr.lower (PyStr.strip e2) = PyStr.lower (PyStr.strip e1) ->
    fst (create_user env (Some e2) (Some p2) x2 db1) = Raised (IntegrityError UNIQUE_FAILED) /\
    rows (snd (create_user env (Some e2) (Some p2) x2 db1)) = rows db1.
Proof.
  intros env e1 p1 x1 e2 p2 x2 db u db1 Hc He2 Hp2 Heq.
  assert (He1 : PyStr.truthy e1 = true /\ PyStr.truthy p1 = true).
  { revert Hc. unfold create_user, _create_user. simpl.
    destruct (PyStr.truthy e1); [|discriminate].
    destruct (PyStr.truthy p1); [auto | discriminate]. }
  destruct He1 as [He1 Hp1].
  pose proof (create_user_decided env e1 p1 x1 db He1 Hp1) as H1.
  rewrite Hc in H1. simpl in H1.
  destruct (existsb _ (rows db)); [destruct H1 as [[=] _]|].
  destruct H1 as (u' & [= <-] & Hr & Hu).
  pose proof (create_user_decided env e2 p2 x2 db1 He2 Hp2) as H2.
  assert (Hx : existsb (fun r => String.eqb (email r) (PyStr.lower (PyStr.strip e2)))
                 (rows db1) = true).
  { apply existsb_exists. exists u. split.
    - rewrite Hr. apply in_or_app. right. now left.
    - rewrite Heq, Hu. simpl. apply String.eqb_refl. }
  rewrite Hx in H2. destruct H2 as [Hf (Hs & _)]. split; [exact Hf | now symmetry].
Qed.

Lemma X2_witness :
  PyStr.lower (PyStr.strip "test@example.com") = PyStr.lower (PyStr.strip "Test@Example.com") /\
  fst (create_user sample_env (Some "test@example.com") (Some "AnotherPass123!") no_extra
         (snd (create_user sample_env (Some "Test@Example.com") (Some "TestPass123!")
                 no_extra empty_db)))
    = Raised (IntegrityError UNIQUE_FAILED) /\
  rows (snd (create_user sample_env (Some "test@example.com") (Some "AnotherPass123!")
               no_extra
               (snd (create_user sample_env (Some "Test@Example.com") (Some "TestPass123!")
                       no_extra empty_db))))
    = rows (snd (create_user sample_env (Some "Test@Example.com") (Some "TestPass123!")
                   no_extra empty_db)).
Proof.
  split; [reflexivity|].
  apply (X2_create_user_case_variants_conflict sample_env
           "Test@Example.com" "TestPass123!" no_extra
           "test@example.com" "AnotherPass123!" no_extra empty_db
           (mkUser 1 "test@example.com" "plain$TestPass123!" None None true false false 0 0));
    reflexivity.
Defined.

(** [create_superuser] with flags that pass its two tests is [create_user]
    with the three defaults filled in. *)
Lemma create_superuser_as_create_user env e p extra db :
  x_is_staff extra <> Some false ->
  x_is_superuser extra <> Some false ->
  create_superuser env e p extra db =
  create_user env e p
    (mkExtra (x_first_name extra) (x_last_name extra)
       (setdefault (x_is_active extra) true) (Some true) (Some true)) db.
Proof.
  intros Hs Hu. unfold create_superuser, create_user. simpl.
  destruct (x_is_staff extra) as [[]|]; try (now elim Hs);
    destruct (x_is_superuser extra) as [[]|]; try (now elim Hu); reflexivity.
Qed.

(** X3: [create_superuser] tests the two privilege flags before anything
    else: with [is_staff=False], or with [is_superuser=False], it raises
    [ValueError] without touching the store, whatever the address and the
    password; otherwise, with a non-empty address and password that no row
    holds, it stores a user with [is_staff] and [is_superuser] set, active
    unless [is_active=False] was passed. *)
Theorem X3_create_superuser_flags :
  forall env e p extra db,
    (x_is_staff extra = Some false ->
     create_superuser env e p extra db
       = (Raised (ValueError "Superuser must have is_staff=True."), db)) /\
    (x_is_staff extra <> Some false -> x_is_superuser extra = Some false ->
     create_superuser env e p extra db
       = (Raised (ValueError "Superuser must have is_superuser=True."), db)) /\
    (forall address raw,
        e = Some address -> p = Some raw ->
        x_is_staff extra <> Some false -> x_is_superuser extra <> Some false ->
        PyStr.truthy address = true -> PyStr.truthy raw = true ->
        existsb (fun r => String.eqb (email r) (PyStr.lower (PyStr.strip address)))
          (rows db) = false ->
        exists u,
          fst (create_superuser env e p extra db) = Returned u /\
          rows (snd (create_superuser env e p extra db)) = rows db ++ [u] /\
          is_staff u = true /\ is_superuser u = true /\
          is_active u = match x_is_active extra with Some b => b | None => true end).
Proof.
  intros env e p extra db. split; [|split].
  - intros Hs. unfold create_superuser. simpl. now rewrite Hs.
  - intros Hs Hu. unfold create_superuser. simpl. rewrite Hu.
    destruct (x_is_staff extra) as [[]|]; try reflexivity. now elim Hs.
  - intros address raw -> -> Hs Hu Ha Hr Hfree.
    rewrite (create_superuser_as_create_user env _ _ extra db Hs Hu).
    pose proof (create_user_decided env address raw
                  (mkExtra (x_first_name extra) (x_last_name extra)
                     (setdefault (x_is_active extra) true) (Some true) (Some true))
                  db Ha Hr) as H.
    rewrite Hfree in H. destruct H as (u & Hf & Hrows & Hu').
    exists u. split; [exact Hf|]. split; [exact Hrows|].
    rewrite Hu'. simpl. repeat split. now destruct (x_is_active extra).
Qed.

Lemma X3_witness :
  create_superuser sample_env (Some "admin@example.com") (Some "AdminPass123!")
    (mkExtra None None None (Some false) None) empty_db
    = (Raised (ValueError "Superuser must have is_staff=True."), empty_db) /\
  exists u,
    fst (create_superuser sample_env (Some "admin@example.com") (Some "AdminPass123!")
           no_extra empty_db) = Returned u /\
    rows (snd (create_superuser sample_env (Some "admin@example.com")
                 (Some "AdminPass123!") no_extra empty_db)) = rows empty_db ++ [u] /\
    is_staff u = true /\ is_superuser u = true /\ is_active u = true.
Proof.
  split.
  - apply (proj1 (X3_create_superuser_flags sample_env (Some "admin@example.com")
                    (Some "AdminPass123!") (mkExtra None None None (Some false) None)
                    empty_db)).
    reflexivity.
  - apply (proj2 (proj2 (X3_create_superuser_flags sample_env (Some "admin@example.com")
                           (Some "AdminPass123!") no_extra empty_db))
             "admin@example.com" "AdminPass123!");
      try reflexivity; discriminate.
Defined.

(** ** Display names *)

(** [create_user] returns only for a non-empty address and password. *)
Lemma create_user_returned_inputs env e p extra db u db' :
  create_user env e p extra db = (Returned u, db') ->
  exists address raw,
    e = Some address /\ p = Some raw /\
    PyStr.truthy address = true /\ PyStr.truthy raw = true.
Proof.
  unfold create_user, _create_user.
  destruct e as [address|]; [|discriminate]. destruct p as [raw|]; simpl.
  - destruct (PyStr.truthy address) eqn:Ha; [|discriminate].
    destruct (PyStr.truthy raw) eqn:Hr; [|discriminate].
    intros _. exists address, raw. auto.
  - destruct (PyStr.truthy address); discriminate.
Qed.

(** X4: the full and the short name of a user with a non-empty address are
    never empty, and the full name is trimmed when the address is; a user
    without names ([None], as [create_user] stores it when no names are
    passed) has the full name "None None", not its address, while its short
    name is the address. *)
Theorem X4_display_names :
  forall u,
    (PyStr.truthy (email u) = true ->
     PyStr.truthy (get_full_name u) = true /\ PyStr.truthy (get_short_name u) = true) /\
    (PyStr.strip (email u) = email u ->
     PyStr.strip (get_full_name u) = get_full_name u) /\
    (first_name u = None -> last_name u = None ->
     get_full_name u = "None None" /\ get_short_name u = email u) /\
    (forall env e p extra db db',
        create_user env e p extra db = (Returned u, db') ->
        x_first_name extra = None -> x_last_name extra = None ->
        get_full_name u = "None None" /\ get_short_name u = email u).
Proof.
  intros u.
  assert (Hnone : first_name u = None -> last_name u = None ->
                  get_full_name u = "None None" /\ get_short_name u = email u).
  { intros Hf Hl. unfold get_full_name, get_short_name. rewrite Hf, Hl. split; reflexivity. }
  split; [|split; [|split]].
  - intros He. unfold get_full_name, get_short_name. split.
    + destruct (PyStr.truthy (PyStr.strip _)) eqn:E; assumption.
    + destruct (first_name u) as [name|]; [|exact He].
      destruct (PyStr.truthy name) eqn:E; assumption.
  - intros He. unfold get_full_name.
    destruct (PyStr.truthy (PyStr.strip _)); [apply strip_idem | exact He].
  - exact Hnone.
  - intros env e p extra db db' Hc Hf Hl.
    destruct (create_user_returned_inputs env e p extra db u db' Hc)
      as (address & raw & -> & -> & Ha & Hr).
    pose proof (create_user_decided env address raw extra db Ha Hr) as H.
    rewrite Hc in H. simpl in H.
    destruct (existsb _ (rows db)); [destruct H as [[=] _]|].
    destruct H as (u' & [= <-] & _ & Hu).
    apply Hnone; rewrite Hu; simpl; [now rewrite Hf | now rewrite Hl].
Qed.

Lemma X4_witness :
  PyStr.truthy (email sample_user) = true /\
  get_full_name sample_user = "Test User" /\
  PyStr.truthy (get_full_name sample_user) = true /\
  PyStr.truthy (get_short_name sample_user) = true /\
  get_full_name (mkUser 1 "test@example.com" "plain$TestPass123!" None None
                   true false false 0 0) = "None None".
Proof.
  split; [reflexivity|]. split; [reflexivity|].
  destruct (proj1 (X4_display_names sample_user) eq_refl) as [Hf Hs].
  split; [exact Hf|]. split; [exact Hs|].
  apply (proj1 (proj2 (proj2 (X4_display_names
           (mkUser 1 "test@example.com" "plain$TestPass123!" None None
              true false false 0 0)))) eq_refl eq_refl).
Defined.

(** ** Password strength *)

(** X5: [validate_password] accepts a password, returning it unchanged and
    without touching the store, exactly when it has at least 8 characters,
    an upper-case letter, a lower-case letter, a digit, and passes the
    configured Django validators; in every other case it raises a
    [ValidationError], again without touching the store. *)
Theorem X5_validate_password_accepts :
  forall env value db,
    (UserRegistrationSerializer.validate_password env value db = (Returned value, db) <->
     8 <= String.length value /\
     PyStr.search PyStr.is_upper_AZ value = true /\
     PyStr.search PyStr.is_lower_az value = true /\
     PyStr.search PyStr.is_digit value = true /\
     password_validation env value = []) /\
    (exists r, UserRegistrationSerializer.validate_password env value db = (r, db) /\
               (r = Returned value \/ exists messages, r = Raised (ValidationError (DList messages)))).
Proof.
  intros env value db. unfold UserRegistrationSerializer.validate_password.
  destruct (Nat.ltb_spec (String.length value) 8) as [Hlen|Hlen];
    [|destruct (PyStr.search PyStr.is_upper_AZ value);
      [destruct (PyStr.search PyStr.is_lower_az value);
       [destruct (PyStr.search PyStr.is_digit value);
        [destruct (password_validation env value) eqn:Hd|]|]|]];
    simpl; (split;
            [ split; [intros [=] | intros (H1 & H2 & H3 & H4 & H5)];
              try discriminate; try lia; auto
            | eexists; split; [reflexivity|]; eauto ]).
Qed.

(** ** Registration: what is accepted and what is stored *)

Section RegistrationDecided.

Variable env : Env.

Import UserRegistrationSerializer.

(** The [email] field passes exactly on an accepted address, which it
    trims. *)
Lemma email_passes data db v :
  fst (run_field env email_field false data db) = Returned (Validated v) <->
  exists e, lookup "email" data = Some (JStr e) /\ v = Some (PyStr.strip e) /\
            email_accepted env db e.
Proof.
  unfold run_field, run_validation, email_accepted; simpl.
  destruct (lookup "email" data) as [[|e]|]; run_store;
    try (split; [discriminate | intros (e' & [=] & _)]).
  destruct (PyStr.truthy (PyStr.strip e)) eqn:Ht; run_store.
  2:{ split; [discriminate|]. intros (e' & [= <-] & _ & Ht' & _). congruence. }
  unfold filter_email_exists. run_store.
  destruct (existsb _ (rows db)) eqn:Hx,
           (Nat.ltb_spec 254 (String.length (PyStr.strip e))) as [Hlen|Hlen],
           (has_null_char (PyStr.strip e)) eqn:Hn,
           (email_ok env (PyStr.strip e)) eqn:Hok; simpl;
    try (split; [discriminate|];
         intros (e' & [= <-] & _ & _ & Hx' & Hlen' & Hn' & Hok');
         first [congruence | lia]).
  unfold validate_email, filter_email_exists. run_store. rewrite Hx. simpl.
  split.
  - intros [= <-]. exists e. auto 10.
  - intros (e' & [= <-] & -> & _). reflexivity.
Qed.

(** The [password] field passes exactly on an accepted password, which it
    trims. *)
Lemma password_passes data db v :
  fst (run_field env (password_field env) false data db) = Returned (Validated v) <->
  exists p, lookup "password" data = Some (JStr p) /\ v = Some (PyStr.strip p) /\
            password_accepted env p.
Proof.
  unfold run_field, run_validation, password_accepted; simpl.
  destruct (lookup "password" data) as [[|p]|]; run_store;
    try (split; [discriminate | intros (p' & [=] & _)]).
  destruct (PyStr.truthy (PyStr.strip p)) eqn:Ht; run_store.
  2:{ split; [discriminate|]. intros (p' & [= <-] & _ & _ & Hlen & _).
      apply truthy_false in Ht. rewrite Ht in Hlen. simpl in Hlen. lia. }
  unfold validate_password.
  destruct (Nat.ltb_spec (String.length (PyStr.strip p)) 8) as [Hlen|Hlen],
           (has_null_char (PyStr.strip p)) eqn:Hn; simpl;
    try (split; [discriminate|];
         intros (p' & [= <-] & _ & Hn' & Hlen' & _); first [congruence | lia]).
  destruct (Nat.ltb_spec (String.length (PyStr.strip p)) 8) as [Hlen2|_]; [lia|].
  destruct (PyStr.search PyStr.is_upper_AZ (PyStr.strip p)) eqn:Hu,
           (PyStr.search PyStr.is_lower_az (PyStr.strip p)) eqn:Hl,
           (PyStr.search PyStr.is_digit (PyStr.strip p)) eqn:Hd; simpl;
    try (split; [discriminate|];
         intros (p' & [= <-] & _ & _ & _ & Hu' & Hl' & Hd' & _); congruence).
  destruct (password_validation env (PyStr.strip p)) eqn:Hv; simpl.
  - split.
    + intros [= <-]. exists p. auto 10.
    + intros (p' & [= <-] & -> & _). reflexivity.
  - split; [discriminate|].
    intros (p' & [= <-] & _ & _ & _ & _ & _ & _ & Hv'). congruence.
Qed.

(** The [password_confirm] field passes exactly on a non-blank string
    without null characters, which it trims. *)
Lemma password_confirm_passes data db v :
  fst (run_field env password_confirm_field false data db) = Returned (Validated v) <->
  exists c, lookup "password_confirm" data = Some (JStr c) /\ v = Some (PyStr.strip c) /\
            PyStr.truthy (PyStr.strip c) = true /\ has_null_char (PyStr.strip c) = false.
Proof.
  unfold run_field, run_validation; simpl.
  destruct (lookup "password_confirm" data) as [[|c]|]; run_store;
    try (split; [discriminate | intros (c' & [=] & _)]).
  destruct (PyStr.truthy (PyStr.strip c)) eqn:Ht; run_store.
  2:{ split; [discriminate|]. intros (c' & [= <-] & _ & Ht' & _). congruence. }
  destruct (has_null_char (PyStr.strip c)) eqn:Hn; simpl.
  - split; [discriminate|]. intros (c' & [= <-] & _ & _ & Hn'). congruence.
  - split.
    + intros [= <-]. exists c. auto.
    + intros (c' & [= <-] & -> & _). reflexivity.
Qed.

(** A name field never asks for its key; it fails exactly on a name longer
    than 30 characters after trimming or with a null character. *)
Lemma name_passes (f : Field) data db :
  f = first_name_field \/ f = last_name_field ->
  (name_accepted (lookup (field_name f) data) ->
   fst (run_field env f false data db) =
     Returned (match cleaned_name (lookup (field_name f) data) with
               | Some v => Validated v
               | None => SkipField
               end)) /\
  (~ name_accepted (lookup (field_name f) data) ->
   exists detail, fst (run_field env f false data db) = Returned (Invalid detail)).
Proof.
  intros Hf.
  assert (H : forall name,
             fst (run_field env (mkField name
                                  (mkCharField false true true
                                     [MaxLengthValidator 30 MSG_MAX_30;
                                      ProhibitNullCharactersValidator]) None)
                    false data db) =
             Returned (match lookup name data with
                       | None => SkipField
                       | Some JNull => Validated None
                       | Some (JStr n) =>
                           if PyStr.truthy (PyStr.strip n)
                           then match (if 30 <? String.length (PyStr.strip n)
                                       then [MSG_MAX_30] else [])
                                      ++ (if has_null_char (PyStr.strip n)
                                          then [MSG_NULL_CHARS] else []) ++ [] with
                                | [] => Validated (Some (PyStr.strip n))
                                | errors => Invalid (DList errors)
                                end
                           else Validated (Some EmptyString)
                       end)).
  { intros name. unfold run_field, run_validation; simpl.
    destruct (lookup name data) as [[|n]|]; run_store; try reflexivity.
    destruct (PyStr.truthy (PyStr.strip n)); run_store; [|reflexivity].
    destruct (30 <? String.length (PyStr.strip n)), (has_null_char (PyStr.strip n));
      reflexivity. }
  assert (G : forall name,
             (name_accepted (lookup name data) ->
              fst (run_field env (mkField name
                                   (mkCharField false true true
                                      [MaxLengthValidator 30 MSG_MAX_30;
                                       ProhibitNullCharactersValidator]) None)
                     false data db) =
              Returned (match cleaned_name (lookup name data) with
                        | Some v => Validated v
                        | None => SkipField
                        end)) /\
             (~ name_accepted (lookup name data) ->
              exists detail,
                fst (run_field env (mkField name
                                     (mkCharField false true true
                                        [MaxLengthValidator 30 MSG_MAX_30;
                                         ProhibitNullCharactersValidator]) None)
                       false data db) = Returned (Invalid detail))).
  { intros name. rewrite (H name). unfold name_accepted, cleaned_name.
    destruct (lookup name data) as [[|n]|]; try (split; [reflexivity | tauto]).
    destruct (PyStr.truthy (PyStr.strip n)) eqn:Ht.
    - destruct (Nat.ltb_spec 30 (String.length (PyStr.strip n))) as [Hlen|Hlen],
               (has_null_char (PyStr.strip n)) eqn:Hn; simpl;
        (split; [intros [Hl' Hn']; first [reflexivity | congruence | lia]
                | intros Hnot; first [now eexists | elim Hnot; split; [lia | reflexivity]]]).
    - apply truthy_false in Ht. rewrite Ht. simpl.
      split; [reflexivity|]. intros Hnot. elim Hnot. split; [lia | reflexivity]. }
  destruct Hf as [-> | ->]; apply G.
Qed.

Lemma name_accepted_dec v : name_accepted v \/ ~ name_accepted v.
Proof.
  destruct v as [[|n]|]; simpl; auto.
  destruct (le_dec (String.length (PyStr.strip n)) 30) as [Hl|Hl],
           (has_null_char (PyStr.strip n)); auto; right; intros [? ?];
    first [contradiction | discriminate].
Qed.

(** A required field of a non-partial serializer is never skipped. *)
Lemma required_not_skipped (f : Field) data db :
  required (field f) = true ->
  fst (run_field env f false data db) <> Returned SkipField.
Proof.
  intros Hreq. unfold run_field, bind at 1.
  assert (H : fst (run_validation env (field f) false (lookup (field_name f) data) db)
              <> Returned SkipField).
  { unfold run_validation. destruct (lookup (field_name f) data) as [[|s]|].
    - destruct (allow_null (field f)); discriminate.
    - destruct (negb _).
      + destruct (allow_blank (field f)); discriminate.
      + unfold bind.
        destruct (run_validators env (validators (field f)) (PyStr.strip s) db)
          as [[[|m ms]|ex] db1]; discriminate.
    - rewrite Hreq. discriminate. }
  destruct (run_validation env (field f) false (lookup (field_name f) data) db)
    as [[[|[v|]|d]|ex] db1]; simpl in *; try discriminate; try (now elim H);
    destruct (validate_method f) as [validate|]; try discriminate.
  unfold bind, try_validation.
  destruct (validate v db1) as [[v'|[]] db2]; discriminate.
Qed.

(** [is_valid] never raises: it answers with the validated data of an
    accepted request, or with errors on a request that is not accepted. *)
Lemma is_valid_cases data db :
  (exists e p,
      registration_accepted env db data e p /\
      fst (is_valid env data db) = Returned (inr (registration_attrs data e p)))
  \/ (exists errors,
      errors <> [] /\
      fst (is_valid env data db) = Returned (inl errors) /\
      forall e p, ~ registration_accepted env db data e p).
Proof.
  destruct (fields_outcome env data db)
    as (o1 & o2 & o3 & o4 & o5 & E1 & E2 & E3 & E4 & E5 & T).
  pose proof (fun errors attrs =>
                is_valid_outcome env (fields env) false validate
                  (fields_well_behaved env) validate_read_only data db errors attrs)
    as Hout.
  fold (is_valid env data) in Hout.
  (* a field that fails: the request is refused with the field errors *)
  assert (Hrefuse : forall errors attrs,
             fst (to_internal_value env (fields env) false data db)
               = Returned (errors, attrs) ->
             errors <> [] ->
             (forall e p, ~ registration_accepted env db data e p) ->
             exists errors,
               errors <> [] /\ fst (is_valid env data db) = Returned (inl errors) /\
               forall e p, ~ registration_accepted env db data e p).
  { intros errors attrs HT Hne Hna. exists errors. split; [exact Hne|].
    split; [|exact Hna]. rewrite (Hout _ _ HT).
    destruct errors; [now elim Hne | reflexivity]. }
  destruct (name_passes (first_name_field) data db (or_introl eq_refl)) as [P4 N4].
  destruct (name_passes (last_name_field) data db (or_intror eq_refl)) as [P5 N5].
  simpl in P4, N4, P5, N5.
  (* the five fields in turn *)
  destruct o1 as [|v1|d1].
  { exfalso. now apply (required_not_skipped email_field data db). }
  2:{ right. destruct (file_outcome _ _ _) as [errors attrs] eqn:Er in T.
      apply (Hrefuse errors attrs T).
      - simpl in Er. injection Er as <- _. discriminate.
      - intros e p (Hl & _ & _ & Ha & _).
        assert (Hp : fst (run_field env email_field false data db)
                     = Returned (Validated (Some (PyStr.strip e))))
          by (apply email_passes; eauto).
        congruence. }
  apply email_passes in E1 as (e & Hle & -> & Hea).
  destruct o2 as [|v2|d2].
  { exfalso. now apply (required_not_skipped (password_field env) data db). }
  2:{ right. destruct (file_outcome _ _ _) as [errors attrs] eqn:Er in T.
      apply (Hrefuse errors attrs T).
      - simpl in Er. injection Er as <- _. discriminate.
      - intros e' p (_ & Hl & _ & _ & Ha & _).
        assert (Hp : fst (run_field env (password_field env) false data db)
                     = Returned (Validated (Some (PyStr.strip p))))
          by (apply password_passes; eauto).
        congruence. }
  apply password_passes in E2 as (p & Hlp & -> & Hpa).
  destruct o3 as [|v3|d3].
  { exfalso. now apply (required_not_skipped password_confirm_field data db). }
  2:{ right. destruct (file_outcome _ _ _) as [errors attrs] eqn:Er in T.
      apply (Hrefuse errors attrs T).
      - simpl in Er. injection Er as <- _. discriminate.
      - intros e' p' (_ & Hl & (c & Hlc & Hc) & _ & Ha & _).
        assert (Hp : fst (run_field env password_confirm_field false data db)
                     = Returned (Validated (Some (PyStr.strip c)))).
        { apply password_confirm_passes. exists c. repeat split; trivial.
          - rewrite Hc. destruct Ha as (_ & Hlen & _).
            apply truthy_length. lia.
          - rewrite Hc. apply Ha. }
        congruence. }
  apply password_confirm_passes in E3 as (c & Hlc & -> & Htc & Hnc).
  destruct (name_accepted_dec (lookup "first_name" data)) as [A4|A4].
  2:{ right. destruct (N4 A4) as (d4 & E4'). rewrite E4 in E4'. injection E4' as ->.
      destruct (file_outcome _ _ _) as [errors attrs] eqn:Er in T.
      apply (Hrefuse errors attrs T).
      - simpl in Er. injection Er as <- _. discriminate.
      - intros e' p' (_ & _ & _ & _ & _ & Ha & _). contradiction. }
  rewrite (P4 A4) in E4. injection E4 as <-.
  destruct (name_accepted_dec (lookup "last_name" data)) as [A5|A5].
  2:{ right. destruct (N5 A5) as (d5 & E5'). rewrite E5 in E5'. injection E5' as ->.
      destruct (cleaned_name (lookup "first_name" data)) as [v4|];
        (destruct (file_outcome _ _ _) as [errors attrs] eqn:Er in T;
         apply (Hrefuse errors attrs T);
         [ simpl in Er; injection Er as <- _; discriminate
         | intros e' p' (_ & _ & _ & _ & _ & _ & Ha); contradiction ]). }
  rewrite (P5 A5) in E5. injection E5 as <-.
  (* every field passed: [validate] compares the two passwords *)
  assert (HT : fst (to_internal_value env (fields env) false data db)
               = Returned ([], [("email", Some (PyStr.strip e));
                                ("password", Some (PyStr.strip p));
                                ("password_confirm", Some (PyStr.strip c))]
                               ++ name_entry "first_name" (lookup "first_name" data)
                               ++ name_entry "last_name" (lookup "last_name" data))).
  { rewrite T. unfold name_entry.
    destruct (cleaned_name (lookup "first_name" data)),
             (cleaned_name (lookup "last_name" data)); reflexivity. }
  pose proof (Hout _ _ HT) as Hi. simpl in Hi. unfold validate in Hi. simpl in Hi.
  destruct (String.eqb_spec (PyStr.strip p) (PyStr.strip c)) as [Heq|Hne];
    simpl in Hi.
  - left. exists e, p. split.
    + repeat split; trivial; try apply Hea; try apply Hpa. exists c. auto.
    + rewrite Hi. unfold registration_attrs. now rewrite <- Heq.
  - right. eexists. split; [|split; [exact Hi|]]; [discriminate|].
    intros e' p' (_ & Hl & (c' & Hlc' & Hc') & _).
    rewrite Hlp in Hl. injection Hl as <-. rewrite Hlc in Hlc'. injection Hlc' as <-.
    now elim Hne.
Qed.

Lemma slice_to_short n s : String.length s <= n -> PyStr.slice_to n s = s.
Proof.
  revert s. induction n as [|n IH]; intros [|c r]; simpl; intros H; try reflexivity;
    try lia. rewrite IH; [reflexivity | lia].
Qed.

(** [create_user] leaves an accepted name as the field cleaned it. *)
Lemma truncate_accepted_name v :
  name_accepted v ->
  match truncate_name (cleaned_name v) with Some x => x | None => None end
  = match cleaned_name v with Some x => x | None => None end.
Proof.
  destruct v as [[|n]|]; try reflexivity.
  unfold name_accepted, cleaned_name, truncate_name. intros [Hl _].
  destruct (PyStr.truthy (PyStr.strip n)); [|reflexivity].
  now rewrite slice_to_short.
Qed.

Lemma lookup_name_entry key v rest :
  lookup key (name_entry key v ++ rest) =
    match cleaned_name v with Some x => Some x | None => lookup key rest end.
Proof.
  unfold name_entry. destruct (cleaned_name v); simpl; [|reflexivity].
  now rewrite String.eqb_refl.
Qed.

(** What [create] does with the validated data of an accepted request. *)
Lemma create_accepted data e p db1 :
  registration_accepted env db1 data e p ->
  create env (registration_attrs data e p) db1 =
  create_user env (Some (PyStr.strip e)) (Some (PyStr.strip p))
    (mkExtra (cleaned_name (lookup "first_name" data))
       (cleaned_name (lookup "last_name" data)) None None None) db1.
Proof.
  intros _. unfold create, registration_attrs, name_entry. simpl.
  destruct (cleaned_name (lookup "first_name" data)),
           (cleaned_name (lookup "last_name" data)); reflexivity.
Qed.

(** The handler on an accepted request: the INSERT of the lower-case
    address decides. *)
Lemma post_accepted data e p db :
  registration_accepted env db data e p ->
  if existsb (fun r => String.eqb (email r) (PyStr.lower (PyStr.strip e))) (rows db)
  then
    fst (UserRegistrationView.post env data db) = Raised (IntegrityError UNIQUE_FAILED) /\
    rows (snd (UserRegistrationView.post env data db)) = rows db
  else
    fst (UserRegistrationView.post env data db)
      = Returned (mkResponse HTTP_201_CREATED
                    (B_tokens (snd (for_user env (registered_user env db data e p)))
                       (fst (for_user env (registered_user env db data e p)))
                       (to_representation (registered_user env db data e p)))) /\
    rows (snd (UserRegistrationView.post env data db))
      = rows db ++ [registered_user env db data e p].
Proof.
  intros Hacc.
  destruct (is_valid_cases data db) as [(e' & p' & Hacc' & Hi)|(errors & _ & _ & Hna)];
    [|now elim (Hna e p)].
  assert (e' = e /\ p' = p) as [-> ->].
  { destruct Hacc as (H1 & H2 & _), Hacc' as (H1' & H2' & _).
    rewrite H1 in H1'. rewrite H2 in H2'.
    injection H1' as <-. injection H2' as <-. now split. }
  destruct (is_valid_read_only_registration env data db) as [(Hr & Hk & Hc) _].
  unfold UserRegistrationView.post.
  destruct (is_valid env data db) as [o db1] eqn:E. simpl in Hi, Hr, Hk, Hc. subst o.
  rewrite (bind_returned _ _ _ _ _ E).
  assert (Hacc1 : registration_accepted env db1 data e p).
  { destruct Hacc as (H1 & H2 & H3 & (A1 & A2 & A3) & H5).
    split; [exact H1|]. split; [exact H2|]. split; [exact H3|]. split; [|exact H5].
    split; [exact A1|]. split; [now rewrite <- Hr | exact A3]. }
  cbv beta iota. unfold bind. rewrite (create_accepted data e p db1 Hacc1).
  assert (Hte : PyStr.truthy (PyStr.strip e) = true) by apply Hacc.
  assert (Htp : PyStr.truthy (PyStr.strip p) = true).
  { destruct Hacc as (_ & _ & _ & _ & (_ & Hlen & _) & _). apply truthy_length. lia. }
  pose proof (create_user_decided env (PyStr.strip e) (PyStr.strip p)
                (mkExtra (cleaned_name (lookup "first_name" data))
                   (cleaned_name (lookup "last_name" data)) None None None)
                db1 Hte Htp) as Hd.
  rewrite strip_idem, <- Hr in Hd.
  destruct (existsb _ (rows db)).
  - destruct Hd as [Hf (Hs & _)].
    destruct (create_user env _ _ _ db1) as [o2 db2]; simpl in *; subst o2.
    split; [reflexivity | simpl; congruence].
  - destruct Hd as (u & Hf & Hs & Hu). simpl in Hu.
    assert (Hreg : u = registered_user env db data e p).
    { rewrite Hu. unfold registered_user. rewrite <- Hk, <- Hc.
      destruct Hacc as (_ & _ & _ & _ & _ & N1 & N2).
      now rewrite (truncate_accepted_name _ N1), (truncate_accepted_name _ N2). }
    destruct (create_user env _ _ _ db1) as [o2 db2]; simpl in *; subst o2.
    rewrite <- Hreg. split; [reflexivity | simpl; congruence].
Qed.

End RegistrationDecided.

Lemma sample_registration_accepted :
  registration_accepted sample_env sample_db sample_registration
    "  NewUser@Example.com " "TestPass123!".
Proof.
  split; [reflexivity|]. split; [reflexivity|].
  split; [exists "TestPass123!"; split; reflexivity|].
  split; [|split; [|split]].
  - split; [reflexivity|]. split; [reflexivity|]. split; [vm_compute; lia|].
    split; reflexivity.
  - split; [reflexivity|]. split; [vm_compute; lia|].
    split; [reflexivity|]. split; [reflexivity|]. split; reflexivity.
  - split; [vm_compute; lia | reflexivity].
  - split; [vm_compute; lia | reflexivity].
Qed.

(** X6: the registration serializer never raises; [is_valid] answers true
    exactly on a request whose address and password are strings that pass
    the field checks and the two [validate_] methods, whose confirmation is
    equal to the password after trimming, and whose names, if given, are at
    most 30 characters long after trimming; the validated data are then the
    trimmed values. *)
Theorem X6_registration_is_valid_iff :
  forall env data db,
    (exists r, fst (UserRegistrationSerializer.is_valid env data db) = Returned r) /\
    (forall attrs,
        fst (UserRegistrationSerializer.is_valid env data db) = Returned (inr attrs) <->
        exists e p, registration_accepted env db data e p /\
                    attrs = registration_attrs data e p).
Proof.
  intros env data db.
  destruct (is_valid_cases env data db)
    as [(e & p & Hacc & Hi)|(errors & Hne & Hi & Hna)]; (split; [eauto|]);
    intros attrs; rewrite Hi; split.
  - intros [= <-]. eauto.
  - intros (e' & p' & Hacc' & ->).
    destruct Hacc as (H1 & H2 & _), Hacc' as (H1' & H2' & _).
    rewrite H1 in H1'. rewrite H2 in H2'.
    injection H1' as <-. injection H2' as <-. reflexivity.
  - discriminate.
  - intros (e' & p' & Hacc' & _). now elim (Hna e' p').
Qed.

Lemma X6_witness :
  registration_accepted sample_env sample_db sample_registration
    "  NewUser@Example.com " "TestPass123!" /\
  fst (UserRegistrationSerializer.is_valid sample_env sample_registration sample_db)
    = Returned (inr [("email", Some "NewUser@Example.com");
                     ("password", Some "TestPass123!");
                     ("password_confirm", Some "TestPass123!");
                     ("first_name", Some "Jane"); ("last_name", Some "Smith")]).
Proof.
  split; [exact sample_registration_accepted|].
  apply (proj2 (X6_registration_is_valid_iff sample_env sample_registration sample_db)).
  exists "  NewUser@Example.com ", "TestPass123!".
  split; [exact sample_registration_accepted | reflexivity].
Defined.

(** X7: on a request that the serializer accepts, the registration handler
    is decided by the table: when a row holds the trimmed address in lower
    case it raises [IntegrityError] and stores nothing; otherwise it answers
    201 with the tokens and the profile of the new row, which is the only
    row added: next key, the address trimmed and in lower case, the hash of
    the trimmed password, the names as trimmed, active, neither staff nor
    superuser. *)
Theorem X7_registration_of_accepted_request :
  forall env data db e p,
    registration_accepted env db data e p ->
    (existsb (fun r => String.eqb (email r) (PyStr.lower (PyStr.strip e))) (rows db) = true ->
     fst (UserRegistrationView.post env data db) = Raised (IntegrityError UNIQUE_FAILED) /\
     rows (snd (UserRegistrationView.post env data db)) = rows db) /\
    (existsb (fun r => String.eqb (email r) (PyStr.lower (PyStr.strip e))) (rows db) = false ->
     fst (UserRegistrationView.post env data db)
       = Returned (mkResponse HTTP_201_CREATED
                     (B_tokens (snd (for_user env (registered_user env db data e p)))
                        (fst (for_user env (registered_user env db data e p)))
                        (to_representation (registered_user env db data e p)))) /\
     rows (snd (UserRegistrationView.post env data db))
       = rows db ++ [registered_user env db data e p]).
Proof.
  intros env data db e p Hacc.
  pose proof (post_accepted env data e p db Hacc) as H.
  split; intros Hx; rewrite Hx in H; exact H.
Qed.

Lemma X7_witness :
  registration_accepted sample_env sample_db sample_registration
    "  NewUser@Example.com " "TestPass123!" /\
  fst (UserRegistrationView.post sample_env sample_registration sample_db)
    = Returned (mkResponse HTTP_201_CREATED
                  (B_tokens "access:newuser@example.com" "refresh:newuser@example.com"
                     (mkProfile "newuser@example.com" (Some "Jane") (Some "Smith") 1 1))) /\
  rows (snd (UserRegistrationView.post sample_env sample_registration sample_db))
    = rows sample_db
      ++ [mkUser 2 "newuser@example.com" "plain$TestPass123!" (Some "Jane") (Some "Smith")
            true false false 1 1].
Proof.
  split; [exact sample_registration_accepted|].
  apply (proj2 (X7_registration_of_accepted_request sample_env sample_registration
                  sample_db "  NewUser@Example.com " "TestPass123!"
                  sample_registration_accepted)).
  reflexivity.
Defined.

(** X8: whenever the registration handler answers 201, the request was one
    the serializer accepts, no row held its address, and the one row added
    is active and is neither staff nor superuser, whatever else the request
    carries. *)
Theorem X8_registered_user_is_unprivileged :
  forall env data db resp,
    fst (UserRegistrationView.post env data db) = Returned resp ->
    status resp = HTTP_201_CREATED ->
    exists e p u,
      registration_accepted env db data e p /\
      existsb (fun r => String.eqb (email r) (PyStr.lower (PyStr.strip e))) (rows db)
        = false /\
      rows (snd (UserRegistrationView.post env data db)) = rows db ++ [u] /\
      email u = PyStr.lower (PyStr.strip e) /\
      password u = make_password env (PyStr.strip p) /\
      is_active u = true /\ is_staff u = false /\ is_superuser u = false.
Proof.
  intros env data db resp Hr Hs.
  destruct (is_valid_cases env data db)
    as [(e & p & Hacc & _)|(errors & _ & Hi & _)].
  - pose proof (post_accepted env data e p db Hacc) as H.
    destruct (existsb _ (rows db)) eqn:Hx.
    + destruct H as [Hf _]. rewrite Hf in Hr. discriminate.
    + destruct H as [_ Hrows].
      exists e, p, (registered_user env db data e p).
      split; [exact Hacc|]. split; [exact Hx|]. split; [exact Hrows|].
      repeat split.
  - destruct (post_of_invalid env data db errors Hi) as [Hf _].
    rewrite Hf in Hr. injection Hr as <-. discriminate.
Qed.

Lemma X8_witness :
  status (mkResponse HTTP_201_CREATED
            (B_tokens "access:newuser@example.com" "refresh:newuser@example.com"
               (mkProfile "newuser@example.com" (Some "Jane") (Some "Smith") 1 1)))
    = HTTP_201_CREATED /\
  exists e p u,
    registration_accepted sample_env sample_db sample_registration e p /\
    existsb (fun r => String.eqb (email r) (PyStr.lower (PyStr.strip e))) (rows sample_db)
      = false /\
    rows (snd (UserRegistrationView.post sample_env sample_registration sample_db))
      = rows sample_db ++ [u] /\
    email u = PyStr.lower (PyStr.strip e) /\
    password u = make_password sample_env (PyStr.strip p) /\
    is_active u = true /\ is_staff u = false /\ is_superuser u = false.
Proof.
  split; [reflexivity|].
  apply (X8_registered_user_is_unprivileged sample_env sample_registration sample_db
           (mkResponse HTTP_201_CREATED
              (B_tokens "access:newuser@example.com" "refresh:newuser@example.com"
                 (mkProfile "newuser@example.com" (Some "Jane") (Some "Smith") 1 1))));
    reflexivity.
Defined.

(** X9: a registration whose trimmed address is held by a row, letter for
    letter, is answered 400 with "A user with that email already exists."
    first under [email], and stores nothing. *)
Theorem X9_registration_exact_duplicate :
  forall env data db e,
    lookup "email" data = Some (JStr e) ->
    PyStr.truthy (PyStr.strip e) = true ->
    existsb (fun r => String.eqb (email r) (PyStr.strip e)) (rows db) = true ->
    exists errors more,
      fst (UserRegistrationView.post env data db)
        = Returned (mkResponse HTTP_400_BAD_REQUEST (B_errors errors)) /\
      rows (snd (UserRegistrationView.post env data db)) = rows db /\
      lookup "email" errors = Some (DList (MSG_UNIQUE :: more)).
Proof. intros env data db e. apply post_exact_duplicate. Qed.

Lemma X9_witness :
  existsb (fun r => String.eqb (email r) (PyStr.strip " testuser@example.com"))
    (rows sample_db) = true /\
  exists errors more,
    fst (UserRegistrationView.post sample_env
           (registration_data " testuser@example.com" "TestPass123!" "TestPass123!")
           sample_db)
      = Returned (mkResponse HTTP_400_BAD_REQUEST (B_errors errors)) /\
    rows (snd (UserRegistrationView.post sample_env
                 (registration_data " testuser@example.com" "TestPass123!" "TestPass123!")
                 sample_db)) = rows sample_db /\
    lookup "email" errors = Some (DList (MSG_UNIQUE :: more)).
Proof.
  split; [reflexivity|].
  apply (X9_registration_exact_duplicate sample_env
           (registration_data " testuser@example.com" "TestPass123!" "TestPass123!")
           sample_db " testuser@example.com"); reflexivity.
Defined.

(** ** Login: what is answered *)

Section LoginDecided.

Variable env : Env.

Import UserLoginSerializer.

Lemma backend_authenticate_read_only b username password :
  read_only (backend_authenticate env b username password).
Proof.
  unfold backend_authenticate.
  destruct username as [username|], password as [raw|]; auto with store.
  apply read_only_bind; [auto with store|].
  intros [user|]; [|auto with store].
  destruct (_ && _); auto with store.
Qed.

Lemma authenticate_with_read_only backends username password :
  read_only (authenticate_with env backends username password).
Proof.
  induction backends as [|b rest IH]; simpl; [auto with store|].
  apply read_only_bind; [apply backend_authenticate_read_only|].
  intros [user|]; [auto with store | exact IH].
Qed.

(** [authenticate] in closed form. *)
Lemma authenticate_with_decided backends username raw db :
  fst (authenticate_with env backends (Some username) (Some raw) db)
    = Returned (authenticated env backends db username raw).
Proof.
  unfold authenticated. revert db.
  induction backends as [|b rest IH]; intros db.
  - simpl. destruct (find _ (rows db)); [|reflexivity].
    now rewrite andb_false_r.
  - simpl. unfold backend_authenticate, get_by_natural_key, encoded_password. run_store.
    destruct (find _ (rows db)) as [u|] eqn:Hf.
    + destruct (check_password env raw (password u)) eqn:Hc; simpl.
      * destruct (user_can_authenticate b u); simpl; [reflexivity|].
        rewrite IH. simpl. now rewrite Hf, Hc.
      * rewrite IH. simpl. now rewrite Hf, Hc.
    + rewrite IH. simpl. now rewrite Hf.
Qed.

Lemma fields_well_behaved_login : Forall well_behaved fields.
Proof. unfold fields. repeat constructor. Qed.

Lemma validate_read_only_login attrs : read_only (validate env attrs).
Proof.
  unfold validate. destruct (_ && _); [|apply read_only_raise].
  apply read_only_bind; [apply authenticate_with_read_only|].
  intros [user|]; [|apply read_only_raise].
  destruct (negb _); [apply read_only_raise | apply read_only_ret].
Qed.

(** The [email] field passes exactly on a non-blank address without null
    characters that the address check accepts; it trims it. *)
Lemma login_email_passes data db v :
  fst (run_field env email_field false data db) = Returned (Validated v) <->
  exists e, lookup "email" data = Some (JStr e) /\ v = Some (PyStr.strip e) /\
            clean_ok e = true /\ email_ok env (PyStr.strip e) = true.
Proof.
  unfold run_field, run_validation, clean_ok; simpl.
  destruct (lookup "email" data) as [[|e]|]; run_store;
    try (split; [discriminate | intros (e' & [=] & _)]).
  destruct (PyStr.truthy (PyStr.strip e)) eqn:Ht; run_store.
  2:{ split; [discriminate|]. intros (e' & [= <-] & _ & Ht' & _).
      rewrite Ht in Ht'. discriminate. }
  destruct (has_null_char (PyStr.strip e)) eqn:Hn,
           (email_ok env (PyStr.strip e)) eqn:Hok; simpl;
    try (split; [discriminate|];
         intros (e' & [= <-] & _ & Hn' & Hok');
         rewrite ?Ht, ?Hn in Hn'; simpl in Hn'; congruence).
  split.
  - intros [= <-]. exists e. rewrite Ht, Hn. auto.
  - intros (e' & [= <-] & -> & _). reflexivity.
Qed.

(** The [password] field passes exactly on a non-blank password without
    null characters; it trims it. *)
Lemma login_password_passes data db v :
  fst (run_field env password_field false data db) = Returned (Validated v) <->
  exists p, lookup "password" data = Some (JStr p) /\ v = Some (PyStr.strip p) /\
            clean_ok p = true.
Proof.
  unfold run_field, run_validation, clean_ok; simpl.
  destruct (lookup "password" data) as [[|p]|]; run_store;
    try (split; [discriminate | intros (p' & [=] & _)]).
  destruct (PyStr.truthy (PyStr.strip p)) eqn:Ht; run_store.
  2:{ split; [discriminate|]. intros (p' & [= <-] & _ & Ht').
      rewrite Ht in Ht'. discriminate. }
  destruct (has_null_char (PyStr.strip p)) eqn:Hn; simpl.
  - split; [discriminate|]. intros (p' & [= <-] & _ & Hn').
    rewrite Ht, Hn in Hn'. discriminate.
  - split.
    + intros [= <-]. exists p. rewrite Ht, Hn. auto.
    + intros (p' & [= <-] & -> & _). reflexivity.
Qed.

Lemma fields_outcome_login data db :
  exists o1 o2,
    fst (run_field env email_field false data db) = Returned o1 /\
    fst (run_field env password_field false data db) = Returned o2 /\
    fst (to_internal_value env fields false data db) =
      Returned (file_outcome "email" o1 (file_outcome "password" o2 ([], []))).
Proof.
  pose proof fields_well_behaved_login as H. unfold fields in *.
  pose proof (Forall_inv H) as H1. apply Forall_inv_tail in H.
  pose proof (Forall_inv H) as H2. apply Forall_inv_tail in H.
  destruct (to_internal_value_cons env _ [] false data db H2 H) as (o2 & r2 & E2 & R2 & T2).
  simpl in R2. injection R2 as <-.
  destruct (to_internal_value_cons env _ _ false data db H1 (Forall_cons _ H2 H))
    as (o1 & r1 & E1 & R1 & T1).
  rewrite T2 in R1. injection R1 as <-.
  exists o1, o2. repeat split; assumption.
Qed.

Lemma is_valid_cases_login data db :
  (exists e p, login_accepted env data e p /\
               fst (is_valid env data db) = login_verdict env db e p)
  \/ (exists errors,
         errors <> [] /\ Forall login_key errors /\
         fst (is_valid env data db) = Returned (inl errors) /\
         forall e p, ~ login_accepted env data e p).
Proof.
  destruct (fields_outcome_login data db) as (o1 & o2 & E1 & E2 & T).
  pose proof (fun errors attrs =>
                is_valid_outcome env fields false (validate env)
                  fields_well_behaved_login validate_read_only_login data db errors attrs)
    as Hout.
  fold (is_valid env data) in Hout.
  assert (Hrefuse : forall errors attrs,
             fst (to_internal_value env fields false data db) = Returned (errors, attrs) ->
             errors <> [] -> Forall login_key errors ->
             (forall e p, ~ login_accepted env data e p) ->
             exists errors,
               errors <> [] /\ Forall login_key errors /\
               fst (is_valid env data db) = Returned (inl errors) /\
               forall e p, ~ login_accepted env data e p).
  { intros errors attrs HT Hne Hk Hna. exists errors. split; [exact Hne|].
    split; [exact Hk|]. split; [|exact Hna]. rewrite (Hout _ _ HT).
    destruct errors; [now elim Hne | reflexivity]. }
  assert (Hno1 : forall d1, o1 = Invalid d1 -> forall e p, ~ login_accepted env data e p).
  { intros d1 -> e p (Hl & _ & Hp). unfold login_fields_pass in Hp.
    apply andb_prop in Hp as [Hp _]. apply andb_prop in Hp as [Hc Hok].
    assert (Hv : fst (run_field env email_field false data db)
                 = Returned (Validated (Some (PyStr.strip e))))
      by (apply login_email_passes; eauto).
    congruence. }
  assert (Hno2 : forall d2, o2 = Invalid d2 -> forall e p, ~ login_accepted env data e p).
  { intros d2 -> e p (_ & Hl & Hp). unfold login_fields_pass in Hp.
    apply andb_prop in Hp as [_ Hc].
    assert (Hv : fst (run_field env password_field false data db)
                 = Returned (Validated (Some (PyStr.strip p))))
      by (apply login_password_passes; eauto).
    congruence. }
  destruct o1 as [|v1|d1].
  { exfalso. now apply (required_not_skipped env email_field data db). }
  2:{ right. destruct o2 as [|v2|d2].
      - exfalso. now apply (required_not_skipped env password_field data db).
      - apply (Hrefuse _ _ T); [discriminate | | now apply (Hno1 d1)].
        repeat constructor.
      - apply (Hrefuse _ _ T); [discriminate | | now apply (Hno1 d1)].
        constructor; [now left|]. constructor; [now right | constructor]. }
  destruct o2 as [|v2|d2].
  { exfalso. now apply (required_not_skipped env password_field data db). }
  2:{ right. apply (Hrefuse _ _ T); [discriminate | | now apply (Hno2 d2)].
      constructor; [now right | constructor]. }
  apply login_email_passes in E1 as (e & Hle & -> & Hce & Hok).
  apply login_password_passes in E2 as (p & Hlp & -> & Hcp).
  left. exists e, p. split.
  { split; [exact Hle|]. split; [exact Hlp|]. unfold login_fields_pass.
    now rewrite Hce, Hok, Hcp. }
  rewrite (Hout _ _ T). simpl.
  unfold clean_ok in Hce, Hcp.
  apply andb_prop in Hce as [Hte _]. apply andb_prop in Hcp as [Htp _].
  unfold validate, get; simpl. rewrite Hte, Htp. simpl.
  unfold authenticate, bind.
  pose proof (authenticate_with_decided (AUTHENTICATION_BACKENDS env)
                (PyStr.strip e) (PyStr.strip p) db) as Ha.
  destruct (authenticate_with env _ _ _ db) as [o db1]; simpl in Ha; subst o.
  unfold login_verdict.
  destruct (authenticated env _ db _ _) as [u|]; simpl; [|reflexivity].
  destruct (is_active u); reflexivity.
Qed.

Lemma post_read_only_login data : read_only (UserLoginView.post env data).
Proof.
  unfold UserLoginView.post. apply read_only_bind.
  - apply is_valid_read_only;
      [apply fields_well_behaved_login | apply validate_read_only_login].
  - intros [errors|validated_data]; apply read_only_ret.
Qed.

Lemma post_of_is_valid_login data db r :
  fst (is_valid env data db) = Returned r ->
  fst (UserLoginView.post env data db) =
    Returned (match r with
              | inr validated_data => logged_in env (snd validated_data)
              | inl errors => mkResponse HTTP_400_BAD_REQUEST (B_errors errors)
              end).
Proof.
  intros H. unfold UserLoginView.post, bind.
  destruct (is_valid env data db) as [o db1]; simpl in H; subst o.
  destruct r; reflexivity.
Qed.

(** The handler on an accepted request. *)
Lemma post_accepted_login data e p db :
  login_accepted env data e p ->
  fst (UserLoginView.post env data db) =
    Returned (match authenticated env (AUTHENTICATION_BACKENDS env) db
                      (PyStr.strip e) (PyStr.strip p) with
              | None => invalid_credentials
              | Some u => if is_active u then logged_in env u else account_disabled
              end).
Proof.
  intros (Hle & Hlp & Hp).
  destruct (is_valid_cases_login data db)
    as [(e' & p' & (Hle' & Hlp' & _) & Hi)|(errors & _ & _ & _ & Hna)].
  2:{ elim (Hna e p). now repeat split. }
  rewrite Hle in Hle'. rewrite Hlp in Hlp'.
  injection Hle' as <-. injection Hlp' as <-.
  unfold login_verdict in Hi.
  destruct (authenticated env _ db _ _) as [u|].
  - destruct (is_active u); now rewrite (post_of_is_valid_login data db _ Hi).
  - now rewrite (post_of_is_valid_login data db _ Hi).
Qed.

End LoginDecided.

(** X10: on a login request whose address and password pass the fields,
    the handler answers the tokens of the first row that holds the trimmed
    address exactly when that row carries the trimmed password, a configured
    backend lets it through, and it is active; a row that is let through but
    is not active gets "User account is disabled."; every other case gets
    "Invalid email or password.".  The table is as before. *)
Theorem X10_login_of_accepted_request :
  forall env data e p db,
    login_accepted env data e p ->
    fst (UserLoginView.post env data db) =
      Returned (match authenticated env (AUTHENTICATION_BACKENDS env) db
                        (PyStr.strip e) (PyStr.strip p) with
                | None => invalid_credentials
                | Some u => if is_active u then logged_in env u else account_disabled
                end) /\
    same_table db (snd (UserLoginView.post env data db)).
Proof.
  intros env data e p db H. split.
  - now apply post_accepted_login.
  - apply (post_read_only_login env data db).
Qed.

Lemma X10_witness :
  login_accepted sample_env (login_data " testuser@example.com" "TestPass123! ")
    " testuser@example.com" "TestPass123! " /\
  fst (UserLoginView.post sample_env
         (login_data " testuser@example.com" "TestPass123! ") sample_db)
    = Returned (logged_in sample_env sample_user) /\
  same_table sample_db
    (snd (UserLoginView.post sample_env
            (login_data " testuser@example.com" "TestPass123! ") sample_db)).
Proof.
  assert (H : login_accepted sample_env
                (login_data " testuser@example.com" "TestPass123! ")
                " testuser@example.com" "TestPass123! ")
    by (split; [reflexivity|]; split; reflexivity).
  split; [exact H|].
  exact (X10_login_of_accepted_request sample_env _ _ _ sample_db H).
Defined.

(** X11: the login handler answers 200 only to a request whose trimmed
    address is that of a stored row, whose trimmed password that row
    carries, and whose row is active and accepted by a configured backend;
    the tokens and the profile are those of that row. *)
Theorem X11_login_soundness :
  forall env data db resp,
    fst (UserLoginView.post env data db) = Returned resp ->
    status resp = HTTP_200_OK ->
    exists e p u,
      login_accepted env data e p /\
      find (fun r => String.eqb (email r) (PyStr.strip e)) (rows db) = Some u /\
      check_password env (PyStr.strip p) (password u) = true /\
      is_active u = true /\
      (exists b, In b (AUTHENTICATION_BACKENDS env) /\ user_can_authenticate b u = true) /\
      resp = logged_in env u.
Proof.
  intros env data db resp Hr Hs.
  destruct (is_valid_cases_login env data db)
    as [(e & p & Hacc & _)|(errors & _ & _ & Hi & _)].
  - rewrite (post_accepted_login env data e p db Hacc) in Hr.
    unfold authenticated in Hr.
    destruct (find _ (rows db)) as [u|] eqn:Hf.
    2:{ injection Hr as <-. discriminate. }
    destruct (check_password env _ (password u)) eqn:Hc; simpl in Hr.
    2:{ injection Hr as <-. discriminate. }
    destruct (existsb _ (AUTHENTICATION_BACKENDS env)) eqn:Hb.
    2:{ injection Hr as <-. discriminate. }
    destruct (is_active u) eqn:Ha.
    2:{ injection Hr as <-. discriminate. }
    injection Hr as <-. apply existsb_exists in Hb.
    exists e, p, u.
    split; [exact Hacc|]. split; [exact Hf|]. split; [exact Hc|].
    split; [exact Ha|]. split; [exact Hb | reflexivity].
  - rewrite (post_of_is_valid_login env data db _ Hi) in Hr.
    injection Hr as <-. discriminate.
Qed.

Lemma X11_witness :
  status (logged_in sample_env sample_user) = HTTP_200_OK /\
  exists e p u,
    login_accepted sample_env (login_data "testuser@example.com" "TestPass123!") e p /\
    find (fun r => String.eqb (email r) (PyStr.strip e)) (rows sample_db) = Some u /\
    check_password sample_env (PyStr.strip p) (password u) = true /\
    is_active u = true /\
    (exists b, In b (AUTHENTICATION_BACKENDS sample_env) /\
               user_can_authenticate b u = true) /\
    logged_in sample_env sample_user = logged_in sample_env u.
Proof.
  split; [reflexivity|].
  apply (X11_login_soundness sample_env
           (login_data "testuser@example.com" "TestPass123!") sample_db
           (logged_in sample_env sample_user)); reflexivity.
Defined.

(** X12: the login handler never raises and never changes the table, and
    it has four kinds of answer: 200 with the tokens of an active stored
    row, 400 "Invalid email or password.", 400 "User account is disabled.",
    and 400 with errors under [email] or [password] only.  So the third
    message of the serializer, "Must provide email and password.", is never
    answered. *)
Theorem X12_login_answers :
  forall env data db,
    same_table db (snd (UserLoginView.post env data db)) /\
    ((exists u, In u (rows db) /\ is_active u = true /\
                fst (UserLoginView.post env data db) = Returned (logged_in env u))
     \/ fst (UserLoginView.post env data db) = Returned invalid_credentials
     \/ fst (UserLoginView.post env data db) = Returned account_disabled
     \/ (exists errors,
           errors <> [] /\ Forall login_key errors /\
           fst (UserLoginView.post env data db)
             = Returned (mkResponse HTTP_400_BAD_REQUEST (B_errors errors)))) /\
    fst (UserLoginView.post env data db)
      <> Returned (mkResponse HTTP_400_BAD_REQUEST
                     (B_errors [("non_field_errors",
                                 DList [UserLoginSerializer.MSG_MISSING])])).
Proof.
  intros env data db.
  assert (Hc : (exists u, In u (rows db) /\ is_active u = true /\
                  fst (UserLoginView.post env data db) = Returned (logged_in env u))
     \/ fst (UserLoginView.post env data db) = Returned invalid_credentials
     \/ fst (UserLoginView.post env data db) = Returned account_disabled
     \/ (exists errors,
           errors <> [] /\ Forall login_key errors /\
           fst (UserLoginView.post env data db)
             = Returned (mkResponse HTTP_400_BAD_REQUEST (B_errors errors)))).
  { destruct (is_valid_cases_login env data db)
      as [(e & p & Hacc & _)|(errors & Hne & Hk & Hi & _)].
    - rewrite (post_accepted_login env data e p db Hacc).
      unfold authenticated.
      destruct (find _ (rows db)) as [u|] eqn:Hf; [|auto].
      destruct (_ && _); [|auto].
      destruct (is_active u) eqn:Ha; [|auto].
      left. exists u. apply find_some in Hf. now repeat split.
    - right. right. right. exists errors.
      now rewrite (post_of_is_valid_login env data db _ Hi). }
  split; [apply (post_read_only_login env data db)|]. split; [exact Hc|].
  destruct Hc as [(u & _ & _ & ->)|[->|[->|(errors & _ & Hk & ->)]]];
    try discriminate.
  intros [= ->]. apply Forall_inv in Hk. destruct Hk; discriminate.
Qed.

(** X13: when every configured backend refuses inactive users, which is
    Django's default, "User account is disabled." is never answered,
    whatever the request and the table. *)
Theorem X13_disabled_message_unreachable :
  forall env data db,
    (forall b, In b (AUTHENTICATION_BACKENDS env) -> b = ModelBackend) ->
    fst (UserLoginView.post env data db) <> Returned account_disabled.
Proof.
  intros env data db Hb.
  destruct (is_valid_cases_login env data db)
    as [(e & p & Hacc & _)|(errors & _ & Hk & Hi & _)].
  - rewrite (post_accepted_login env data e p db Hacc).
    unfold authenticated.
    destruct (find _ (rows db)) as [u|]; [|discriminate].
    destruct (check_password env _ _); simpl; [|discriminate].
    destruct (existsb _ _) eqn:Hx; [|discriminate].
    apply existsb_exists in Hx as (b & Hin & Hcan).
    rewrite (Hb b Hin) in Hcan. simpl in Hcan. rewrite Hcan. discriminate.
  - rewrite (post_of_is_valid_login env data db _ Hi).
    intros [= ->]. apply Forall_inv in Hk. destruct Hk; discriminate.
Qed.

Lemma X13_witness :
  (forall b, In b (AUTHENTICATION_BACKENDS sample_env) -> b = ModelBackend) /\
  fst (UserLoginView.post sample_env
         (login_data "disabled@example.com" "TestPass123!") disabled_db)
    <> Returned account_disabled.
Proof.
  assert (H : forall b, In b (AUTHENTICATION_BACKENDS sample_env) -> b = ModelBackend).
  { intros b [<-|[]]. reflexivity. }
  split; [exact H|].
  exact (X13_disabled_message_unreachable sample_env _ disabled_db H).
Defined.

(** ** Registration, then login *)

Lemma lower_char_null c : Ascii.eqb (PyStr.lower_char c) zero = Ascii.eqb c zero.
Proof. destruct c as [[] [] [] [] [] [] [] []]; reflexivity. Qed.

Lemma has_null_char_lower s : has_null_char (PyStr.lower s) = has_null_char s.
Proof.
  unfold has_null_char. induction s as [|c r IH]; simpl; [reflexivity|].
  now rewrite lower_char_null, IH.
Qed.

Lemma truthy_lower s : PyStr.truthy (PyStr.lower s) = PyStr.truthy s.
Proof. destruct s; reflexivity. Qed.

Lemma strip_lower_strip s :
  PyStr.strip (PyStr.lower (PyStr.strip s)) = PyStr.lower (PyStr.strip s).
Proof. now rewrite <- lower_strip, strip_idem. Qed.

Lemma find_none_of_existsb {A} (f : A -> bool) l : existsb f l = false -> find f l = None.
Proof.
  induction l as [|a l IH]; simpl; [reflexivity|].
  destruct (f a); [discriminate | exact IH].
Qed.

Lemma find_app_new {A} (f : A -> bool) l a :
  existsb f l = false -> find f (l ++ [a]) = if f a then Some a else None.
Proof.
  induction l as [|b l IH]; simpl; [reflexivity|].
  destruct (f b); [discriminate | exact IH].
Qed.

(** The password of an accepted registration passes the login field. *)
Lemma accepted_password_clean env p : password_accepted env p -> clean_ok p = true.
Proof.
  intros (Hn & Hlen & _). unfold clean_ok. rewrite Hn.
  assert (Ht : PyStr.truthy (PyStr.strip p) = true) by (apply truthy_length; lia).
  now rewrite Ht.
Qed.

(** X14: a user who has just registered can log in: on a table that did
    not hold the address, with a hasher that verifies what it encodes and
    at least one backend configured, the login with the registered address
    in lower case and the registered password answers 200 with the tokens
    and the profile of the row that the registration stored. *)
Theorem X14_register_then_login :
  forall env data e p db,
    registration_accepted env db data e p ->
    existsb (fun r => String.eqb (email r) (PyStr.lower (PyStr.strip e))) (rows db)
      = false ->
    check_password env (PyStr.strip p) (make_password env (PyStr.strip p)) = true ->
    email_ok env (PyStr.lower (PyStr.strip e)) = true ->
    AUTHENTICATION_BACKENDS env <> [] ->
    fst (UserLoginView.post env (login_data (PyStr.lower (PyStr.strip e)) p)
           (snd (UserRegistrationView.post env data db)))
      = Returned (logged_in env (registered_user env db data e p)).
Proof.
  intros env data e p db Hacc Hfree Hhash Hok Hb.
  pose proof (post_accepted env data e p db Hacc) as Hreg.
  rewrite Hfree in Hreg. destruct Hreg as [_ Hrows].
  destruct Hacc as (_ & _ & _ & (Hte & _ & _ & Hne & _) & Hpa & _).
  assert (Hlog : login_accepted env (login_data (PyStr.lower (PyStr.strip e)) p)
                   (PyStr.lower (PyStr.strip e)) p).
  { split; [reflexivity|]. split; [reflexivity|].
    unfold login_fields_pass, clean_ok.
    rewrite strip_lower_strip, truthy_lower, Hte, has_null_char_lower, Hne, Hok.
    simpl. now apply accepted_password_clean with (env := env). }
  rewrite (post_accepted_login env _ _ _ _ Hlog).
  unfold authenticated. rewrite strip_lower_strip, Hrows, (find_app_new _ _ _ Hfree).
  simpl. rewrite String.eqb_refl. simpl. rewrite Hhash. simpl.
  destruct (AUTHENTICATION_BACKENDS env) as [|[] rest]; [now elim Hb | |]; reflexivity.
Qed.

Lemma X14_witness :
  registration_accepted sample_env sample_db sample_registration
    "  NewUser@Example.com " "TestPass123!" /\
  fst (UserLoginView.post sample_env (login_data "newuser@example.com" "TestPass123!")
         (snd (UserRegistrationView.post sample_env sample_registration sample_db)))
    = Returned (mkResponse HTTP_200_OK
                  (B_tokens "access:newuser@example.com" "refresh:newuser@example.com"
                     (mkProfile "newuser@example.com" (Some "Jane") (Some "Smith") 1 1))).
Proof.
  split; [exact sample_registration_accepted|].
  apply (X14_register_then_login sample_env sample_registration
           "  NewUser@Example.com " "TestPass123!" sample_db
           sample_registration_accepted); try reflexivity.
  discriminate.
Defined.

(** X15: registration stores the address in lower case but login looks it
    up as typed: after a registration with an address that has an
    upper-case letter, the login with that same address and password is
    answered "Invalid email or password.". *)
Theorem X15_login_is_case_sensitive :
  forall env data e p db,
    registration_accepted env db data e p ->
    existsb (fun r => String.eqb (email r) (PyStr.lower (PyStr.strip e))) (rows db)
      = false ->
    PyStr.lower (PyStr.strip e) <> PyStr.strip e ->
    fst (UserLoginView.post env (login_data e p)
           (snd (UserRegistrationView.post env data db)))
      = Returned invalid_credentials.
Proof.
  intros env data e p db Hacc Hfree Hcase.
  pose proof (post_accepted env data e p db Hacc) as Hreg.
  rewrite Hfree in Hreg. destruct Hreg as [_ Hrows].
  destruct Hacc as (_ & _ & _ & (Hte & Hx & _ & Hne & Hok) & Hpa & _).
  assert (Hlog : login_accepted env (login_data e p) e p).
  { split; [reflexivity|]. split; [reflexivity|].
    unfold login_fields_pass, clean_ok. rewrite Hte, Hne, Hok. simpl.
    now apply accepted_password_clean with (env := env). }
  rewrite (post_accepted_login env _ _ _ _ Hlog).
  unfold authenticated. rewrite Hrows, (find_app_new _ _ _ Hx). simpl.
  destruct (String.eqb_spec (PyStr.lower (PyStr.strip e)) (PyStr.strip e)) as [Heq|_];
    [now elim Hcase | reflexivity].
Qed.

Lemma X15_witness :
  registration_accepted sample_env sample_db sample_registration
    "  NewUser@Example.com " "TestPass123!" /\
  fst (UserLoginView.post sample_env (login_data "  NewUser@Example.com " "TestPass123!")
         (snd (UserRegistrationView.post sample_env sample_registration sample_db)))
    = Returned invalid_credentials.
Proof.
  split; [exact sample_registration_accepted|].
  apply (X15_login_is_case_sensitive sample_env sample_registration
           "  NewUser@Example.com " "TestPass123!" sample_db
           sample_registration_accepted); [reflexivity|].
  vm_compute. discriminate.
Defined.

(** ** Profile update: what is accepted and what is stored *)

Lemma set_attrs_profile (u : User) data now :
  match UserProfileSerializer.set_attrs u (profile_attrs data) with
  | Some u' =>
      mkUser (pk u') (email u') (password u') (first_name u') (last_name u')
        (is_active u') (is_staff u') (is_superuser u') (created_at u') now
      = updated_user u data now
  | None => False
  end.
Proof.
  unfold profile_attrs, updated_user, name_entry, cleaned_name.
  destruct (lookup "email" data) as [[|e]|],
           (lookup "first_name" data) as [[|f]|],
           (lookup "last_name" data) as [[|l]|]; reflexivity.
Qed.

Lemma in_replace_row_other saved l r :
  pk r <> pk saved -> (In r (replace_row saved l) <-> In r l).
Proof.
  intros Hne. unfold replace_row. rewrite in_map_iff. split.
  - intros (r0 & Hr & Hin).
    destruct (Nat.eqb_spec (pk r0) (pk saved)); subst; [now elim Hne | exact Hin].
  - intros Hin. exists r. split; [|exact Hin].
    destruct (Nat.eqb_spec (pk r) (pk saved)); [now elim Hne | reflexivity].
Qed.

Lemma existsb_pk_of_in (l : list User) u : In u l -> existsb (fun r => pk r =? pk u) l = true.
Proof.
  intros Hin. apply existsb_exists. exists u. split; [exact Hin | apply Nat.eqb_refl].
Qed.

Section ProfileDecided.

Variable env : Env.
Variable user : User.

Import UserProfileSerializer.

Lemma profile_email_accepted_dec partial db v :
  profile_email_accepted env user partial db v \/
  ~ profile_email_accepted env user partial db v.
Proof.
  destruct v as [[|e]|]; simpl; [tauto| |destruct partial; [now left | right; discriminate]].
  destruct (PyStr.truthy (PyStr.strip e)),
           (existsb _ (rows db)),
           (le_dec (String.length (PyStr.strip e)) 254),
           (has_null_char (PyStr.strip e)),
           (email_ok env (PyStr.strip e));
    try (left; repeat split; trivial; fail);
    right; intros (H1 & H2 & H3 & H4 & H5); first [discriminate | contradiction].
Qed.

(** The [email] field passes exactly on an accepted address, which it
    trims; an update that is partial skips an absent key. *)
Lemma profile_email_passes partial data db :
  (profile_email_accepted env user partial db (lookup "email" data) ->
   fst (run_field env (email_field (Some user)) partial data db) =
     Returned (match lookup "email" data with
               | Some (JStr e) => Validated (Some (PyStr.strip e))
               | _ => SkipField
               end)) /\
  (~ profile_email_accepted env user partial db (lookup "email" data) ->
   exists detail,
     fst (run_field env (email_field (Some user)) partial data db)
       = Returned (Invalid detail)).
Proof.
  unfold run_field, run_validation, profile_email_accepted; simpl.
  destruct (lookup "email" data) as [[|e]|]; run_store.
  - split; [tauto | eauto].
  - destruct (PyStr.truthy (PyStr.strip e)) eqn:Ht; run_store.
    2:{ split; [intros (H & _); discriminate | eauto]. }
    unfold filter_email_exclude_exists. run_store.
    destruct (existsb _ (rows db)) eqn:Hx,
             (Nat.ltb_spec 254 (String.length (PyStr.strip e))) as [Hlen|Hlen],
             (has_null_char (PyStr.strip e)) eqn:Hn,
             (email_ok env (PyStr.strip e)) eqn:Hok; simpl;
      try (split; [intros (_ & H2 & H3 & H4 & H5); first [discriminate | lia] | eauto]).
    unfold validate_email, filter_email_exclude_exists. run_store. rewrite Hx. simpl.
    split; [reflexivity|]. intros Hnot. elim Hnot. auto.
  - destruct partial; simpl.
    + split; [reflexivity | intros H; now elim H].
    + split; [discriminate | eauto].
Qed.

(** A name field never asks for its key, partial or not; it fails exactly
    on a name longer than 30 characters after trimming or with a null
    character. *)
Lemma profile_name_passes (f : Field) partial data db :
  f = first_name_field \/ f = last_name_field ->
  (name_accepted (lookup (field_name f) data) ->
   fst (run_field env f partial data db) =
     Returned (match cleaned_name (lookup (field_name f) data) with
               | Some v => Validated v
               | None => SkipField
               end)) /\
  (~ name_accepted (lookup (field_name f) data) ->
   exists detail, fst (run_field env f partial data db) = Returned (Invalid detail)).
Proof.
  intros Hf.
  assert (G : forall name,
             (name_accepted (lookup name data) ->
              fst (run_field env (mkField name
                                   (mkCharField false true true
                                      [MaxLengthValidator 30 MSG_MAX_30;
                                       ProhibitNullCharactersValidator]) None)
                     partial data db) =
              Returned (match cleaned_name (lookup name data) with
                        | Some v => Validated v
                        | None => SkipField
                        end)) /\
             (~ name_accepted (lookup name data) ->
              exists detail,
                fst (run_field env (mkField name
                                     (mkCharField false true true
                                        [MaxLengthValidator 30 MSG_MAX_30;
                                         ProhibitNullCharactersValidator]) None)
                       partial data db) = Returned (Invalid detail))).
  { intros name. unfold run_field, run_validation, name_accepted, cleaned_name; simpl.
    destruct (lookup name data) as [[|n]|]; run_store.
    - split; [reflexivity | tauto].
    - destruct (PyStr.truthy (PyStr.strip n)) eqn:Ht; run_store.
      + destruct (Nat.ltb_spec 30 (String.length (PyStr.strip n))) as [Hlen|Hlen],
                 (has_null_char (PyStr.strip n)) eqn:Hn; simpl;
          (split; [intros [Hl' Hn']; first [reflexivity | congruence | lia]
                  | intros Hnot; first [now eexists | elim Hnot; split; [lia | reflexivity]]]).
      + apply truthy_false in Ht. rewrite Ht. simpl.
        split; [reflexivity|]. intros Hnot. elim Hnot. split; [lia | reflexivity].
    - destruct partial; (split; [reflexivity | tauto]). }
  destruct Hf as [-> | ->]; apply G.
Qed.

(** [is_valid] never raises: it answers with the validated data of an
    accepted update, or with errors under the keys of the fields. *)
Lemma is_valid_cases_profile partial data db :
  (profile_accepted env user partial db data /\
   fst (is_valid env (Some user) partial data db) = Returned (inr (profile_attrs data)))
  \/ (exists errors,
         errors <> [] /\ Forall profile_key errors /\
         fst (is_valid env (Some user) partial data db) = Returned (inl errors) /\
         ~ profile_accepted env user partial db data).
Proof.
  destruct (fields_outcome_profile env user partial data db)
    as (o1 & o2 & o3 & E1 & E2 & E3 & T).
  pose proof (fun errors attrs =>
                is_valid_outcome env (fields (Some user)) partial validate
                  (fields_well_behaved_profile user) validate_read_only_profile
                  data db errors attrs) as Hout.
  fold (is_valid env (Some user) partial data) in Hout.
  destruct (profile_email_passes partial data db) as [P1 N1].
  destruct (profile_name_passes first_name_field partial data db (or_introl eq_refl))
    as [P2 N2].
  destruct (profile_name_passes last_name_field partial data db (or_intror eq_refl))
    as [P3 N3].
  simpl in P2, N2, P3, N3.
  assert (Hkeys : forall (x1 x2 x3 : field_outcome),
             Forall profile_key
               (fst (file_outcome "email" x1
                       (file_outcome "first_name" x2
                          (file_outcome "last_name" x3 ([], [])))))).
  { intros [|v1|d1] [|v2|d2] [|v3|d3]; simpl;
      repeat (constructor; [unfold profile_key; simpl; tauto|]); constructor. }
  assert (Hrefuse : forall errors attrs,
             fst (to_internal_value env (fields (Some user)) partial data db)
               = Returned (errors, attrs) ->
             errors <> [] -> Forall profile_key errors ->
             ~ profile_accepted env user partial db data ->
             exists errors,
               errors <> [] /\ Forall profile_key errors /\
               fst (is_valid env (Some user) partial data db) = Returned (inl errors) /\
               ~ profile_accepted env user partial db data).
  { intros errors attrs HT Hne Hk Hna. exists errors. split; [exact Hne|].
    split; [exact Hk|]. split; [|exact Hna]. rewrite (Hout _ _ HT).
    destruct errors; [now elim Hne | reflexivity]. }
  destruct (profile_email_accepted_dec partial db (lookup "email" data)) as [A1|A1].
  2:{ right. destruct (N1 A1) as (d1 & E1'). rewrite E1 in E1'. injection E1' as ->.
      pose proof (Hkeys (Invalid d1) o2 o3) as Hk.
      destruct (file_outcome _ _ _) as [errors attrs] eqn:Er in T.
      assert (Hf : fst (file_outcome "email" (Invalid d1)
                          (file_outcome "first_name" o2
                             (file_outcome "last_name" o3 ([], [])))) = errors)
        by now rewrite Er.
      apply (Hrefuse errors attrs T).
      - rewrite <- Hf. discriminate.
      - rewrite <- Hf. exact Hk.
      - intros (Ha & _). contradiction. }
  rewrite (P1 A1) in E1. injection E1 as <-.
  destruct (name_accepted_dec (lookup "first_name" data)) as [A2|A2].
  2:{ right. destruct (N2 A2) as (d2 & E2'). rewrite E2 in E2'. injection E2' as ->.
      match type of T with context [file_outcome "email" ?x _] =>
        pose proof (Hkeys x (Invalid d2) o3) as Hk end.
      destruct (file_outcome _ _ _) as [errors attrs] eqn:Er in T.
      apply (Hrefuse errors attrs T).
      - destruct (lookup "email" data) as [[|e]|]; simpl in Er;
          injection Er as <- _; discriminate.
      - rewrite Er in Hk. exact Hk.
      - intros (_ & Ha & _). contradiction. }
  rewrite (P2 A2) in E2. injection E2 as <-.
  destruct (name_accepted_dec (lookup "last_name" data)) as [A3|A3].
  2:{ right. destruct (N3 A3) as (d3 & E3'). rewrite E3 in E3'. injection E3' as ->.
      match type of T with
        context [file_outcome "email" ?x (file_outcome "first_name" ?y _)] =>
        pose proof (Hkeys x y (Invalid d3)) as Hk end.
      destruct (file_outcome _ _ _) as [errors attrs] eqn:Er in T.
      apply (Hrefuse errors attrs T).
      - destruct (lookup "email" data) as [[|e]|],
                 (cleaned_name (lookup "first_name" data)) as [v2|]; simpl in Er;
          injection Er as <- _; discriminate.
      - rewrite Er in Hk. exact Hk.
      - intros (_ & _ & Ha). contradiction. }
  rewrite (P3 A3) in E3. injection E3 as <-.
  left. split; [now repeat split|].
  destruct (file_outcome _ _ _) as [errors attrs] eqn:Er in T.
  rewrite (Hout _ _ T).
  unfold profile_attrs, name_entry.
  destruct (lookup "email" data) as [[|e]|],
           (cleaned_name (lookup "first_name" data)) as [v2|],
           (cleaned_name (lookup "last_name" data)) as [v3|]; simpl in Er;
    injection Er as <- <-; reflexivity.
Qed.

(** The handler on an accepted update: [save] decides. *)
Lemma update_with_accepted partial data db :
  profile_accepted env user partial db data ->
  if existsb (fun r => String.eqb (email r) (email (updated_user user data (clock db)))
                       && negb (pk r =? pk user)) (rows db)
  then fst (UserProfileView.update_with env partial user data db)
         = Raised (IntegrityError UNIQUE_FAILED) /\
       rows (snd (UserProfileView.update_with env partial user data db)) = rows db
  else fst (UserProfileView.update_with env partial user data db)
         = Returned (mkResponse HTTP_200_OK
                       (B_profile (to_representation (updated_user user data (clock db)))))
       /\ rows (snd (UserProfileView.update_with env partial user data db))
          = (if existsb (fun r => pk r =? pk user) (rows db)
             then replace_row (updated_user user data (clock db)) (rows db)
             else rows db ++ [updated_user user data (clock db)]).
Proof.
  intros Hacc.
  destruct (update_with_cases env user partial data db)
    as (db1 & (Hr & _ & Hc) & [(errors & Hi & _)|(attrs & Hi & ->)]).
  { destruct (is_valid_cases_profile partial data db)
      as [(_ & Hi')|(errs & _ & _ & _ & Hna)]; [congruence | contradiction]. }
  destruct (is_valid_cases_profile partial data db)
    as [(_ & Hi')|(errs & _ & _ & _ & Hna)]; [|contradiction].
  rewrite Hi in Hi'. injection Hi' as ->.
  unfold update, bind.
  pose proof (set_attrs_profile user data (clock db1)) as Hset.
  destruct (set_attrs user (profile_attrs data)) as [u|]; [|contradiction].
  unfold save_update. run_store. rewrite Hset, <- Hr, <- Hc.
  assert (Hpk : pk u = pk user) by (now injection Hset).
  assert (Hem : email u = email (updated_user user data (clock db)))
    by (now injection Hset).
  rewrite Hpk, Hem.
  destruct (existsb _ (rows db)); simpl; split; reflexivity.
Qed.

(** An error of the [email] field is reported under [email], and nothing
    is stored. *)
Lemma profile_email_error_reported partial data db detail :
  fst (run_field env (email_field (Some user)) partial data db)
    = Returned (Invalid detail) ->
  exists errors,
    fst (UserProfileView.update_with env partial user data db)
      = Returned (mkResponse HTTP_400_BAD_REQUEST (B_errors errors)) /\
    lookup "email" errors = Some detail /\
    same_table db (snd (UserProfileView.update_with env partial user data db)).
Proof.
  intros Hf.
  destruct (fields_outcome_profile env user partial data db)
    as (o1 & o2 & o3 & E1 & _ & _ & T).
  rewrite Hf in E1. injection E1 as <-.
  pose proof (is_valid_outcome env (fields (Some user)) partial validate
                (fields_well_behaved_profile user) validate_read_only_profile
                data db _ _ T) as Hi.
  fold (is_valid env (Some user) partial data) in Hi. simpl in Hi.
  destruct (update_with_cases env user partial data db)
    as (db1 & Hs & [(errors & Hi' & ->)|(attrs & Hi' & _)]);
    rewrite Hi in Hi'; [|discriminate].
  injection Hi' as <-. eexists. split; [reflexivity|]. split; [|exact Hs].
  simpl. reflexivity.
Qed.

End ProfileDecided.

Lemma sample_update_accepted :
  profile_accepted sample_env sample_user false two_users_db sample_update.
Proof.
  split; [|split; exact I]. simpl.
  split; [reflexivity|]. split; [reflexivity|]. split; [vm_compute; lia|].
  split; reflexivity.
Qed.

Lemma two_users_unique : unique_emails two_users_db.
Proof.
  intros r1 r2 H1 H2. vm_compute in H1, H2.
  destruct H1 as [<-|[<-|[]]], H2 as [<-|[<-|[]]]; simpl; intros H;
    first [reflexivity | discriminate H].
Qed.

(** X16: on a table with unique addresses, an update of the profile of a
    stored user that the serializer accepts answers 200 with the saved
    profile, and the table differs only in the row of that user, which has
    the submitted address and names, trimmed (the address as typed, not in
    lower case), the time of the save as [updated_at], and the key,
    password, flags and [created_at] it had. *)
Theorem X16_profile_update_of_accepted_request :
  forall env user partial data db,
    In user (rows db) -> unique_emails db ->
    profile_accepted env user partial db data ->
    fst (UserProfileView.update_with env partial user data db)
      = Returned (mkResponse HTTP_200_OK
                    (B_profile (to_representation (updated_user user data (clock db))))) /\
    rows (snd (UserProfileView.update_with env partial user data db))
      = replace_row (updated_user user data (clock db)) (rows db).
Proof.
  intros env user partial data db Hin Hu Hacc.
  pose proof (update_with_accepted env user partial data db Hacc) as H.
  assert (Hfree : existsb (fun r => String.eqb (email r)
                                      (email (updated_user user data (clock db)))
                                    && negb (pk r =? pk user)) (rows db) = false).
  { destruct Hacc as (He & _). unfold updated_user; simpl.
    destruct (lookup "email" data) as [[|e]|]; simpl in He;
      [contradiction | apply He |].
    apply no_conflict. intros r Hr Heq. now apply Hu. }
  rewrite Hfree, (existsb_pk_of_in _ _ Hin) in H. exact H.
Qed.

Lemma X16_witness :
  In sample_user (rows two_users_db) /\
  fst (UserProfileView.put sample_env sample_user sample_update two_users_db)
    = Returned (mkResponse HTTP_200_OK
                  (B_profile (mkProfile "New.Address@Example.com" None (Some "User") 0 2)))
  /\ rows (snd (UserProfileView.put sample_env sample_user sample_update two_users_db))
     = [mkUser 1 "New.Address@Example.com" "plain$TestPass123!" None (Some "User")
          true false false 0 2;
        mkUser 2 "other@example.com" "plain$OtherPass123!" None None
          true false false 1 1].
Proof.
  assert (Hin : In sample_user (rows two_users_db)) by (left; reflexivity).
  split; [exact Hin|].
  exact (X16_profile_update_of_accepted_request sample_env sample_user false
           sample_update two_users_db Hin two_users_unique sample_update_accepted).
Defined.

(** X17: an update of the profile that the serializer does not accept is
    answered 400 with errors under [email], [first_name] or [last_name]
    only, and the table is as before. *)
Theorem X17_profile_update_refused :
  forall env user partial data db,
    ~ profile_accepted env user partial db data ->
    exists errors,
      errors <> [] /\ Forall profile_key errors /\
      fst (UserProfileView.update_with env partial user data db)
        = Returned (mkResponse HTTP_400_BAD_REQUEST (B_errors errors)) /\
      same_table db (snd (UserProfileView.update_with env partial user data db)).
Proof.
  intros env user partial data db Hna.
  destruct (is_valid_cases_profile env user partial data db)
    as [(Hacc & _)|(errors & Hne & Hk & Hi & _)]; [contradiction|].
  destruct (update_with_cases env user partial data db)
    as (db1 & Hs & [(errs & Hi' & Hu)|(attrs & Hi' & _)]);
    rewrite Hi in Hi'; [|discriminate].
  injection Hi' as <-. exists errors. rewrite Hu.
  split; [exact Hne|]. split; [exact Hk|]. split; [reflexivity | exact Hs].
Qed.

Lemma X17_witness :
  ~ profile_accepted sample_env sample_user false sample_db
      [("first_name", JStr "Jane")] /\
  exists errors,
    errors <> [] /\ Forall profile_key errors /\
    fst (UserProfileView.update_with sample_env false sample_user
           [("first_name", JStr "Jane")] sample_db)
      = Returned (mkResponse HTTP_400_BAD_REQUEST (B_errors errors)) /\
    same_table sample_db
      (snd (UserProfileView.update_with sample_env false sample_user
              [("first_name", JStr "Jane")] sample_db)).
Proof.
  assert (H : ~ profile_accepted sample_env sample_user false sample_db
                [("first_name", JStr "Jane")])
    by (intros (He & _); discriminate He).
  split; [exact H|].
  exact (X17_profile_update_refused sample_env sample_user false _ sample_db H).
Defined.

(** X18: the address of a profile cannot be removed: a PUT without the
    [email] key is answered "This field is required.", and an update, full
    or partial, with a null or a blank address is answered "This field may
    not be null." or "This field may not be blank."; each under [email],
    with status 400 and the table as before. *)
Theorem X18_profile_email_cannot_be_removed :
  forall env user data db,
    (lookup "email" data = None ->
     exists errors,
       fst (UserProfileView.put env user data db)
         = Returned (mkResponse HTTP_400_BAD_REQUEST (B_errors errors)) /\
       lookup "email" errors = Some (DList [MSG_REQUIRED]) /\
       same_table db (snd (UserProfileView.put env user data db))) /\
    (forall partial,
        lookup "email" data = Some JNull ->
        exists errors,
          fst (UserProfileView.update_with env partial user data db)
            = Returned (mkResponse HTTP_400_BAD_REQUEST (B_errors errors)) /\
          lookup "email" errors = Some (DList [MSG_NULL]) /\
          same_table db (snd (UserProfileView.update_with env partial user data db))) /\
    (forall partial e,
        lookup "email" data = Some (JStr e) ->
        PyStr.truthy (PyStr.strip e) = false ->
        exists errors,
          fst (UserProfileView.update_with env partial user data db)
            = Returned (mkResponse HTTP_400_BAD_REQUEST (B_errors errors)) /\
          lookup "email" errors = Some (DList [MSG_BLANK]) /\
          same_table db (snd (UserProfileView.update_with env partial user data db))).
Proof.
  intros env user data db. split; [|split].
  - intros Hl. unfold UserProfileView.put.
    apply (profile_email_error_reported env user false data db).
    unfold run_field, run_validation; simpl. now rewrite Hl.
  - intros partial Hl.
    apply (profile_email_error_reported env user partial data db).
    unfold run_field, run_validation; simpl. now rewrite Hl.
  - intros partial e Hl Ht.
    apply (profile_email_error_reported env user partial data db).
    unfold run_field, run_validation; simpl. now rewrite Hl, Ht.
Qed.

Lemma X18_witness :
  exists errors,
    fst (UserProfileView.put sample_env sample_user [("first_name", JStr "Jane")] sample_db)
      = Returned (mkResponse HTTP_400_BAD_REQUEST (B_errors errors)) /\
    lookup "email" errors = Some (DList [MSG_REQUIRED]) /\
    same_table sample_db
      (snd (UserProfileView.put sample_env sample_user [("first_name", JStr "Jane")]
              sample_db)).
Proof.
  apply (proj1 (X18_profile_email_cannot_be_removed sample_env sample_user
                  [("first_name", JStr "Jane")] sample_db)).
  reflexivity.
Defined.

(** X19: an update of the profile, full or partial, to an address that
    another row holds letter for letter is answered 400 with "A user with
    that email already exists." first under [email], and the table is as
    before. *)
Theorem X19_profile_update_duplicate_address :
  forall env user partial data db e,
    lookup "email" data = Some (JStr e) ->
    PyStr.truthy (PyStr.strip e) = true ->
    existsb (fun r => String.eqb (email r) (PyStr.strip e) && negb (pk r =? pk user))
      (rows db) = true ->
    exists errors more,
      fst (UserProfileView.update_with env partial user data db)
        = Returned (mkResponse HTTP_400_BAD_REQUEST (B_errors errors)) /\
      lookup "email" errors = Some (DList (MSG_UNIQUE :: more)) /\
      same_table db (snd (UserProfileView.update_with env partial user data db)).
Proof.
  intros env user partial data db e Hl Ht Hx.
  assert (Hf : exists more,
             fst (run_field env (UserProfileSerializer.email_field (Some user))
                    partial data db)
             = Returned (Invalid (DList (MSG_UNIQUE :: more)))).
  { unfold run_field, run_validation; simpl. rewrite Hl, Ht. run_store.
    unfold filter_email_exclude_exists. run_store. rewrite Hx. simpl. eauto. }
  destruct Hf as (more & Hf).
  destruct (profile_email_error_reported env user partial data db _ Hf)
    as (errors & H). exists errors, more. exact H.
Qed.

Lemma X19_witness :
  exists errors more,
    fst (UserProfileView.patch sample_env sample_user
           [("email", JStr "other@example.com ")] two_users_db)
      = Returned (mkResponse HTTP_400_BAD_REQUEST (B_errors errors)) /\
    lookup "email" errors = Some (DList (MSG_UNIQUE :: more)) /\
    same_table two_users_db
      (snd (UserProfileView.patch sample_env sample_user
              [("email", JStr "other@example.com ")] two_users_db)).
Proof.
  apply (X19_profile_update_duplicate_address sample_env sample_user true
           [("email", JStr "other@example.com ")] two_users_db "other@example.com ");
    reflexivity.
Defined.

(** X20: on a table with unique addresses the update of the profile of a
    stored user never raises: it answers 200 or 400, whatever the request.
    Neither the unique constraint nor the not-null constraint of the
    address can fail in [save]. *)
Theorem X20_profile_update_never_raises :
  forall env user partial data db,
    In user (rows db) -> unique_emails db ->
    exists resp,
      fst (UserProfileView.update_with env partial user data db) = Returned resp /\
      (status resp = HTTP_200_OK \/ status resp = HTTP_400_BAD_REQUEST).
Proof.
  intros env user partial data db Hin Hu.
  destruct (is_valid_cases_profile env user partial data db)
    as [(Hacc & _)|(errors & _ & _ & Hi & _)].
  - pose proof (update_with_accepted env user partial data db Hacc) as H.
    assert (Hfree : existsb (fun r => String.eqb (email r)
                                        (email (updated_user user data (clock db)))
                                      && negb (pk r =? pk user)) (rows db) = false).
    { destruct Hacc as (He & _). unfold updated_user; simpl.
      destruct (lookup "email" data) as [[|e]|]; simpl in He;
        [contradiction | apply He |].
      apply no_conflict. intros r Hr Heq. now apply Hu. }
    rewrite Hfree in H. destruct H as [H _]. eexists. split; [exact H | now left].
  - destruct (update_with_cases env user partial data db)
      as (db1 & _ & [(errs & _ & Hr)|(attrs & Hi' & _)]).
    + rewrite Hr. eexists. split; [reflexivity | now right].
    + rewrite Hi in Hi'. discriminate.
Qed.

Lemma X20_witness :
  exists resp,
    fst (UserProfileView.update_with sample_env true sample_user sample_update
           two_users_db) = Returned resp /\
    (status resp = HTTP_200_OK \/ status resp = HTTP_400_BAD_REQUEST).
Proof.
  apply (X20_profile_update_never_raises sample_env sample_user true sample_update
           two_users_db); [left; reflexivity | exact two_users_unique].
Defined.

(** X21: whatever the request, an update of the profile of a stored user
    leaves every other row as it was and keeps the key, the password, the
    three flags and [created_at] of the row of that user: no request body
    can change them. *)
Theorem X21_profile_update_frame :
  forall env user partial data db,
    stored (pk user) db = Some user ->
    (forall r, pk r <> pk user ->
               (In r (rows (snd (UserProfileView.update_with env partial user data db)))
                <-> In r (rows db))) /\
    exists u,
      stored (pk user) (snd (UserProfileView.update_with env partial user data db))
        = Some u /\
      pk u = pk user /\ password u = password user /\
      is_active u = is_active user /\ is_staff u = is_staff user /\
      is_superuser u = is_superuser user /\ created_at u = created_at user.
Proof.
  intros env user partial data db Hs.
  assert (Hsame : rows (snd (UserProfileView.update_with env partial user data db))
                  = rows db ->
                  (forall r, pk r <> pk user ->
                     (In r (rows (snd (UserProfileView.update_with env partial user
                                         data db))) <-> In r (rows db))) /\
                  exists u,
                    stored (pk user)
                      (snd (UserProfileView.update_with env partial user data db))
                      = Some u /\
                    pk u = pk user /\ password u = password user /\
                    is_active u = is_active user /\ is_staff u = is_staff user /\
                    is_superuser u = is_superuser user /\
                    created_at u = created_at user).
  { intros Hr. split; [intros r _; now rewrite Hr|].
    exists user. unfold stored in *. rewrite Hr. now repeat split. }
  destruct (is_valid_cases_profile env user partial data db)
    as [(Hacc & _)|(errors & _ & _ & Hi & _)].
  - pose proof (update_with_accepted env user partial data db Hacc) as H.
    destruct (existsb _ (rows db)); [apply Hsame, H|].
    destruct H as [_ Hr]. unfold stored in Hs.
    rewrite (stored_exists _ _ _ Hs) in Hr. split.
    + intros r Hne. rewrite Hr. now apply in_replace_row_other.
    + exists (updated_user user data (clock db)). unfold stored. rewrite Hr.
      split; [|now repeat split].
      apply (find_replace_row (updated_user user data (clock db)) (rows db) user Hs).
  - destruct (update_with_cases env user partial data db)
      as (db1 & (Hr1 & _) & [(errs & _ & Hr)|(attrs & Hi' & _)]).
    + apply Hsame. rewrite Hr. simpl. now symmetry.
    + rewrite Hi in Hi'. discriminate.
Qed.

Lemma X21_witness :
  stored (pk sample_user) two_users_db = Some sample_user /\
  exists u,
    stored (pk sample_user)
      (snd (UserProfileView.update_with sample_env false sample_user sample_update
              two_users_db)) = Some u /\
    pk u = pk sample_user /\ password u = password sample_user /\
    is_active u = is_active sample_user /\ is_staff u = is_staff sample_user /\
    is_superuser u = is_superuser sample_user /\ created_at u = created_at sample_user.
Proof.
  split; [reflexivity|].
  apply (proj2 (X21_profile_update_frame sample_env sample_user false sample_update
                  two_users_db eq_refl)).
Defined.

(** ** The tables the application can reach *)

Lemma consistent_same_table a b : same_table a b -> consistent a -> consistent b.
Proof.
  intros (Hr & Hn & Hc) (H1 & H2 & H3 & H4).
  unfold consistent, unique_emails, trimmed_emails, keys_ok, stamps_ok in *.
  rewrite <- Hr, <- Hn, <- Hc. auto.
Qed.

Lemma map_pk_replace_row saved l : map pk (replace_row saved l) = map pk l.
Proof.
  unfold replace_row. rewrite map_map. apply map_ext.
  intros r. destruct (Nat.eqb_spec (pk r) (pk saved)); congruence.
Qed.

(** The INSERT of [save] keeps a table consistent. *)
Lemma save_insert_consistent u db :
  PyStr.strip (email u) = email u ->
  consistent db -> consistent (snd (save_insert u db)).
Proof.
  intros He (Hu & Ht & (Hnd & Hpos & Hk) & Hs).
  split; [now apply save_insert_unique|].
  unfold save_insert. run_store.
  destruct (existsb _ (rows db)); simpl;
    [exact (conj Ht (conj (conj Hnd (conj Hpos Hk)) Hs))|].
  split; [|split; [split; [|split]|]]; simpl.
  - intros r Hin. apply in_app_or in Hin as [Hin|[<-|[]]]; [now apply Ht | exact He].
  - rewrite map_app. apply NoDup_app; [exact Hnd | repeat constructor; intros [] |].
    intros k Hin [<-|[]]. apply in_map_iff in Hin as (r & Hr & Hin).
    specialize (Hk r Hin). simpl in Hr. lia.
  - lia.
  - intros r Hin. apply in_app_or in Hin as [Hin|[<-|[]]].
    + specialize (Hk r Hin). lia.
    + simpl. lia.
  - unfold stamps_ok. simpl. intros r Hin. apply in_app_or in Hin as [Hin|[<-|[]]].
    + specialize (Hs r Hin). lia.
    + simpl. lia.
Qed.

(** The UPDATE of [save] keeps a table consistent, when the instance came
    from a row of the table and kept its key and [created_at]. *)
Lemma save_update_consistent u user db :
  In user (rows db) -> pk u = pk user -> created_at u = created_at user ->
  PyStr.strip (email u) = email u ->
  consistent db -> consistent (snd (save_update u db)).
Proof.
  intros Hin Hpk Hcr He (Hu & Ht & (Hnd & Hpos & Hk) & Hs).
  split; [now apply save_update_unique|].
  split; [now apply save_update_trimmed|].
  unfold save_update. run_store.
  destruct (existsb _ (rows db)); simpl;
    [exact (conj (conj Hnd (conj Hpos Hk)) Hs)|].
  rewrite Hpk, (existsb_pk_of_in _ _ Hin).
  split; [split; [|split]|]; simpl.
  - now rewrite map_pk_replace_row.
  - exact Hpos.
  - intros r Hr. apply in_replace_row in Hr as [->|[Hr _]]; [|now apply Hk].
    simpl. now apply Hk.
  - unfold stamps_ok. simpl. intros r Hr. apply in_replace_row in Hr as [->|[Hr _]].
    + simpl. specialize (Hs user Hin). lia.
    + specialize (Hs r Hr). lia.
Qed.

Lemma _create_user_consistent env e p extra db :
  consistent db -> consistent (snd (_create_user env e p extra db)).
Proof.
  intros H. unfold _create_user.
  destruct (negb (truthy_opt e)); [exact H|].
  destruct (negb (truthy_opt p)); [exact H|].
  apply save_insert_consistent; [|exact H].
  simpl. apply (stored_email_normal (normalize_email e)).
Qed.

Lemma create_user_consistent env e p extra db :
  consistent db -> consistent (snd (create_user env e p extra db)).
Proof. unfold create_user. apply _create_user_consistent. Qed.

Lemma create_superuser_consistent env e p extra db :
  consistent db -> consistent (snd (create_superuser env e p extra db)).
Proof.
  intros H. unfold create_superuser. simpl.
  destruct (x_is_staff extra) as [[]|]; try exact H;
    destruct (x_is_superuser extra) as [[]|]; try exact H;
    now apply _create_user_consistent.
Qed.

Lemma registration_consistent env data db :
  consistent db -> consistent (snd (UserRegistrationView.post env data db)).
Proof.
  intros H.
  destruct (is_valid_read_only_registration env data db) as [Hs _].
  unfold UserRegistrationView.post.
  destruct (UserRegistrationSerializer.is_valid env data db) as [[[errors|v]|ex] db1] eqn:E;
    simpl in Hs;
    [ rewrite (bind_returned _ _ _ _ _ E) | rewrite (bind_returned _ _ _ _ _ E)
    | rewrite (bind_raised _ _ _ _ _ E) ];
    try (simpl; now apply (consistent_same_table db)).
  apply (consistent_same_table db db1 Hs) in H.
  unfold bind, UserRegistrationSerializer.create.
  destruct (lookup "password_confirm" v); [|exact H].
  destruct (lookup "email" _); [|exact H].
  match goal with |- context [create_user env ?e ?p ?x db1] =>
    pose proof (create_user_consistent env e p x db1 H) as Hc;
    destruct (create_user env e p x db1) as [[u|ex] db2]
  end; exact Hc.
Qed.

Lemma login_consistent env data db :
  consistent db -> consistent (snd (UserLoginView.post env data db)).
Proof.
  apply consistent_same_table. apply (post_read_only_login env data db).
Qed.

Lemma save_update_updated_at u now :
  save_update u
  = save_update (mkUser (pk u) (email u) (password u) (first_name u) (last_name u)
                   (is_active u) (is_staff u) (is_superuser u) (created_at u) now).
Proof. reflexivity. Qed.

Lemma profile_update_consistent env user partial data db :
  In user (rows db) ->
  consistent db ->
  consistent (snd (UserProfileView.update_with env partial user data db)).
Proof.
  intros Hin H.
  destruct (update_with_cases env user partial data db)
    as (db1 & Hs & [(errors & _ & ->)|(attrs & Hi & ->)]);
    [now apply (consistent_same_table db)|].
  destruct (is_valid_cases_profile env user partial data db)
    as [(_ & Hi')|(errs & _ & _ & Hi' & _)]; rewrite Hi in Hi'; [|discriminate].
  injection Hi' as ->.
  pose proof (consistent_same_table db db1 Hs H) as H1.
  assert (Hin1 : In user (rows db1)) by (destruct Hs as (<- & _); exact Hin).
  unfold UserProfileSerializer.update, bind.
  pose proof (set_attrs_profile user data 0) as Hset.
  destruct (UserProfileSerializer.set_attrs user (profile_attrs data)) as [u|];
    [|contradiction].
  assert (Hc : consistent (snd (save_update u db1))).
  { apply (save_update_consistent u user db1 Hin1).
    - now injection Hset.
    - now injection Hset.
    - assert (Hem : email u = email (updated_user user data 0)) by (now injection Hset).
      rewrite Hem. unfold updated_user; simpl.
      destruct (lookup "email" data) as [[|e]|]; try apply strip_idem;
        destruct H as (_ & Ht & _); now apply Ht.
    - exact H1. }
  destruct (save_update u db1) as [[saved|ex] db2]; exact Hc.
Qed.

(** X22: every table that the manager and the three handlers can make of
    the empty one is consistent: no two rows share an address, every stored
    address is trimmed, the keys are distinct and below the next key of the
    sequence, and every row was created no later than it was last saved,
    which was before now. *)
Theorem X22_reachable_tables_consistent :
  forall env db,
    reachable env db ->
    unique_emails db /\ trimmed_emails db /\ keys_ok db /\ stamps_ok db.
Proof.
  intros env db H. change (consistent db).
  induction H as [|e p extra db _ IH|e p extra db _ IH|data db _ IH|data db _ IH
                  |partial user data db _ IH Hin].
  - split; [intros r1 r2 []|]. split; [intros r []|].
    split; [|intros r []].
    split; [constructor|]. split; [simpl; lia | intros r []].
  - now apply create_user_consistent.
  - now apply create_superuser_consistent.
  - now apply registration_consistent.
  - now apply login_consistent.
  - now apply profile_update_consistent.
Qed.

Lemma X22_witness :
  reachable sample_env
    (snd (UserProfileView.put sample_env sample_user sample_update two_users_db)) /\
  unique_emails
    (snd (UserProfileView.put sample_env sample_user sample_update two_users_db)) /\
  trimmed_emails
    (snd (UserProfileView.put sample_env sample_user sample_update two_users_db)) /\
  keys_ok
    (snd (UserProfileView.put sample_env sample_user sample_update two_users_db)) /\
  stamps_ok
    (snd (UserProfileView.put sample_env sample_user sample_update two_users_db)).
Proof.
  assert (H : reachable sample_env
                (snd (UserProfileView.put sample_env sample_user sample_update
                        two_users_db))).
  { unfold UserProfileView.put. apply reach_profile; [|left; reflexivity].
    unfold two_users_db. apply reach_create_user.
    unfold sample_db. apply reach_create_user. apply reach_empty. }
  split; [exact H|].
  exact (X22_reachable_tables_consistent sample_env _ H).
Defined.

(** X23: the registration handler raises in one situation only: the
    serializer accepts the request, so no row holds the trimmed address as
    typed, but a row holds it in lower case, so the address has an
    upper-case letter.  The exception is then the [IntegrityError] of the
    INSERT and the table is as before; in particular the handler never
    raises [ValueError]. *)
Theorem X23_registration_raises_only_on_case_variant :
  forall env data db ex,
    fst (UserRegistrationView.post env data db) = Raised ex ->
    ex = IntegrityError UNIQUE_FAILED /\
    rows (snd (UserRegistrationView.post env data db)) = rows db /\
    exists e p,
      registration_accepted env db data e p /\
      PyStr.lower (PyStr.strip e) <> PyStr.strip e /\
      existsb (fun r => String.eqb (email r) (PyStr.lower (PyStr.strip e))) (rows db)
        = true.
Proof.
  intros env data db ex Hr.
  destruct (is_valid_cases env data db)
    as [(e & p & Hacc & _)|(errors & _ & Hi & _)].
  - pose proof (post_accepted env data e p db Hacc) as H.
    destruct (existsb _ (rows db)) eqn:Hx.
    + destruct H as [Hf Hrows]. rewrite Hf in Hr. injection Hr as <-.
      split; [reflexivity|]. split; [exact Hrows|]. exists e, p.
      split; [exact Hacc|]. split; [|exact Hx].
      intros Heq. rewrite Heq in Hx.
      destruct Hacc as (_ & _ & _ & (_ & Hfree & _) & _). congruence.
    + destruct H as [Hf _]. rewrite Hf in Hr. discriminate.
  - destruct (post_of_invalid env data db errors Hi) as [Hf _].
    rewrite Hf in Hr. discriminate.
Qed.

Lemma X23_witness :
  fst (UserRegistrationView.post sample_env
         (registration_data "Test@Example.com" "OtherPass123!" "OtherPass123!")
         registered_db) = Raised (IntegrityError UNIQUE_FAILED) /\
  exists e p,
    registration_accepted sample_env registered_db
      (registration_data "Test@Example.com" "OtherPass123!" "OtherPass123!") e p /\
    PyStr.lower (PyStr.strip e) <> PyStr.strip e /\
    existsb (fun r => String.eqb (email r) (PyStr.lower (PyStr.strip e)))
      (rows registered_db) = true.
Proof.
  split; [reflexivity|].
  apply (X23_registration_raises_only_on_case_variant sample_env
           (registration_data "Test@Example.com" "OtherPass123!" "OtherPass123!")
           registered_db (IntegrityError UNIQUE_FAILED) eq_refl).
Defined.
